(** * RecTools classification metrics: [rectools/metrics/classification.py]

    A shallow embedding of the confusion-table construction
    ([calc_confusions]), of the per-user metric formulas (Precision, Recall,
    Accuracy, F1Beta, MCC and their debiased variants) and of the batch
    driver [calc_classification_metrics], followed by the properties of the
    specification that concern them.

    Numbers are modelled as pandas holds them: the count columns of a
    confusion table are numpy [int64] (integers with wrap-around), metric
    values are IEEE 754 binary64 ([float64]), taken from the Standard
    Library's executable specification [SpecFloat].  The attribute [beta]
    of F1Beta is a built-in Python float, whose [beta ** 2] can raise. *)

From Stdlib Require Import ZArith List Bool Lia Sorting.Sorted.
From Stdlib Require Import Floats.SpecFloat.
From stdpp Require Import base list strings.

Open Scope Z_scope.

(** ** numpy [int64] *)

Module Int64.
Definition min_value : Z := - 2 ^ 63.
Definition max_value : Z := 2 ^ 63 - 1.

Definition in_range (z : Z) : Prop := min_value <= z <= max_value.

(** Two's complement wrap-around of an integer result. *)
Definition wrap (z : Z) : Z := (z + 2 ^ 63) mod 2 ^ 64 - 2 ^ 63.

Definition add (a b : Z) : Z := wrap (a + b).
Definition sub (a b : Z) : Z := wrap (a - b).
Definition mul (a b : Z) : Z := wrap (a * b).
End Int64.

(** ** numpy [float64] *)

Module Float64.
Definition float : Type := spec_float.

Definition prec : Z := 53.
Definition emax : Z := 1024.

Definition zero : float := S754_zero false.
Definition nan : float := S754_nan.

(** Conversion of an [int64] (or of a Python int) to [float64], rounding
    to nearest, ties to even. *)
Definition of_int (z : Z) : float := binary_normalize prec emax z 0 false.

Definition one : float := of_int 1.

Definition add : float -> float -> float := SFadd prec emax.
Definition mul : float -> float -> float := SFmul prec emax.
Definition div : float -> float -> float := SFdiv prec emax.
Definition sqrt : float -> float := SFsqrt prec emax.
Definition eqb : float -> float -> bool := SFeqb.
Definition leb : float -> float -> bool := SFleb.

Definition is_nan (x : float) : bool :=
  match x with S754_nan => true | _ => false end.

Definition is_zero (x : float) : bool :=
  match x with S754_zero _ => true | _ => false end.

Definition is_infinite (x : float) : bool :=
  match x with S754_infinity _ => true | _ => false end.

Definition is_finite (x : float) : bool :=
  match x with S754_zero _ | S754_finite _ _ _ => true | _ => false end.
End Float64.

Abbreviation float := Float64.float.

(** ** Tables *)

(** A row of the merged table, the input of [calc_confusions]: the columns
    [Columns.User], [Columns.Item] and [Columns.Rank].  [Rank] is missing
    (NaN) when the item was not recommended; ranks are list positions. *)
Record merged_row : Type := MergedRow {
  User : Z;
  Item : Z;
  Rank : option Z;
  (** Modelled from the spec: the data model's marker telling whether the
      item of the row was interacted with.  The join [merge_reco] that
      builds merged tables is defined in [rectools/metrics/base.py]. *)
  Interacted : bool
}.

Abbreviation merged_df := (list merged_row).

(** The count columns [LIKED], [TP], [FP], [FN] of one user. *)
Record counts : Type := Counts {
  LIKED : Z;
  TP : Z;
  FP : Z;
  FN : Z
}.

(** A confusion table, indexed by user.  The column [TN] is optional: it
    is either present in every row or absent from the table. *)
Inductive confusion_table : Type :=
| Confusion (rows : list (Z * counts))
| ConfusionTN (rows : list (Z * (counts * Z))).

(** A series of metric values, indexed by user. *)
Abbreviation series := (list (Z * float)).

(** ** [groupby] *)

Section GroupBy.
Context {A : Type} (key : A -> Z).

(** Groups are kept sorted by key; the rows of a group keep the order of
    the table. *)
Fixpoint insert_group (r : A) (gs : list (Z * list A)) : list (Z * list A) :=
  match gs with
  | [] => [(key r, [r])]
  | (v, g) :: gs' =>
      if key r <? v then (key r, [r]) :: gs
      else if key r =? v then (v, g ++ [r]) :: gs'
      else (v, g) :: insert_group r gs'
  end.

Definition groupby (rows : list A) : list (Z * list A) :=
  fold_left (fun gs r => insert_group r gs) rows [].
End GroupBy.

(** [Rank <= k] as a comparison of integers, false on a missing rank.
    numpy compares so on a column [Rank] of dtype [int64]; on a column of
    dtype [float64] it compares floats ([is_hit_float64] below), which
    comes to the same for [|k| < 2^53]. *)
Definition is_hit (k : Z) (r : merged_row) : bool :=
  match Rank r with
  | Some rank => rank <=? k
  | None => false
  end.

(** Aggregation ["sum"] of a boolean column. *)
Definition agg_sum (bs : list bool) : Z :=
  Z.of_nat (length (filter (fun b => b = true) bs)).

(** Aggregation ["size"]. *)
Definition agg_size {A : Type} (g : list A) : Z := Z.of_nat (length g).

(** ** [calc_confusions] *)

(** Both [LIKED] and [TP] come from grouping the rows of [merged] by user:
    the two series have the same index, so that the assignment
    [confusion_df[TP] = ...], which aligns on the index, pairs them position
    by position.  [Rank <= @k] is the comparison of integers [is_hit]: the
    function is the code's on the inputs of [Rank_le_exact] below, where
    the dtype of the column [Rank] makes no difference
    ([calc_confusions_numpy] follows the dtype for every [k]). *)
Definition calc_confusions (merged : merged_df) (k : Z) : confusion_table :=
  let liked := map (fun '(u, g) => (u, agg_size g)) (groupby User merged) in
  let with_hit := map (fun r => (r, is_hit k r)) merged in
  let tp :=
    map (fun '(u, g) => (u, agg_sum (map snd g)))
        (groupby (fun rh => User (fst rh)) with_hit) in
  Confusion
    (zip_with
       (fun '(u, liked) '(_, tp) =>
          (u, {| LIKED := liked;
                 TP := tp;
                 FP := Int64.sub k tp;
                 FN := Int64.sub liked tp |}))
       liked tp).

(** *** The dtype of the column [Rank] *)






(** ** Metric classes *)

(** Exceptions: the two errors of the batch driver, the [KeyError] of a
    column or dictionary key that is read but absent, the
    [NotImplementedError] of the base classes' formula and the
    [OverflowError] of [beta ** 2]. *)
Inductive exn : Type :=
  ValueError | TypeError | KeyError | NotImplementedError | OverflowError.

Inductive outcome (A : Type) : Type :=
| Return (a : A)
| Raise (e : exn).
Arguments Return {A} a.
Arguments Raise {A} e.

(** The attributes of [DebiasMetric] (defined in [rectools/metrics/base.py]). *)
Record DebiasConfig : Type := {
  iqr_coef : float;
  random_state : Z
}.

(** Metric objects.  The two base classes can be instantiated themselves
    (their formula is not implemented).  [OtherMetric] stands for an object
    with an attribute [k] that is an instance of neither classification
    base class. *)
Inductive metric : Type :=
| SimpleClassificationMetric (k : Z)
| ClassificationMetric (k : Z)
| Precision (k : Z)
| Recall (k : Z)
| Accuracy (k : Z)
| F1Beta (k : Z) (beta : float)
| MCC (k : Z)
| DebiasPrecision (k : Z) (cfg : DebiasConfig)
| DebiasRecall (k : Z) (cfg : DebiasConfig)
| DebiasF1Beta (k : Z) (beta : float) (cfg : DebiasConfig)
| DebiasAccuracy (k : Z) (cfg : DebiasConfig)
| DebiasMCC (k : Z) (cfg : DebiasConfig)
| OtherMetric (k : Z).

(** [metric.k] *)
Definition metric_k (m : metric) : Z :=
  match m with
  | SimpleClassificationMetric k | ClassificationMetric k
  | Precision k | Recall k | Accuracy k | F1Beta k _ | MCC k
  | DebiasPrecision k _ | DebiasRecall k _ | DebiasF1Beta k _ _
  | DebiasAccuracy k _ | DebiasMCC k _ | OtherMetric k => k
  end.

(** The cutoffs that the model covers: [k] is an [int64] value and, when a
    catalog is given, so is [len(catalog) - k], so that numpy computes the
    columns [FP] and [TN] in [int64]. *)
Definition int64_cutoff (catalog : option (list Z)) (m : metric) : Prop :=
  Int64.in_range (metric_k m)
  /\ forall catalog',
       catalog = Some catalog' ->
       Int64.in_range (Z.of_nat (length catalog') - metric_k m).

Definition isinstance_SimpleClassificationMetric (m : metric) : bool :=
  match m with
  | SimpleClassificationMetric _
  | Precision _ | Recall _ | F1Beta _ _
  | DebiasPrecision _ _ | DebiasRecall _ _ | DebiasF1Beta _ _ _ => true
  | _ => false
  end.

Definition isinstance_ClassificationMetric (m : metric) : bool :=
  match m with
  | ClassificationMetric _
  | Accuracy _ | MCC _ | DebiasAccuracy _ _ | DebiasMCC _ _ => true
  | _ => false
  end.

(** [isinstance(metric, (DebiasPrecision, DebiasRecall, DebiasF1Beta,
    DebiasAccuracy, DebiasMCC))], with the debias attributes of the
    instance. *)
Definition isinstance_Debias (m : metric) : option DebiasConfig :=
  match m with
  | DebiasPrecision _ cfg | DebiasRecall _ cfg | DebiasF1Beta _ _ cfg
  | DebiasAccuracy _ cfg | DebiasMCC _ cfg => Some cfg
  | _ => None
  end.

(** The rows of the columns [LIKED], [TP], [FP], [FN], which every confusion
    table has. *)
Definition confusion_rows (df : confusion_table) : list (Z * counts) :=
  match df with
  | Confusion rows => rows
  | ConfusionTN rows => map (fun '(u, (c, _)) => (u, c)) rows
  end.

(** [TN not in confusion_df] *)
Definition TN_not_in (df : confusion_table) : bool :=
  match df with
  | Confusion _ => true
  | ConfusionTN _ => false
  end.

(** ** Python [float] *)

Module PyFloat.
Section Pow.
(** [pow(x, 2.0)] of the C library, on a finite [x > 0] other than [1.0].
    Its result is close to the square of [x], but it is not always the
    product [x * x] rounded (glibc's differs from it on some inputs), so
    that it is kept as a parameter. *)
Variable libm_pow2 : float -> float.

(** [x ** 2] on a built-in float, as CPython's [float_pow] computes it: the
    special values are sorted out first, a negative base is replaced by its
    absolute value (the exponent is even), [1.0] is returned for the base
    [1.0], the C library does the rest, and its result is turned into an
    [OverflowError] when it is out of range. *)
Definition pow2 (x : float) : outcome float :=
  match x with
  | S754_nan => Return Float64.nan
  | S754_infinity _ => Return (S754_infinity false)
  | S754_zero _ => Return Float64.zero
  | S754_finite _ m e =>
      let iv := S754_finite false m e in
      if Float64.eqb iv Float64.one then Return Float64.one
      else
        let ix := libm_pow2 iv in
        if Float64.is_infinite ix then Raise OverflowError else Return ix
  end.
End Pow.

(** A C library whose [pow(x, 2.0)] is the product [x * x] rounded. *)
Definition rounded_square (x : float) : float := Float64.mul x x.
End PyFloat.

(** *** Per-user formulas *)

(** The formulas are written on whole columns; [per_user] is the value of
    the expression at one row, and the method maps it over the rows. *)

Module Precision.
Definition per_user (k : Z) (c : counts) : float :=
  Float64.div (Float64.of_int (TP c)) (Float64.of_int k).

Definition _calc_per_user_from_confusion_df (k : Z) (confusion_df : confusion_table) : series :=
  map (fun '(u, c) => (u, per_user k c)) (confusion_rows confusion_df).
End Precision.

Module Recall.
Definition per_user (c : counts) : float :=
  Float64.div (Float64.of_int (TP c)) (Float64.of_int (LIKED c)).

Definition _calc_per_user_from_confusion_df (confusion_df : confusion_table) : series :=
  map (fun '(u, c) => (u, per_user c)) (confusion_rows confusion_df).
End Recall.

Module F1Beta.
(** [(1 + beta_sqr) * p_k * r_k / (beta_sqr * p_k + r_k)] *)
Definition raw_f1 (beta_sqr p_k r_k : float) : float :=
  Float64.div
    (Float64.mul (Float64.mul (Float64.add Float64.one beta_sqr) p_k) r_k)
    (Float64.add (Float64.mul beta_sqr p_k) r_k).

(** The value of [f1] at one row, for the [beta_sqr] of the method. *)
Definition per_user (k : Z) (beta_sqr : float) (c : counts) : float :=
  let p_k := Float64.div (Float64.of_int (TP c)) (Float64.of_int k) in
  let r_k := Float64.div (Float64.of_int (TP c)) (Float64.of_int (LIKED c)) in
  let f1 := raw_f1 beta_sqr p_k r_k in
  if Float64.eqb p_k Float64.zero && Float64.eqb r_k Float64.zero
  then Float64.zero
  else f1.

Section Pow.
Variable libm_pow2 : float -> float.

(** [beta_sqr = self.beta**2] comes first: when it raises, no row is
    read. *)
Definition _calc_per_user_from_confusion_df
    (k : Z) (beta : float) (confusion_df : confusion_table) : outcome series :=
  match PyFloat.pow2 libm_pow2 beta with
  | Raise e => Raise e
  | Return beta_sqr =>
      Return (map (fun '(u, c) => (u, per_user k beta_sqr c))
                  (confusion_rows confusion_df))
  end.
End Pow.
End F1Beta.

Module Accuracy.
Definition per_user (n_items : Z) (c : counts) (tn : Z) : float :=
  Float64.div (Float64.of_int (Int64.add (TP c) tn)) (Float64.of_int n_items).

Definition _calc_per_user_from_confusion_df
    (confusion_df : confusion_table) (catalog : list Z) : outcome series :=
  match confusion_df with
  | Confusion _ => Raise KeyError
  | ConfusionTN rows =>
      Return (map (fun '(u, (c, tn)) => (u, per_user (Z.of_nat (length catalog)) c tn)) rows)
  end.
End Accuracy.

Module MCC.
Definition mcc_numerator (c : counts) (tn : Z) : Z :=
  Int64.sub (Int64.mul (TP c) tn) (Int64.mul (FP c) (FN c)).

(** The product under the square root, in [int64] arithmetic. *)
Definition mcc_product (c : counts) (tn : Z) : Z :=
  Int64.mul
    (Int64.mul
       (Int64.mul (Int64.add (TP c) (FP c)) (Int64.add (TP c) (FN c)))
       (Int64.add tn (FP c)))
    (Int64.add tn (FN c)).

Definition mcc_denominator (c : counts) (tn : Z) : float :=
  Float64.sqrt (Float64.of_int (mcc_product c tn)).

Definition raw_mcc (c : counts) (tn : Z) : float :=
  Float64.div (Float64.of_int (mcc_numerator c tn)) (mcc_denominator c tn).

Definition per_user (c : counts) (tn : Z) : float :=
  if Float64.eqb (mcc_denominator c tn) Float64.zero
  then Float64.zero
  else raw_mcc c tn.

Definition _calc_per_user_from_confusion_df
    (confusion_df : confusion_table) (catalog : list Z) : outcome series :=
  match confusion_df with
  | Confusion _ => Raise KeyError
  | ConfusionTN rows => Return (map (fun '(u, (c, tn)) => (u, per_user c tn)) rows)
  end.
End MCC.

(** *** Base classes *)

Module SimpleClassificationMetric.
Section Pow.
Variable libm_pow2 : float -> float.

(** [self._calc_per_user_from_confusion_df(confusion_df)], dispatched on
    the class of [self]. *)
Definition _calc_per_user_from_confusion_df
    (self : metric) (confusion_df : confusion_table) : outcome series :=
  match self with
  | Precision k | DebiasPrecision k _ =>
      Return (Precision._calc_per_user_from_confusion_df k confusion_df)
  | Recall _ | DebiasRecall _ _ =>
      Return (Recall._calc_per_user_from_confusion_df confusion_df)
  | F1Beta k beta | DebiasF1Beta k beta _ =>
      F1Beta._calc_per_user_from_confusion_df libm_pow2 k beta confusion_df
  | _ => Raise NotImplementedError
  end.

Definition calc_per_user_from_confusion_df
    (self : metric) (confusion_df : confusion_table) : outcome series :=
  _calc_per_user_from_confusion_df self confusion_df.

Section Mean.
(** [pd.Series.mean] *)
Variable mean : series -> float.

Definition calc_from_confusion_df
    (self : metric) (confusion_df : confusion_table) : outcome float :=
  match calc_per_user_from_confusion_df self confusion_df with
  | Return per_user => Return (mean per_user)
  | Raise e => Raise e
  end.
End Mean.
End Pow.
End SimpleClassificationMetric.

Module ClassificationMetric.
Definition _calc_per_user_from_confusion_df
    (self : metric) (confusion_df : confusion_table) (catalog : list Z) : outcome series :=
  match self with
  | Accuracy _ | DebiasAccuracy _ _ =>
      Accuracy._calc_per_user_from_confusion_df confusion_df catalog
  | MCC _ | DebiasMCC _ _ =>
      MCC._calc_per_user_from_confusion_df confusion_df catalog
  | _ => Raise NotImplementedError
  end.

(** [confusion_df[TN] = len(catalog) - self.k - confusion_df[FN]], done
    when the table has no column [TN].  [len(catalog) - self.k] is a Python
    int, from which numpy subtracts the [int64] column in [int64] when that
    int is an [int64] value: this is what is modelled.  (For another [k],
    numpy leaves [int64] or raises, depending on its version.) *)
Definition ensure_TN (self : metric) (confusion_df : confusion_table) (catalog : list Z)
    : confusion_table :=
  if TN_not_in confusion_df then
    ConfusionTN
      (map (fun '(u, c) =>
              (u, (c, Int64.sub (Z.of_nat (length catalog) - metric_k self) (FN c))))
           (confusion_rows confusion_df))
  else confusion_df.

(** The table is changed in place: the first component is the caller's
    table as the call leaves it, the second what the call returns. *)
Definition calc_per_user_from_confusion_df
    (self : metric) (confusion_df : confusion_table) (catalog : list Z)
    : confusion_table * outcome series :=
  let confusion_df := ensure_TN self confusion_df catalog in
  (confusion_df, _calc_per_user_from_confusion_df self confusion_df catalog).

Section Mean.
Variable mean : series -> float.

Definition calc_from_confusion_df
    (self : metric) (confusion_df : confusion_table) (catalog : list Z)
    : confusion_table * outcome float :=
  let '(confusion_df, per_user) :=
    calc_per_user_from_confusion_df self confusion_df catalog in
  (confusion_df,
   match per_user with
   | Return per_user => Return (mean per_user)
   | Raise e => Raise e
   end).
End Mean.
End ClassificationMetric.

(** ** [make_confusions] *)

Section MakeConfusions.
Context {reco_df interactions_df : Type}.
(** The join of [rectools/metrics/base.py]. *)
Variable merge_reco : reco_df -> interactions_df -> merged_df.

Definition make_confusions (reco : reco_df) (interactions : interactions_df) (k : Z)
    : confusion_table :=
  let merged := merge_reco reco interactions in
  calc_confusions merged k.
End MakeConfusions.

(** ** The batch driver *)

(** Computations of the driver: they may raise, and every call of
    [calc_confusions] is recorded with its arguments. *)
Abbreviation call_log := (list (merged_df * Z)).

Definition M (A : Type) : Type := call_log -> outcome A * call_log.

Definition ret {A : Type} (a : A) : M A := fun log => (Return a, log).

Definition raise {A : Type} (e : exn) : M A := fun log => (Raise e, log).

Definition bind {A B : Type} (c : M A) (f : A -> M B) : M B :=
  fun log =>
    match c log with
    | (Return a, log') => f a log'
    | (Raise e, log') => (Raise e, log')
    end.

Notation "x <- c ;; f" := (bind c (fun x => f))
  (at level 100, c at next level, right associativity).

Definition lift {A : Type} (o : outcome A) : M A := fun log => (o, log).

Definition call_calc_confusions (merged : merged_df) (k : Z) : M confusion_table :=
  fun log => (Return (calc_confusions merged k), log ++ [(merged, k)]).

(** A [for] loop that updates an accumulator. *)
Fixpoint for_each {A S : Type} (xs : list A) (body : A -> S -> M S) (s : S) : M S :=
  match xs with
  | [] => ret s
  | x :: xs' => s' <- body x s ;; for_each xs' body s'
  end.

(** Python dictionaries with their insertion order, as association lists
    with distinct keys. *)
Section Dict.
Context {K V : Type} `{EqDecision K}.

Fixpoint dict_get (key : K) (d : list (K * V)) : option V :=
  match d with
  | [] => None
  | (k', v) :: d' => if decide (key = k') then Some v else dict_get key d'
  end.

Fixpoint dict_set (key : K) (v : V) (d : list (K * V)) : list (K * V) :=
  match d with
  | [] => [(key, v)]
  | (k', v') :: d' =>
      if decide (key = k') then (k', v) :: d' else (k', v') :: dict_set key v d'
  end.
End Dict.

(** [k_map[k].append(name)] on a [defaultdict(list)]. *)
Fixpoint k_map_append (k : Z) (name : string) (k_map : list (Z * list string))
    : list (Z * list string) :=
  match k_map with
  | [] => [(k, [name])]
  | (k', names) :: k_map' =>
      if decide (k = k') then (k', names ++ [name]) :: k_map'
      else (k', names) :: k_map_append k name k_map'
  end.

Definition build_k_map (metrics : list (string * metric)) : list (Z * list string) :=
  fold_left (fun k_map '(name, metric) => k_map_append (metric_k metric) name k_map)
            metrics [].

Section Driver.
(** The C library's [pow(x, 2.0)], [DebiasMetric.make_downsample] and
    [pd.Series.mean]. *)
Variable libm_pow2 : float -> float.
Variable make_downsample : DebiasConfig -> merged_df -> merged_df.
Variable mean : series -> float.

(** The body of the inner loop. *)
Definition calc_metric
    (metrics : list (string * metric)) (merged : merged_df) (catalog : option (list Z))
    (k : Z) (metric_name : string) (results : list (string * float))
    : M (list (string * float)) :=
  match dict_get metric_name metrics with
  | None => raise KeyError
  | Some metric =>
      confusion_df <-
        match isinstance_Debias metric with
        | Some cfg =>
            let merged_without_pop_bias := make_downsample cfg merged in
            call_calc_confusions merged_without_pop_bias k
        | None => call_calc_confusions merged k
        end ;;
      res <-
        (if isinstance_SimpleClassificationMetric metric then
           lift (SimpleClassificationMetric.calc_from_confusion_df
                   libm_pow2 mean metric confusion_df)
         else if isinstance_ClassificationMetric metric then
           match catalog with
           | None => raise ValueError
           | Some catalog =>
               (* the table, changed in place, is not used again *)
               lift (snd (ClassificationMetric.calc_from_confusion_df
                            mean metric confusion_df catalog))
           end
         else raise TypeError) ;;
      ret (dict_set metric_name res results)
  end.

Definition calc_classification_metrics
    (metrics : list (string * metric)) (merged : merged_df) (catalog : option (list Z))
    : M (list (string * float)) :=
  let k_map := build_k_map metrics in
  for_each k_map
    (fun '(k, k_metrics) results =>
       for_each k_metrics (calc_metric metrics merged catalog k) results)
    [].
End Driver.

(** ** Reading the driver's loops *)

Definition flatten_k_map (k_map : list (Z * list string)) : list (Z * string) :=
  flat_map (fun '(k, k_metrics) => map (fun name => (k, name)) k_metrics) k_map.

(** The pairs [(k, metric_name)] in the order in which the nested loops of
    [calc_classification_metrics] visit them. *)
Definition eval_order (metrics : list (string * metric)) : list (Z * string) :=
  flatten_k_map (build_k_map metrics).

(** [metrics[metric_name]] along a list of visited pairs. *)
Definition resolve (metrics : list (string * metric)) (l : list (Z * string))
    : list (Z * metric) :=
  omap (fun '(k, name) => (fun m => (k, m)) <$> dict_get name metrics) l.

(** The metric objects in the order of the loops, each with the [k] of its
    group. *)
Definition ordered_metrics (metrics : list (string * metric)) : list (Z * metric) :=
  resolve metrics (eval_order metrics).

Section Errors.
Variable libm_pow2 : float -> float.

(** The error that the formula of a metric raises, whatever the table: the
    formula of the base classes is not implemented, and [beta ** 2] of
    F1Beta can be out of range. *)
Definition formula_error (m : metric) : option exn :=
  match m with
  | SimpleClassificationMetric _ | ClassificationMetric _ => Some NotImplementedError
  | F1Beta _ beta | DebiasF1Beta _ beta _ =>
      match PyFloat.pow2 libm_pow2 beta with
      | Raise e => Some e
      | Return _ => None
      end
  | _ => None
  end.

(** The error, if any, at which a run over the metrics [ms] stops. *)
Fixpoint first_error (catalog : option (list Z)) (ms : list (Z * metric)) : option exn :=
  match ms with
  | [] => None
  | (_, m) :: ms' =>
      if isinstance_SimpleClassificationMetric m then
        match formula_error m with
        | Some e => Some e
        | None => first_error catalog ms'
        end
      else if isinstance_ClassificationMetric m then
        match catalog with
        | None => Some ValueError
        | Some _ =>
            match formula_error m with
            | Some e => Some e
            | None => first_error catalog ms'
            end
        end
      else Some TypeError
  end.

(** The metrics that a run reaches: all of them, or those up to the one
    that raises. *)
Fixpoint reached (catalog : option (list Z)) (ms : list (Z * metric)) : list (Z * metric) :=
  match ms with
  | [] => []
  | (k, m) :: ms' =>
      if isinstance_SimpleClassificationMetric m then
        match formula_error m with
        | Some _ => [(k, m)]
        | None => (k, m) :: reached catalog ms'
        end
      else if isinstance_ClassificationMetric m then
        match catalog with
        | None => [(k, m)]
        | Some _ =>
            match formula_error m with
            | Some _ => [(k, m)]
            | None => (k, m) :: reached catalog ms'
            end
        end
      else [(k, m)]
  end.
End Errors.

(** The arguments with which [calc_confusions] is called for a metric. *)
Definition call_of (make_downsample : DebiasConfig -> merged_df -> merged_df)
    (merged : merged_df) (km : Z * metric) : merged_df * Z :=
  match isinstance_Debias (snd km) with
  | Some cfg => (make_downsample cfg merged, fst km)
  | None => (merged, fst km)
  end.

(** ** What the specification counts *)

(** Number of the rows of a table that satisfy [P]. *)
Definition count_rows_where {A : Type} (P : A -> bool) (rows : list A) : Z :=
  Z.of_nat (length (List.filter P rows)).


(** The defined ranks of the rows of user [u]. *)
Definition user_ranks (merged : merged_df) (u : Z) : list Z :=
  omap Rank (filter (fun r => User r = u) merged).

(** The counts that [calc_confusions] derives from the rows of one user. *)
Definition user_counts (k : Z) (g : list merged_row) : counts :=
  let liked := agg_size g in
  let tp := agg_sum (map (is_hit k) g) in
  {| LIKED := liked; TP := tp; FP := Int64.sub k tp; FN := Int64.sub liked tp |}.

(** ** Rounding to binary64 *)

(** Round [m / 2^s] to nearest, ties to even. *)
Definition rne (m s : Z) : Z :=
  let q := m / 2 ^ s in
  let rem := m mod 2 ^ s in
  if 2 * rem <? 2 ^ s then q
  else if 2 * rem =? 2 ^ s then (if Z.even q then q else q + 1)
  else q + 1.

(** The float that rounding ends on, from the rounded mantissa [m1] (53 or
    54 bits) and its exponent. *)
Definition round_result (sx : bool) (m1 e1 : Z) : spec_float :=
  if m1 <? 2 ^ 53 then
    if e1 <=? 971 then S754_finite sx (Z.to_pos m1) e1 else S754_infinity sx
  else
    if e1 + 1 <=? 971 then S754_finite sx (Z.to_pos (2 ^ 52)) (e1 + 1)
    else S754_infinity sx.

(** Mantissa and exponent of the binary64 nearest to a positive integer. *)
Definition int_round (n : Z) : Z * Z :=
  let d := Zdigits2 n in
  if d <=? 53 then (n * 2 ^ (53 - d), d - 53)
  else
    let m1 := rne n (d - 53) in
    if m1 <? 2 ^ 53 then (m1, d - 53) else (2 ^ 52, d - 52).

(** ** Totals over a table *)


(** ** Classes of floats *)

(** A normal float: a mantissa of 53 bits, and an exponent in the range of
    converted [int64] values and of their square roots. *)
Definition normal (x : float) : Prop :=
  match x with
  | S754_finite _ m e => 2 ^ 52 <= Zpos m < 2 ^ 53 /\ -100 <= e <= 100
  | _ => False
  end.

Definition sign_of (x : float) : bool :=
  match x with
  | S754_zero s | S754_infinity s | S754_finite s _ _ => s
  | S754_nan => false
  end.


(** [0.0 <= x <= 1.0] *)
Definition in_unit_interval (x : float) : bool :=
  Float64.leb Float64.zero x && Float64.leb x Float64.one.

(** ** The values of the driver *)

Section DriverValues.
Variable libm_pow2 : float -> float.
Variable make_downsample : DebiasConfig -> merged_df -> merged_df.
Variable mean : series -> float.

(** [v] is the value that metric [m] itself gives at the cutoff [k]: what
    its [calc_from_confusion_df] returns on the confusion table of the
    merged table, downsampled first for a debiased metric; a
    [ClassificationMetric] needs the catalog for it. *)
Definition is_metric_value (merged : merged_df) (catalog : option (list Z))
    (k : Z) (m : metric) (v : float) : Prop :=
  let confusion_df := calc_confusions (fst (call_of make_downsample merged (k, m))) k in
  if isinstance_SimpleClassificationMetric m then
    SimpleClassificationMetric.calc_from_confusion_df libm_pow2 mean m confusion_df
    = Return v
  else
    isinstance_ClassificationMetric m = true
    /\ exists catalog',
         catalog = Some catalog'
         /\ snd (ClassificationMetric.calc_from_confusion_df
                   mean m confusion_df catalog') = Return v.
End DriverValues.

(** ** The entry points on raw tables *)

Section RawTables.
Context {reco_df interactions_df : Type}.
(** The C library's [pow(x, 2.0)]; [MetricAtK._check] and [merge_reco] of
    [rectools/metrics/base.py]; [DebiasMetric.make_downsample] applied to an
    interactions table; [pd.Series.mean]. *)
Variable libm_pow2 : float -> float.
Variable _check : reco_df -> interactions_df -> outcome unit.
Variable merge_reco : reco_df -> interactions_df -> merged_df.
Variable make_downsample_interactions : DebiasConfig -> interactions_df -> interactions_df.
Variable mean : series -> float.

(** [SimpleClassificationMetric.calc_per_user] *)
Definition SimpleClassificationMetric_calc_per_user
    (self : metric) (reco : reco_df) (interactions : interactions_df) : outcome series :=
  match _check reco interactions with
  | Raise e => Raise e
  | Return _ =>
      let confusion_df := make_confusions merge_reco reco interactions (metric_k self) in
      SimpleClassificationMetric.calc_per_user_from_confusion_df
        libm_pow2 self confusion_df
  end.

(** [ClassificationMetric.calc_per_user]; the table that
    [calc_per_user_from_confusion_df] changes is the local one. *)
Definition ClassificationMetric_calc_per_user
    (self : metric) (reco : reco_df) (interactions : interactions_df) (catalog : list Z)
    : outcome series :=
  match _check reco interactions with
  | Raise e => Raise e
  | Return _ =>
      let confusion_df := make_confusions merge_reco reco interactions (metric_k self) in
      snd (ClassificationMetric.calc_per_user_from_confusion_df self confusion_df catalog)
  end.

(** The interactions that [self.calc_per_user] hands to the base class:
    the debiased classes override [calc_per_user] with
    [interactions_wo_popularity = self.make_downsample(interactions)]
    followed by [super().calc_per_user]. *)
Definition calc_per_user_interactions (self : metric) (interactions : interactions_df)
    : interactions_df :=
  match isinstance_Debias self with
  | Some cfg => make_downsample_interactions cfg interactions
  | None => interactions
  end.

(** [self.calc_per_user(reco, interactions)] *)
Definition Simple_calc_per_user
    (self : metric) (reco : reco_df) (interactions : interactions_df) : outcome series :=
  SimpleClassificationMetric_calc_per_user
    self reco (calc_per_user_interactions self interactions).

(** [self.calc_per_user(reco, interactions, catalog)] *)
Definition Classification_calc_per_user
    (self : metric) (reco : reco_df) (interactions : interactions_df) (catalog : list Z)
    : outcome series :=
  ClassificationMetric_calc_per_user
    self reco (calc_per_user_interactions self interactions) catalog.

(** [SimpleClassificationMetric.calc] *)
Definition Simple_calc
    (self : metric) (reco : reco_df) (interactions : interactions_df) : outcome float :=
  match Simple_calc_per_user self reco interactions with
  | Return per_user => Return (mean per_user)
  | Raise e => Raise e
  end.

(** [ClassificationMetric.calc] *)
Definition Classification_calc
    (self : metric) (reco : reco_df) (interactions : interactions_df) (catalog : list Z)
    : outcome float :=
  match Classification_calc_per_user self reco interactions catalog with
  | Return per_user => Return (mean per_user)
  | Raise e => Raise e
  end.
End RawTables.

(** * Properties *)

(** ** Series and table lookups *)

Lemma lookup_map {A B : Type} (f : A -> B) (l : list A) (i : nat) :
  map f l !! i = f <$> (l !! i).
Proof.
  revert i; induction l as [|a l IH]; intros [|i]; simpl; auto.
Qed.

(** ** Facts on binary64 special values *)

Module Float64Facts.
Import Float64.

Lemma of_int_0 : of_int 0 = zero.
Proof. reflexivity. Qed.

Lemma eqb_nan_l (x : float) : eqb nan x = false.
Proof. reflexivity. Qed.

Lemma eqb_nan_r (x : float) : eqb x nan = false.
Proof. destruct x; reflexivity. Qed.

Lemma eqb_zero_is_zero (x : float) : eqb x zero = is_zero x.
Proof. destruct x as [s|s| |s m e]; try destruct s; reflexivity. Qed.

Lemma mul_nan_r (x : float) : mul x nan = nan.
Proof. destruct x; reflexivity. Qed.

Lemma div_nan_l (x : float) : div nan x = nan.
Proof. reflexivity. Qed.

Lemma div_nan_r (x : float) : div x nan = nan.
Proof. destruct x; reflexivity. Qed.

Lemma add_nan_r (x : float) : add x nan = nan.
Proof. destruct x; reflexivity. Qed.

(** Dividing by a zero never gives a number: [0/0] is NaN, anything else
    over zero is an infinity (or NaN again). *)
Lemma div_by_zero (x y : float) :
  is_zero y = true ->
  div x y = (if is_zero x || is_nan x then nan else div x y)
  /\ is_finite (div x y) = false.
Proof.
  destruct y as [sy|sy| |sy my ey]; try discriminate; intros _.
  destruct x as [sx|sx| |sx mx ex]; simpl; auto.
Qed.

(** A product with a zero is a zero or NaN. *)
Lemma mul_zero_r (x y : float) :
  is_zero y = true -> is_zero (mul x y) || is_nan (mul x y) = true.
Proof.
  destruct y as [sy|sy| |sy my ey]; try discriminate; intros _.
  destruct x as [sx|sx| |sx mx ex]; reflexivity.
Qed.

Lemma mul_zero_or_nan_l (x y : float) :
  is_zero x || is_nan x = true ->
  is_zero y = true ->
  is_zero (mul x y) || is_nan (mul x y) = true.
Proof.
  destruct y as [sy|sy| |sy my ey]; try discriminate.
  destruct x as [sx|sx| |sx mx ex]; try discriminate; reflexivity.
Qed.

Lemma add_zero_or_nan (x y : float) :
  is_zero x || is_nan x = true ->
  is_zero y = true ->
  is_zero (add x y) || is_nan (add x y) = true.
Proof.
  destruct y as [sy|sy| |sy my ey]; try discriminate.
  destruct x as [sx|sx| |sx mx ex]; try discriminate; try reflexivity.
  destruct sx, sy; reflexivity.
Qed.

Lemma div_zero_or_nan (x y : float) :
  is_zero x || is_nan x = true ->
  is_zero y || is_nan y = true ->
  div x y = nan.
Proof.
  destruct y as [sy|sy| |sy my ey]; try discriminate;
    destruct x as [sx|sx| |sx mx ex]; try discriminate; reflexivity.
Qed.
End Float64Facts.

(** ** Rounding integers to binary64, and their quotients *)

Module Float64Rounding.
(** [digits2_pos p] is the number of binary digits of [p]. *)
Lemma digits2_pos_bounds (p : positive) :
  2 ^ (Zpos (digits2_pos p) - 1) <= Zpos p < 2 ^ Zpos (digits2_pos p).
Proof.
  induction p as [p IH|p IH|]; simpl digits2_pos.
  - rewrite Pos2Z.inj_succ.
    replace (Z.succ (Z.pos (digits2_pos p)) - 1) with (Z.pos (digits2_pos p) - 1 + 1) by lia.
    rewrite Z.pow_add_r, Z.pow_succ_r by lia. lia.
  - rewrite Pos2Z.inj_succ.
    replace (Z.succ (Z.pos (digits2_pos p)) - 1) with (Z.pos (digits2_pos p) - 1 + 1) by lia.
    rewrite Z.pow_add_r, Z.pow_succ_r by lia. lia.
  - simpl. lia.
Qed.

Lemma digits2_pos_unique (p : positive) (d : Z) :
  2 ^ (d - 1) <= Zpos p < 2 ^ d -> Zpos (digits2_pos p) = d.
Proof.
  intros [Hlo Hhi]. pose proof (digits2_pos_bounds p) as [Hlo' Hhi'].
  assert (Hd : 0 < d).
  { destruct (Z_lt_le_dec 0 d) as [|Hd]; [assumption|].
    destruct (Z.eq_dec d 0) as [->|Hd0]; [simpl in Hhi; lia|].
    rewrite Z.pow_neg_r in Hhi; lia. }
  destruct (Z_lt_le_dec (Zpos (digits2_pos p)) d) as [Hlt|Hge].
  - assert (2 ^ Zpos (digits2_pos p) <= 2 ^ (d - 1)) by (apply Z.pow_le_mono_r; lia). lia.
  - destruct (Z_lt_le_dec d (Zpos (digits2_pos p))) as [Hlt|Hge'].
    + assert (2 ^ d <= 2 ^ (Zpos (digits2_pos p) - 1)) by (apply Z.pow_le_mono_r; lia). lia.
    + lia.
Qed.

(** The iterator of [SpecFloat] counts as [Nat.iter] does. *)
Lemma iter_pos_nat {A} (f : A -> A) (p : positive) (x : A) :
  SpecFloat.iter_pos f p x = Nat.iter (Pos.to_nat p) f x.
Proof.
  revert x. induction p as [p IH|p IH|]; intros x; simpl SpecFloat.iter_pos.
  - rewrite !IH, Pos2Nat.inj_xI. simpl. rewrite <- Nat.iter_add.
    replace (Pos.to_nat p + (Pos.to_nat p + 0))%nat with (Pos.to_nat p + Pos.to_nat p)%nat by lia.
    rewrite <- Nat.iter_succ_r. reflexivity. 
  - rewrite !IH, Pos2Nat.inj_xO. rewrite <- Nat.iter_add. f_equal. lia.
  - reflexivity.
Qed.

(** One step of the right shift: the mantissa loses its last bit, which
    becomes the round bit; the former round bit joins the sticky bit. *)
Lemma shr_1_nonneg (m : Z) (r s : bool) :
  0 <= m ->
  shr_1 {| shr_m := m; shr_r := r; shr_s := s |}
  = {| shr_m := m / 2; shr_r := Z.odd m; shr_s := r || s |}.
Proof.
  intros Hm. rewrite <- Z.div2_div.
  destruct m as [|p|p]; [reflexivity | | lia].
  destruct p; reflexivity.
Qed.

Lemma mod_pow2_succ (m : Z) (j : Z) :
  0 <= j ->
  m mod 2 ^ (j + 1) = m mod 2 ^ j + 2 ^ j * ((m / 2 ^ j) mod 2).
Proof.
  intros Hj. rewrite Z.pow_add_r by lia. change (2 ^ 1) with 2.
  apply Z.rem_mul_r; [|lia]. apply Z.pow_nonzero; lia.
Qed.

Lemma odd_mod2 (x : Z) : x mod 2 = if Z.odd x then 1 else 0.
Proof. rewrite Zmod_odd. reflexivity. Qed.

(** [j + 1] steps from an exact mantissa: the quotient by [2^(j+1)], the
    bit of weight [2^j] as round bit, and a sticky bit telling whether the
    lower bits are not all zero. *)
Lemma iter_shr_1 (m : Z) (j : nat) :
  0 <= m ->
  Nat.iter (S j) shr_1 {| shr_m := m; shr_r := false; shr_s := false |}
  = {| shr_m := m / 2 ^ (Z.of_nat j + 1);
       shr_r := Z.odd (m / 2 ^ Z.of_nat j);
       shr_s := negb (m mod 2 ^ Z.of_nat j =? 0) |}.
Proof.
  intros Hm. induction j as [|j IH].
  - cbn [Nat.iter nat_rect]. rewrite shr_1_nonneg by assumption.
    simpl Z.of_nat. change (2 ^ (0 + 1)) with 2. change (2 ^ 0) with 1.
    rewrite Z.div_1_r, Z.mod_1_r. reflexivity.
  - rewrite Nat.iter_succ, IH.
    rewrite shr_1_nonneg by (apply Z.div_pos; [lia | apply Z.pow_pos_nonneg; lia]).
    rewrite Nat2Z.inj_succ. unfold Z.succ.
    f_equal.
    + rewrite Z.div_div by (try apply Z.pow_pos_nonneg; lia).
      f_equal. rewrite (Z.pow_add_r 2 (Z.of_nat j + 1) 1) by lia. reflexivity.
    + rewrite (mod_pow2_succ m (Z.of_nat j)) by lia.
      rewrite odd_mod2.
      pose proof (Z.mod_pos_bound m (2 ^ Z.of_nat j)) as Hb.
      assert (0 < 2 ^ Z.of_nat j) by (apply Z.pow_pos_nonneg; lia).
      specialize (Hb ltac:(lia)).
      destruct (Z.odd (m / 2 ^ Z.of_nat j)); simpl.
      * symmetry. apply negb_true_iff, Z.eqb_neq. lia.
      * rewrite Z.mul_0_r, Z.add_0_r. reflexivity.
Qed.

Lemma rne_0 (m : Z) : rne m 0 = m.
Proof. unfold rne. simpl. rewrite Z.mod_1_r, Z.div_1_r. reflexivity. Qed.

(** Rounding to nearest even after the shift computes [rne]. *)
Lemma round_iter_shr_1 (m : Z) (j : nat) :
  0 <= m ->
  let R := Nat.iter (S j) shr_1 {| shr_m := m; shr_r := false; shr_s := false |} in
  round_nearest_even (shr_m R) (loc_of_shr_record R) = rne m (Z.of_nat j + 1).
Proof.
  intros Hm R. subst R. rewrite iter_shr_1 by assumption.
  unfold rne. cbv zeta.
  rewrite (mod_pow2_succ m (Z.of_nat j)) by lia.
  rewrite odd_mod2.
  assert (Hp : 0 < 2 ^ Z.of_nat j) by (apply Z.pow_pos_nonneg; lia).
  pose proof (Z.mod_pos_bound m (2 ^ Z.of_nat j) Hp) as Hb.
  rewrite (Z.pow_add_r 2 (Z.of_nat j) 1) by lia. change (2 ^ 1) with 2.
  set (low := m mod 2 ^ Z.of_nat j) in *.
  set (P := 2 ^ Z.of_nat j) in *.
  set (q := m / (P * 2)).
  assert (Hlt : forall x y, x < y -> (x <? y) = true) by (intros; apply Z.ltb_lt; lia).
  assert (Hge : forall x y, y <= x -> (x <? y) = false) by (intros; apply Z.ltb_ge; lia).
  assert (Heq : forall x y, x = y -> (x =? y) = true) by (intros; apply Z.eqb_eq; lia).
  assert (Hne : forall x y, x <> y -> (x =? y) = false) by (intros; apply Z.eqb_neq; lia).
  destruct (Z.odd (m / P)); destruct (low =? 0) eqn:Hlow;
    [apply Z.eqb_eq in Hlow | apply Z.eqb_neq in Hlow
     | apply Z.eqb_eq in Hlow | apply Z.eqb_neq in Hlow];
    cbn [shr_m shr_r shr_s loc_of_shr_record negb round_nearest_even].
  - rewrite Hge, Heq by lia. reflexivity.
  - rewrite Hge, Hne by lia. reflexivity.
  - rewrite Hlt by lia. reflexivity.
  - rewrite Hlt by lia. reflexivity.
Qed.

Lemma rne_bounds (m s : Z) : m / 2 ^ s <= rne m s <= m / 2 ^ s + 1.
Proof.
  unfold rne. cbv zeta.
  destruct (2 * (m mod 2 ^ s) <? 2 ^ s); [lia|].
  destruct (2 * (m mod 2 ^ s) =? 2 ^ s); [|lia].
  destruct (Z.even (m / 2 ^ s)); lia.
Qed.

Lemma round_nearest_even_bounds (q : Z) (l : location) :
  q <= round_nearest_even q l <= q + 1.
Proof.
  destruct l as [|[| |]]; simpl; try lia. destruct (Z.even q); lia.
Qed.

Lemma loc_of_shr_record_of_loc (m : Z) (l : location) :
  loc_of_shr_record (shr_record_of_loc m l) = l.
Proof. destruct l as [|[| |]]; reflexivity. Qed.

Lemma shr_m_of_loc (m : Z) (l : location) : shr_m (shr_record_of_loc m l) = m.
Proof. destruct l as [|[| |]]; reflexivity. Qed.

Lemma iter_shr_1_m (R : shr_record) (k : nat) :
  0 <= shr_m R ->
  shr_m (Nat.iter k shr_1 R) = shr_m R / 2 ^ Z.of_nat k.
Proof.
  intros HR. induction k as [|k IH].
  - simpl. now rewrite Z.div_1_r.
  - rewrite Nat.iter_succ.
    assert (Hk : 0 <= shr_m (Nat.iter k shr_1 R)).
    { rewrite IH. apply Z.div_pos; [lia | apply Z.pow_pos_nonneg; lia]. }
    destruct (Nat.iter k shr_1 R) as [m r s] eqn:HRk. simpl in IH, Hk.
    rewrite shr_1_nonneg by assumption. simpl shr_m.
    rewrite IH, Z.div_div by (try apply Z.pow_pos_nonneg; lia).
    rewrite Nat2Z.inj_succ, Z.pow_succ_r by lia. f_equal. lia.
Qed.

Lemma fexp_normal (x : Z) : -1074 <= x - 53 -> fexp 53 1024 x = x - 53.
Proof. intros H. unfold fexp, emin. lia. Qed.

(** Rounding a mantissa of [53 + s] digits. *)
Lemma binary_round_aux_shift (sx : bool) (p : positive) (e : Z) (l : location) (s : Z) :
  0 <= s ->
  Zpos (digits2_pos p) = 53 + s ->
  -1074 <= e + s ->
  exists m1,
    Zpos p / 2 ^ s <= m1 <= Zpos p / 2 ^ s + 1
    /\ (l = loc_Exact -> m1 = rne (Zpos p) s)
    /\ binary_round_aux 53 1024 sx (Zpos p) e l = round_result sx m1 (e + s).
Proof.
  intros Hs Hd He.
  pose proof (digits2_pos_bounds p) as Hp. rewrite Hd in Hp.
  assert (Hq : 2 ^ 52 <= Zpos p / 2 ^ s < 2 ^ 53).
  { replace (53 + s - 1) with (52 + s) in Hp by lia.
    rewrite !Z.pow_add_r in Hp by lia.
    assert (0 < 2 ^ s) by (apply Z.pow_pos_nonneg; lia).
    split.
    - apply Z.div_le_lower_bound; lia.
    - apply Z.div_lt_upper_bound; lia. }
  (* first shift *)
  assert (Hfirst : exists R,
    shr_fexp 53 1024 (Zpos p) e l = (R, e + s)
    /\ shr_m R = Zpos p / 2 ^ s
    /\ (l = loc_Exact ->
        round_nearest_even (shr_m R) (loc_of_shr_record R) = rne (Zpos p) s)).
  { unfold shr_fexp. simpl Zdigits2. rewrite Hd.
    rewrite fexp_normal by lia.
    replace (53 + s + e - 53 - e) with s by lia.
    destruct s as [|ps|ps]; [| |lia].
    - eexists. split; [rewrite Z.add_0_r; reflexivity|].
      rewrite shr_m_of_loc, Z.div_1_r.
      split; [reflexivity|]. intros ->. simpl. now rewrite rne_0.
    - eexists. split; [reflexivity|]. rewrite iter_pos_nat.
      split.
      + rewrite iter_shr_1_m by (rewrite shr_m_of_loc; lia).
        rewrite shr_m_of_loc, positive_nat_Z. reflexivity.
      + intros ->. simpl shr_record_of_loc.
        destruct (Pos2Nat.is_succ ps) as [j Hj]. rewrite Hj.
        rewrite (round_iter_shr_1 (Zpos p) j) by lia.
        f_equal. lia. }
  destruct Hfirst as (R & HR & HRm & HRl).
  set (m1 := round_nearest_even (shr_m R) (loc_of_shr_record R)).
  assert (Hm1 : Zpos p / 2 ^ s <= m1 <= Zpos p / 2 ^ s + 1).
  { subst m1. rewrite <- HRm. apply round_nearest_even_bounds. }
  exists m1. split; [exact Hm1|]. split; [exact HRl|].
  unfold binary_round_aux. rewrite HR. fold m1.
  unfold round_result.
  destruct (m1 <? 2 ^ 53) eqn:Hlt.
  - apply Z.ltb_lt in Hlt.
    destruct m1 as [|pm|pm] eqn:Hpm; [lia| |lia].
    assert (Hdm : Zpos (digits2_pos pm) = 53) by (apply digits2_pos_unique; simpl; lia).
    unfold shr_fexp. simpl Zdigits2. rewrite Hdm.
    rewrite fexp_normal by lia.
    replace (53 + (e + s) - 53 - (e + s)) with 0 by lia.
    reflexivity.
  - apply Z.ltb_ge in Hlt.
    assert (Hm1eq : m1 = 2 ^ 53) by lia.
    rewrite Hm1eq.
    unfold shr_fexp. change (Zdigits2 (2 ^ 53)) with 54.
    rewrite fexp_normal by lia.
    replace (54 + (e + s) - 53 - (e + s)) with 1 by lia.
    reflexivity.
Qed.

Lemma Pos_iter_xO (p d : positive) : Zpos (Pos.iter xO p d) = Zpos p * 2 ^ Zpos d.
Proof.
  induction d as [|d IH] using Pos.peano_ind.
  - simpl. lia.
  - rewrite Pos.iter_succ, Pos2Z.inj_xO, IH, Pos2Z.inj_succ, Z.pow_succ_r by lia. lia.
Qed.

Lemma Zdigits2_bounds (n : Z) :
  0 < n -> 2 ^ (Zdigits2 n - 1) <= n < 2 ^ Zdigits2 n.
Proof. destruct n as [|p|p]; try lia. intros _. apply digits2_pos_bounds. Qed.

Lemma Zdigits2_le (a n : Z) : 0 < a <= n -> Zdigits2 a <= Zdigits2 n.
Proof.
  intros H. pose proof (Zdigits2_bounds a) as Ha. pose proof (Zdigits2_bounds n) as Hn.
  specialize (Ha ltac:(lia)). specialize (Hn ltac:(lia)).
  destruct (Z_lt_le_dec (Zdigits2 n) (Zdigits2 a)) as [Hlt|]; [|assumption].
  assert (2 ^ Zdigits2 n <= 2 ^ (Zdigits2 a - 1)).
  { apply Z.pow_le_mono_r; lia. }
  lia.
Qed.

Lemma Zdigits2_pos (n : Z) : 0 < n -> 0 < Zdigits2 n.
Proof. destruct n; simpl; lia. Qed.

(** The mantissa of a converted integer is normal: it has 53 bits. *)
Lemma int_round_bounds (n : Z) :
  0 < n ->
  2 ^ 52 <= fst (int_round n) < 2 ^ 53.
Proof.
  intros Hn. unfold int_round. cbv zeta.
  pose proof (Zdigits2_bounds n Hn) as Hb.
  pose proof (Zdigits2_pos n Hn) as Hd.
  set (d := Zdigits2 n) in *.
  destruct (d <=? 53) eqn:Hle.
  - apply Z.leb_le in Hle. simpl fst.
    assert (H52 : 2 ^ 52 = 2 ^ (d - 1) * 2 ^ (53 - d))
      by (rewrite <- Z.pow_add_r by lia; f_equal; lia).
    assert (H53 : 2 ^ 53 = 2 ^ d * 2 ^ (53 - d))
      by (rewrite <- Z.pow_add_r by lia; f_equal; lia).
    assert (0 < 2 ^ (53 - d)) by (apply Z.pow_pos_nonneg; lia).
    rewrite H52, H53. split.
    + apply Z.mul_le_mono_nonneg_r; lia.
    + apply Z.mul_lt_mono_pos_r; lia.
  - apply Z.leb_gt in Hle.
    destruct (rne n (d - 53) <? 2 ^ 53) eqn:Hlt; simpl fst; [|lia].
    apply Z.ltb_lt in Hlt. split; [|assumption].
    pose proof (rne_bounds n (d - 53)) as Hr.
    assert (2 ^ 52 <= n / 2 ^ (d - 53)); [|lia].
    apply Z.div_le_lower_bound; [apply Z.pow_pos_nonneg; lia|].
    rewrite <- Z.pow_add_r by lia. replace (d - 53 + 52) with (d - 1) by lia. lia.
Qed.

(** The conversion of an integer below [2^64] is the float of [int_round]. *)
Lemma binary_round_int (sx : bool) (p : positive) :
  Zpos p < 2 ^ 64 ->
  binary_round 53 1024 sx p 0
  = S754_finite sx (Z.to_pos (fst (int_round (Zpos p)))) (snd (int_round (Zpos p))).
Proof.
  intros Hn.
  pose proof (digits2_pos_bounds p) as Hb.
  assert (Hd64 : Zpos (digits2_pos p) <= 64).
  { destruct (Z_lt_le_dec 64 (Zpos (digits2_pos p))) as [Hgt|]; [|assumption].
    assert (2 ^ 64 <= 2 ^ (Zpos (digits2_pos p) - 1)) by (apply Z.pow_le_mono_r; lia).
    lia. }
  unfold binary_round, int_round. cbv zeta. simpl Zdigits2.
  set (d := Zpos (digits2_pos p)) in *.
  rewrite Z.add_0_r, fexp_normal by lia.
  unfold shl_align.
  destruct (d <=? 53) eqn:Hle.
  - apply Z.leb_le in Hle.
    destruct (d - 53 - 0) as [|pd|pd] eqn:Hdiff.
    + assert (Hd : d = 53) by lia.
      destruct (binary_round_aux_shift sx p 0 loc_Exact 0) as (m1 & _ & Hm1 & ->);
        [lia | fold d; lia | lia |].
      rewrite (Hm1 eq_refl), rne_0. unfold round_result.
      rewrite Hd in Hb. simpl Z.sub in Hb.
      replace (Zpos p <? 2 ^ 53) with true by (symmetry; apply Z.ltb_lt; lia).
      rewrite Hd. simpl. now rewrite Pos.mul_1_r.
    + lia.
    + assert (Hpd : Zpos pd = 53 - d) by lia.
      assert (Hm : Zpos (Pos.iter xO p pd) = Zpos p * 2 ^ (53 - d))
        by (rewrite Pos_iter_xO, Hpd; reflexivity).
      assert (H52 : 2 ^ 52 = 2 ^ (d - 1) * 2 ^ (53 - d))
        by (rewrite <- Z.pow_add_r by lia; f_equal; lia).
      assert (H53 : 2 ^ 53 = 2 ^ d * 2 ^ (53 - d))
        by (rewrite <- Z.pow_add_r by lia; f_equal; lia).
      assert (Hpow : 0 < 2 ^ (53 - d)) by (apply Z.pow_pos_nonneg; lia).
      assert (Hmb : 2 ^ 52 <= Zpos (Pos.iter xO p pd) < 2 ^ 53).
      { rewrite Hm, H52, H53. split.
        - apply Z.mul_le_mono_nonneg_r; lia.
        - apply Z.mul_lt_mono_pos_r; lia. }
      destruct (binary_round_aux_shift sx (Pos.iter xO p pd) (d - 53) loc_Exact 0)
        as (m1 & _ & Hm1 & ->);
        [lia | apply digits2_pos_unique; simpl; lia | lia |].
      rewrite (Hm1 eq_refl), rne_0. unfold round_result.
      replace (Zpos (Pos.iter xO p pd) <? 2 ^ 53) with true
        by (symmetry; apply Z.ltb_lt; lia).
      rewrite Z.add_0_r.
      replace (d - 53 <=? 971) with true by (symmetry; apply Z.leb_le; lia).
      cbn [fst snd]. rewrite <- Hm. reflexivity.
  - apply Z.leb_gt in Hle.
    destruct (d - 53 - 0) as [|pd|pd] eqn:Hdiff; [lia| |lia].
    destruct (binary_round_aux_shift sx p 0 loc_Exact (d - 53)) as (m1 & _ & Hm1 & ->);
      [lia | fold d; lia | lia |].
    rewrite (Hm1 eq_refl). unfold round_result.
    rewrite Z.add_0_l.
    destruct (rne (Zpos p) (d - 53) <? 2 ^ 53).
    + replace (d - 53 <=? 971) with true by (symmetry; apply Z.leb_le; lia).
      reflexivity.
    + replace (d - 53 + 1 <=? 971) with true by (symmetry; apply Z.leb_le; lia).
      cbn [fst snd]. f_equal. lia.
Qed.

Lemma of_int_pos (n : Z) :
  0 < n < 2 ^ 64 ->
  Float64.of_int n = S754_finite false (Z.to_pos (fst (int_round n))) (snd (int_round n)).
Proof.
  intros [Hn Hlt]. destruct n as [|p|p]; try lia.
  unfold Float64.of_int, binary_normalize. now apply binary_round_int.
Qed.

Lemma of_int_neg (n : Z) :
  0 < n < 2 ^ 64 ->
  Float64.of_int (- n) = S754_finite true (Z.to_pos (fst (int_round n))) (snd (int_round n)).
Proof.
  intros [Hn Hlt]. destruct n as [|p|p]; try lia.
  unfold Float64.of_int, binary_normalize. simpl Z.opp. now apply binary_round_int.
Qed.

(** Rounding to nearest even is monotone. *)
Lemma rne_mono (a n s : Z) : 0 <= s -> a <= n -> rne a s <= rne n s.
Proof.
  intros Hs Han.
  assert (Hp : 0 < 2 ^ s) by (apply Z.pow_pos_nonneg; lia).
  pose proof (Z.div_le_mono a n (2 ^ s) Hp Han) as Hq.
  pose proof (rne_bounds a s) as Ha. pose proof (rne_bounds n s) as Hn.
  destruct (Z.eq_dec (a / 2 ^ s) (n / 2 ^ s)) as [Heq|Hne]; [|lia].
  pose proof (Z.div_mod a (2 ^ s) ltac:(lia)) as Hda.
  pose proof (Z.div_mod n (2 ^ s) ltac:(lia)) as Hdn.
  assert (Hrem : a mod 2 ^ s <= n mod 2 ^ s) by (rewrite Heq in Hda; lia).
  unfold rne. cbv zeta. rewrite Heq.
  set (q := n / 2 ^ s). set (ra := a mod 2 ^ s) in *. set (rn := n mod 2 ^ s) in *.
  destruct (2 * ra <? 2 ^ s) eqn:H1; destruct (2 * rn <? 2 ^ s) eqn:H2;
    destruct (2 * ra =? 2 ^ s) eqn:H3; destruct (2 * rn =? 2 ^ s) eqn:H4;
    destruct (Z.even q); try lia;
    rewrite ?Z.ltb_lt, ?Z.ltb_ge, ?Z.eqb_eq, ?Z.eqb_neq in *; lia.
Qed.

Lemma quotient_bounds (n : Z) :
  0 < n -> 53 <= Zdigits2 n ->
  2 ^ 52 <= n / 2 ^ (Zdigits2 n - 53) < 2 ^ 53.
Proof.
  intros Hn Hd. pose proof (Zdigits2_bounds n Hn) as Hb.
  set (d := Zdigits2 n) in *.
  assert (Hp : 0 < 2 ^ (d - 53)) by (apply Z.pow_pos_nonneg; lia).
  split.
  - apply Z.div_le_lower_bound; [assumption|].
    rewrite <- Z.pow_add_r by lia. replace (d - 53 + 52) with (d - 1) by lia. lia.
  - apply Z.div_lt_upper_bound; [assumption|].
    rewrite <- Z.pow_add_r by lia. replace (d - 53 + 53) with d by lia. lia.
Qed.

(** Conversion is monotone, in the lexicographic order of (exponent,
    mantissa). *)
Lemma int_round_mono (a n : Z) :
  0 < a <= n ->
  snd (int_round a) < snd (int_round n)
  \/ (snd (int_round a) = snd (int_round n)
      /\ fst (int_round a) <= fst (int_round n)).
Proof.
  intros Han.
  pose proof (Zdigits2_le a n Han) as Hd.
  pose proof (Zdigits2_pos a ltac:(lia)) as Hda.
  unfold int_round. cbv zeta.
  set (da := Zdigits2 a) in *. set (dn := Zdigits2 n) in *.
  destruct (da <=? 53) eqn:Ha; destruct (dn <=? 53) eqn:Hn;
    rewrite ?Z.leb_le, ?Z.leb_gt in *.
  - cbn [fst snd]. destruct (Z.eq_dec da dn) as [Heq|Hne]; [|lia].
    right. split; [lia|]. rewrite Heq.
    apply Z.mul_le_mono_nonneg_r; [apply Z.pow_nonneg|]; lia.
  - left. destruct (rne n (dn - 53) <? 2 ^ 53); cbn [fst snd]; lia.
  - lia.
  - pose proof (quotient_bounds a ltac:(lia) ltac:(fold da; lia)) as Hqa.
    pose proof (quotient_bounds n ltac:(lia) ltac:(fold dn; lia)) as Hqn.
    fold da in Hqa. fold dn in Hqn.
    pose proof (rne_bounds a (da - 53)) as Hra.
    pose proof (rne_bounds n (dn - 53)) as Hrn.
    destruct (rne a (da - 53) <? 2 ^ 53) eqn:Hca;
      destruct (rne n (dn - 53) <? 2 ^ 53) eqn:Hcn;
      rewrite ?Z.ltb_lt, ?Z.ltb_ge in *; cbn [fst snd].
    + destruct (Z.eq_dec da dn) as [Heq|Hne]; [|lia].
      right. split; [lia|]. rewrite Heq. apply rne_mono; lia.
    + left. lia.
    + destruct (Z.eq_dec da dn) as [Heq|Hne].
      * exfalso. rewrite Heq in Hca.
        pose proof (rne_mono a n (dn - 53) ltac:(lia) ltac:(lia)). lia.
      * destruct (Z.eq_dec (da - 52) (dn - 53)); [right; lia | left; lia].
    + destruct (Z.eq_dec da dn) as [Heq|Hne]; [right; lia | left; lia].
Qed.

(** Positive floats compare as their (exponent, mantissa) pairs. *)
Lemma SFleb_finite_pos (m1 m2 : positive) (e1 e2 : Z) :
  e1 < e2 \/ (e1 = e2 /\ Zpos m1 <= Zpos m2) ->
  SFleb (S754_finite false m1 e1) (S754_finite false m2 e2) = true.
Proof.
  intros H. unfold SFleb, SFcompare.
  destruct (Z.compare_spec e1 e2) as [Heq|Hlt|Hgt]; [|reflexivity|lia].
  destruct H as [H|[_ H]]; [lia|].
  rewrite Pos.compare_cont_spec. simpl.
  destruct (Pos.compare_spec m1 m2); try reflexivity. lia.
Qed.

Lemma new_location_0 (n : Z) : new_location n 0 = loc_Exact.
Proof. unfold new_location. destruct (Z.even n); reflexivity. Qed.

(** The division of two normal mantissas works on a dividend shifted by
    53 bits. *)
Lemma SFdiv_core_normal (mx my : positive) (ex ey : Z) :
  2 ^ 52 <= Zpos mx < 2 ^ 53 ->
  2 ^ 52 <= Zpos my < 2 ^ 53 ->
  -1021 <= ex - ey ->
  SFdiv_core_binary 53 1024 (Zpos mx) ex (Zpos my) ey
  = ((Zpos mx * 2 ^ 53) / Zpos my, ex - ey - 53,
     new_location (Zpos my) ((Zpos mx * 2 ^ 53) mod Zpos my)).
Proof.
  intros Hmx Hmy He. unfold SFdiv_core_binary. simpl Zdigits2.
  rewrite (digits2_pos_unique mx 53), (digits2_pos_unique my 53) by (simpl; lia).
  rewrite fexp_normal by lia.
  replace (Z.min (53 + ex - (53 + ey) - 53) (ex - ey)) with (ex - ey - 53) by lia.
  replace (ex - ey - (ex - ey - 53)) with 53 by lia.
  cbv zeta iota beta.
  rewrite Z.shiftl_mul_pow2 by lia.
  unfold Z.div, Z.modulo.
  destruct (Z.div_eucl (Zpos mx * 2 ^ 53) (Zpos my)) as [q r]. reflexivity.
Qed.

(** The quotient of two positive normal floats [x <= y] is at most one
    (and not negative): the integer quotient has 53 or 54 bits, rounding
    adds at most one unit in the last place, and the quotient is exactly
    [2^53] only when [x = y]. *)
Lemma SFdiv_le_one (mx my : positive) (ex ey : Z) :
  2 ^ 52 <= Zpos mx < 2 ^ 53 ->
  2 ^ 52 <= Zpos my < 2 ^ 53 ->
  -100 <= ex <= 100 -> -100 <= ey <= 100 ->
  ex < ey \/ (ex = ey /\ Zpos mx <= Zpos my) ->
  SFleb (SFdiv 53 1024 (S754_finite false mx ex) (S754_finite false my ey))
        (S754_finite false (Z.to_pos (2 ^ 52)) (-52)) = true
  /\ SFleb (S754_zero false)
           (SFdiv 53 1024 (S754_finite false mx ex) (S754_finite false my ey)) = true.
Proof.
  intros Hmx Hmy Hex Hey Hle.
  unfold SFdiv. rewrite SFdiv_core_normal by (assumption || lia).
  cbn [xorb].
  set (q := Zpos mx * 2 ^ 53 / Zpos my).
  set (r := (Zpos mx * 2 ^ 53) mod Zpos my).
  assert (Hqr : Zpos mx * 2 ^ 53 = Zpos my * q + r) by (apply Z.div_mod; lia).
  assert (Hr : 0 <= r < Zpos my) by (apply Z.mod_pos_bound; lia).
  assert (Hq : 2 ^ 52 <= q < 2 ^ 54) by (change (2 ^ 54) with (2 * 2 ^ 53); nia).
  destruct q as [|pq|pq] eqn:Hpq; [lia| |lia].
  set (s := if Zpos pq <? 2 ^ 53 then 0 else 1).
  assert (Hs : 0 <= s <= 1) by (subst s; destruct (Zpos pq <? 2 ^ 53); lia).
  assert (Hd : Zpos (digits2_pos pq) = 53 + s).
  { apply digits2_pos_unique. subst s.
    destruct (Zpos pq <? 2 ^ 53) eqn:Hlt;
      [apply Z.ltb_lt in Hlt | apply Z.ltb_ge in Hlt]; simpl; lia. }
  destruct (binary_round_aux_shift false pq (ex - ey - 53)
              (new_location (Zpos my) r) s) as (m1 & Hm1 & Hexact & ->);
    [lia | assumption | lia |].
  assert (Hqs : 2 ^ 52 <= Zpos pq / 2 ^ s < 2 ^ 53).
  { subst s. destruct (Zpos pq <? 2 ^ 53) eqn:Hlt;
      [apply Z.ltb_lt in Hlt | apply Z.ltb_ge in Hlt].
    - change (2 ^ 0) with 1. rewrite Z.div_1_r. lia.
    - change (2 ^ 1) with 2. split.
      + apply Z.div_le_lower_bound; lia.
      + apply Z.div_lt_upper_bound; lia. }
  (* the quotient is exactly one when it reaches 2^53 with equal exponents *)
  assert (Hone : ex = ey -> s = 1 -> m1 = 2 ^ 52).
  { intros Hee Hs1. destruct Hle as [Hlt|[_ Hmle]]; [lia|].
    subst s. destruct (Zpos pq <? 2 ^ 53) eqn:Hlt; [discriminate|].
    apply Z.ltb_ge in Hlt.
    assert (Hmeq : Zpos mx = Zpos my) by nia.
    assert (Hr0 : r = 0) by nia.
    assert (Hq53 : Zpos pq = 2 ^ 53) by nia.
    rewrite Hr0, new_location_0 in Hexact.
    rewrite (Hexact eq_refl), Hq53. reflexivity. }
  unfold round_result.
  destruct (m1 <? 2 ^ 53) eqn:Hlt;
    [apply Z.ltb_lt in Hlt | apply Z.ltb_ge in Hlt].
  - replace (ex - ey - 53 + s <=? 971) with true by (symmetry; apply Z.leb_le; lia).
    split; [|reflexivity].
    apply SFleb_finite_pos. rewrite !Z2Pos.id by lia.
    destruct (Z.eq_dec s 1) as [Hs1|Hs0];
      destruct (Z.eq_dec ex ey) as [Hee|Hne].
    + right. rewrite (Hone Hee Hs1). lia.
    + left. lia.
    + left. lia.
    + left. lia.
  - replace (ex - ey - 53 + s + 1 <=? 971) with true by (symmetry; apply Z.leb_le; lia).
    split; [|reflexivity].
    apply SFleb_finite_pos.
    destruct (Z.eq_dec s 1) as [Hs1|Hs0];
      destruct (Z.eq_dec ex ey) as [Hee|Hne].
    + rewrite (Hone Hee Hs1) in Hlt. simpl in Hlt. lia.
    + destruct (Z.eq_dec (ex - ey - 53 + s + 1) (-52)); [right | left]; lia.
    + destruct (Z.eq_dec (ex - ey - 53 + s + 1) (-52)); [right | left]; lia.
    + left. lia.
Qed.

Lemma int_round_exponent (n : Z) :
  0 < n < 2 ^ 64 -> -52 <= snd (int_round n) <= 12.
Proof.
  intros [Hn Hlt]. pose proof (Zdigits2_bounds n Hn) as Hb.
  pose proof (Zdigits2_pos n Hn) as Hd.
  assert (Hd64 : Zdigits2 n <= 64).
  { destruct (Z_lt_le_dec 64 (Zdigits2 n)) as [Hgt|]; [|assumption].
    assert (2 ^ 64 <= 2 ^ (Zdigits2 n - 1)) by (apply Z.pow_le_mono_r; lia). lia. }
  unfold int_round. cbv zeta.
  destruct (Zdigits2 n <=? 53); [cbn [snd]; lia|].
  destruct (rne n (Zdigits2 n - 53) <? 2 ^ 53); cbn [snd]; lia.
Qed.

(** A non-zero integer converts to a finite non-zero float. *)
Lemma of_int_nonzero_finite (z : Z) :
  z <> 0 -> - 2 ^ 64 < z < 2 ^ 64 ->
  exists s m e, Float64.of_int z = S754_finite s m e.
Proof.
  intros Hz Hr. destruct (Z_lt_le_dec 0 z).
  - rewrite of_int_pos by lia. eauto.
  - replace z with (- - z) by lia. rewrite of_int_neg by lia. eauto.
Qed.


(** The quotient of two converted integers [0 <= a <= n], [n > 0], lies
    between zero and one. *)
Lemma div_of_int_unit_interval (a n : Z) :
  0 <= a <= n -> 0 < n < 2 ^ 64 ->
  Float64.leb Float64.zero (Float64.div (Float64.of_int a) (Float64.of_int n)) = true
  /\ Float64.leb (Float64.div (Float64.of_int a) (Float64.of_int n)) Float64.one = true.
Proof.
  intros Ha Hn.
  change (SFleb (S754_zero false)
            (SFdiv 53 1024 (Float64.of_int a) (Float64.of_int n)) = true
          /\ SFleb (SFdiv 53 1024 (Float64.of_int a) (Float64.of_int n))
                   (S754_finite false (Z.to_pos (2 ^ 52)) (-52)) = true).
  rewrite (of_int_pos n) by lia.
  destruct (Z.eq_dec a 0) as [->|Hne].
  - split; reflexivity.
  - rewrite (of_int_pos a) by lia.
    pose proof (int_round_bounds a ltac:(lia)) as Hma.
    pose proof (int_round_bounds n ltac:(lia)) as Hmn.
    pose proof (int_round_exponent a ltac:(lia)) as Hea.
    pose proof (int_round_exponent n ltac:(lia)) as Hen.
    pose proof (int_round_mono a n ltac:(lia)) as Hmono.
    destruct (SFdiv_le_one (Z.to_pos (fst (int_round a))) (Z.to_pos (fst (int_round n)))
                (snd (int_round a)) (snd (int_round n))) as [H1 H0];
      rewrite ?Z2Pos.id by lia; try lia.
    split; [exact H0 | exact H1].
Qed.

(** Zero over a non-zero integer is a zero. *)
Lemma div_zero_of_int (z : Z) :
  z <> 0 -> - 2 ^ 64 < z < 2 ^ 64 ->
  Float64.is_zero (Float64.div Float64.zero (Float64.of_int z)) = true.
Proof.
  intros Hz Hr. destruct (of_int_nonzero_finite z Hz Hr) as (s & m & e & ->).
  reflexivity.
Qed.

(** A non-zero integer over zero is an infinity. *)
Lemma div_of_int_zero (z : Z) :
  z <> 0 -> - 2 ^ 64 < z < 2 ^ 64 ->
  Float64.is_infinite (Float64.div (Float64.of_int z) Float64.zero) = true.
Proof.
  intros Hz Hr. destruct (of_int_nonzero_finite z Hz Hr) as (s & m & e & ->).
  reflexivity.
Qed.
End Float64Rounding.

(** ** Comparing converted integers *)

Module Float64Compare.
Import Float64Rounding.









End Float64Compare.

(** ** Recall, F1Beta and MCC at their singular points *)

Lemma in_range_64 (z : Z) : Int64.in_range z -> - 2 ^ 64 < z < 2 ^ 64.
Proof. unfold Int64.in_range, Int64.min_value, Int64.max_value. lia. Qed.

(** C6. On a confusion row with [LIKED = 0] the value of Recall is never a
    number: it is NaN when [TP = 0] (as on every row with [TP + FN = LIKED]
    and counts that are not negative) and an infinity when [TP] is not zero;
    in particular it is not zero.  The series that
    [Recall._calc_per_user_from_confusion_df] returns holds this value at the
    position of the row. *)
Theorem Recall_undefined_without_liked
    (confusion_df : confusion_table) (i : nat) (u : Z) (c : counts) :
  confusion_rows confusion_df !! i = Some (u, c) ->
  LIKED c = 0 ->
  Recall._calc_per_user_from_confusion_df confusion_df !! i
    = Some (u, Recall.per_user c)
  /\ Float64.is_finite (Recall.per_user c) = false
  /\ Float64.is_zero (Recall.per_user c) = false
  /\ (TP c = 0 -> Recall.per_user c = Float64.nan)
  /\ (TP c <> 0 -> Int64.in_range (TP c) ->
      Float64.is_infinite (Recall.per_user c) = true).
Proof.
  intros Hrow Hliked.
  unfold Recall._calc_per_user_from_confusion_df.
  rewrite lookup_map, Hrow; simpl.
  unfold Recall.per_user; rewrite Hliked, Float64Facts.of_int_0.
  destruct (Float64Facts.div_by_zero (Float64.of_int (TP c)) Float64.zero eq_refl)
    as [_ Hfin].
  repeat split; auto.
  - destruct (Float64.div _ _); simpl in *; congruence.
  - intros ->. reflexivity.
  - intros Hne Hr. apply Float64Rounding.div_of_int_zero; [assumption|].
    now apply in_range_64.
Qed.

Lemma Recall_undefined_without_liked_witness :
  let c := {| LIKED := 0; TP := 0; FP := 2; FN := 0 |} in
  Recall._calc_per_user_from_confusion_df (Confusion [(7, c)]) !! 0%nat
    = Some (7, Recall.per_user c)
  /\ Float64.is_finite (Recall.per_user c) = false
  /\ Float64.is_zero (Recall.per_user c) = false
  /\ (TP c = 0 -> Recall.per_user c = Float64.nan)
  /\ (TP c <> 0 -> Int64.in_range (TP c) ->
      Float64.is_infinite (Recall.per_user c) = true).
Proof.
  intros c.
  apply (Recall_undefined_without_liked (Confusion [(7, c)]) 0 7 c); reflexivity.
Defined.

(** The raw F-beta formula is NaN whenever precision and recall are both
    zero, whatever [beta_sqr] is. *)
Lemma raw_f1_nan_at_zero (beta_sqr p_k r_k : float) :
  Float64.is_zero p_k = true ->
  Float64.is_zero r_k = true ->
  F1Beta.raw_f1 beta_sqr p_k r_k = Float64.nan.
Proof.
  intros Hp Hr. unfold F1Beta.raw_f1.
  apply Float64Facts.div_zero_or_nan.
  - apply Float64Facts.mul_zero_or_nan_l; auto.
    apply Float64Facts.mul_zero_r; auto.
  - apply Float64Facts.add_zero_or_nan; auto.
    apply Float64Facts.mul_zero_r; auto.
Qed.

(** [x ** 2] raises for a finite [x] only, and only [OverflowError]. *)
Lemma pow2_raises (libm_pow2 : float -> float) (x : float) (e : exn) :
  PyFloat.pow2 libm_pow2 x = Raise e ->
  e = OverflowError /\ Float64.is_finite x = true /\ Float64.is_zero x = false.
Proof.
  destruct x as [| | |s m ex]; simpl; try discriminate.
  destruct (Float64.eqb _ _); [discriminate|].
  destruct (Float64.is_infinite _); [|discriminate].
  intros [= <-]. auto.
Qed.

Lemma pow2_one (libm_pow2 : float -> float) :
  PyFloat.pow2 libm_pow2 Float64.one = Return Float64.one.
Proof. reflexivity. Qed.

Lemma F1Beta_lookup (libm_pow2 : float -> float) (k : Z) (beta beta_sqr : float)
    (confusion_df : confusion_table) (i : nat) (u : Z) (c : counts) :
  PyFloat.pow2 libm_pow2 beta = Return beta_sqr ->
  confusion_rows confusion_df !! i = Some (u, c) ->
  exists s,
    F1Beta._calc_per_user_from_confusion_df libm_pow2 k beta confusion_df = Return s
    /\ s !! i = Some (u, F1Beta.per_user k beta_sqr c).
Proof.
  intros Hpow Hrow. unfold F1Beta._calc_per_user_from_confusion_df. rewrite Hpow.
  eexists. split; [reflexivity|]. rewrite lookup_map, Hrow. reflexivity.
Qed.

Lemma F1Beta_raises (libm_pow2 : float -> float) (k : Z) (beta : float)
    (confusion_df : confusion_table) (e : exn) :
  PyFloat.pow2 libm_pow2 beta = Raise e ->
  F1Beta._calc_per_user_from_confusion_df libm_pow2 k beta confusion_df = Raise e.
Proof.
  intros Hpow. unfold F1Beta._calc_per_user_from_confusion_df. now rewrite Hpow.
Qed.

(** The precision and the recall of a row with [TP = 0] are zeros when [k]
    and [LIKED] are not zero, so that F1Beta is [0.0] on such a row. *)
Lemma F1Beta_zero_when_TP_zero (k : Z) (beta_sqr : float) (c : counts) :
  TP c = 0 ->
  k <> 0 -> Int64.in_range k ->
  LIKED c <> 0 -> Int64.in_range (LIKED c) ->
  Float64.eqb (Precision.per_user k c) Float64.zero = true
  /\ Float64.eqb (Recall.per_user c) Float64.zero = true
  /\ F1Beta.per_user k beta_sqr c = Float64.zero.
Proof.
  intros Htp Hk Hkr Hl Hlr.
  assert (Hp : Float64.eqb (Precision.per_user k c) Float64.zero = true).
  { rewrite Float64Facts.eqb_zero_is_zero. unfold Precision.per_user.
    rewrite Htp. apply Float64Rounding.div_zero_of_int; [assumption|].
    now apply in_range_64. }
  assert (Hr : Float64.eqb (Recall.per_user c) Float64.zero = true).
  { rewrite Float64Facts.eqb_zero_is_zero. unfold Recall.per_user.
    rewrite Htp. apply Float64Rounding.div_zero_of_int; [assumption|].
    now apply in_range_64. }
  repeat split; try assumption.
  unfold F1Beta.per_user.
  change (Float64.div (Float64.of_int (TP c)) (Float64.of_int k))
    with (Precision.per_user k c).
  change (Float64.div (Float64.of_int (TP c)) (Float64.of_int (LIKED c)))
    with (Recall.per_user c).
  rewrite Hp, Hr. reflexivity.
Qed.

(** Against C5 as the specification states it ("for every beta"): for
    [beta = 2^600], whose square is out of the range of a float,
    [self.beta**2] raises [OverflowError] before any row is read, on a row
    whose precision and recall are both zero: F1Beta returns no value
    there, neither [0.0] nor NaN. *)
Lemma F1Beta_OverflowError_at_zero_precision_and_recall :
  let c := {| LIKED := 3; TP := 0; FP := 2; FN := 3 |} in
  let beta := Float64.of_int (2 ^ 600) in
  Float64.is_finite beta = true
  /\ Float64.eqb (Precision.per_user 2 c) Float64.zero = true
  /\ Float64.eqb (Recall.per_user c) Float64.zero = true
  /\ F1Beta._calc_per_user_from_confusion_df
       PyFloat.rounded_square 2 beta (Confusion [(7, c)])
     = Raise OverflowError.
Proof. repeat split. Qed.

(** C5. On a confusion row where precision [TP / k] and recall
    [TP / LIKED] are both zero, F1Beta returns exactly [0.0], where the raw
    formula is NaN, for every [beta] whose square [beta ** 2] Python
    computes, whatever the value of that square; when [beta ** 2] raises
    (the [OverflowError] of a finite [beta] whose square is out of range),
    so does F1Beta, and no value is returned. *)
Theorem F1Beta_zero_when_precision_and_recall_zero
    (libm_pow2 : float -> float) (k : Z) (beta : float)
    (confusion_df : confusion_table) (i : nat) (u : Z) (c : counts) :
  confusion_rows confusion_df !! i = Some (u, c) ->
  Float64.eqb (Precision.per_user k c) Float64.zero = true ->
  Float64.eqb (Recall.per_user c) Float64.zero = true ->
  (forall beta_sqr,
     PyFloat.pow2 libm_pow2 beta = Return beta_sqr ->
     (exists s,
        F1Beta._calc_per_user_from_confusion_df libm_pow2 k beta confusion_df
        = Return s
        /\ s !! i = Some (u, Float64.zero))
     /\ F1Beta.raw_f1 beta_sqr (Precision.per_user k c) (Recall.per_user c)
        = Float64.nan)
  /\ (forall e,
        PyFloat.pow2 libm_pow2 beta = Raise e ->
        e = OverflowError
        /\ F1Beta._calc_per_user_from_confusion_df libm_pow2 k beta confusion_df
           = Raise e).
Proof.
  intros Hrow Hp Hr. split.
  - intros beta_sqr Hpow. split.
    + destruct (F1Beta_lookup libm_pow2 k beta beta_sqr confusion_df i u c Hpow Hrow)
        as (s & Hs & Hi).
      exists s. split; [assumption|]. rewrite Hi. do 2 f_equal.
      unfold F1Beta.per_user.
      change (Float64.div (Float64.of_int (TP c)) (Float64.of_int k))
        with (Precision.per_user k c).
      change (Float64.div (Float64.of_int (TP c)) (Float64.of_int (LIKED c)))
        with (Recall.per_user c).
      rewrite Hp, Hr. reflexivity.
    + rewrite Float64Facts.eqb_zero_is_zero in Hp, Hr.
      apply raw_f1_nan_at_zero; assumption.
  - intros e Hpow. split.
    + now apply pow2_raises in Hpow.
    + now apply F1Beta_raises.
Qed.

Lemma F1Beta_zero_when_precision_and_recall_zero_witness :
  let c := {| LIKED := 3; TP := 0; FP := 2; FN := 3 |} in
  let beta := Float64.of_int 3 in
  (forall beta_sqr,
     PyFloat.pow2 PyFloat.rounded_square beta = Return beta_sqr ->
     (exists s,
        F1Beta._calc_per_user_from_confusion_df
          PyFloat.rounded_square 2 beta (Confusion [(7, c)])
        = Return s
        /\ s !! 0%nat = Some (7, Float64.zero))
     /\ F1Beta.raw_f1 beta_sqr (Precision.per_user 2 c) (Recall.per_user c)
        = Float64.nan)
  /\ (forall e,
        PyFloat.pow2 PyFloat.rounded_square beta = Raise e ->
        e = OverflowError
        /\ F1Beta._calc_per_user_from_confusion_df
             PyFloat.rounded_square 2 beta (Confusion [(7, c)])
           = Raise e).
Proof.
  intros c beta.
  apply (F1Beta_zero_when_precision_and_recall_zero
           PyFloat.rounded_square 2 beta (Confusion [(7, c)]) 0 7 c); reflexivity.
Defined.

(** Against C10 as the specification states it: on a row with
    [LIKED = 0] and [TP = 0], for [beta = 2^600], [self.beta**2] raises
    [OverflowError] and F1Beta returns no value, NaN or other. *)
Lemma F1Beta_OverflowError_without_liked :
  let c := {| LIKED := 0; TP := 0; FP := 2; FN := 0 |} in
  let beta := Float64.of_int (2 ^ 600) in
  Float64.is_finite beta = true
  /\ F1Beta._calc_per_user_from_confusion_df
       PyFloat.rounded_square 2 beta (Confusion [(7, c)])
     = Raise OverflowError.
Proof. repeat split. Qed.

(** C10. On a confusion row with [LIKED = 0] and [TP = 0] recall is NaN
    (and precision is a zero whenever [k] is not zero), the test
    [r_k == 0.0] of the mask is false, and F1Beta returns NaN, not zero, for
    every [k] and every [beta] whose square [beta ** 2] Python computes;
    when [beta ** 2] raises (the [OverflowError] of a finite [beta] whose
    square is out of range), so does F1Beta, and no value is returned. *)
Theorem F1Beta_nan_without_liked
    (libm_pow2 : float -> float) (k : Z) (beta : float)
    (confusion_df : confusion_table) (i : nat) (u : Z) (c : counts) :
  confusion_rows confusion_df !! i = Some (u, c) ->
  LIKED c = 0 ->
  TP c = 0 ->
  (forall beta_sqr,
     PyFloat.pow2 libm_pow2 beta = Return beta_sqr ->
     exists s,
       F1Beta._calc_per_user_from_confusion_df libm_pow2 k beta confusion_df
       = Return s
       /\ s !! i = Some (u, Float64.nan))
  /\ Recall.per_user c = Float64.nan
  /\ Float64.eqb (Recall.per_user c) Float64.zero = false
  /\ (k <> 0 -> Int64.in_range k ->
      Float64.eqb (Precision.per_user k c) Float64.zero = true)
  /\ (forall e,
        PyFloat.pow2 libm_pow2 beta = Raise e ->
        e = OverflowError
        /\ F1Beta._calc_per_user_from_confusion_df libm_pow2 k beta confusion_df
           = Raise e).
Proof.
  intros Hrow Hliked Htp.
  assert (Hr : Recall.per_user c = Float64.nan)
    by (unfold Recall.per_user; rewrite Hliked, Htp; reflexivity).
  split; [|split; [exact Hr | split; [rewrite Hr; reflexivity | split]]].
  - intros beta_sqr Hpow.
    destruct (F1Beta_lookup libm_pow2 k beta beta_sqr confusion_df i u c Hpow Hrow)
      as (s & Hs & Hi).
    exists s. split; [assumption|]. rewrite Hi. do 2 f_equal.
    unfold F1Beta.per_user.
    change (Float64.div (Float64.of_int (TP c)) (Float64.of_int (LIKED c)))
      with (Recall.per_user c).
    rewrite Hr, Float64Facts.eqb_nan_l, andb_false_r.
    unfold F1Beta.raw_f1.
    rewrite Float64Facts.mul_nan_r, Float64Facts.div_nan_l. reflexivity.
  - intros Hk Hkr. rewrite Float64Facts.eqb_zero_is_zero.
    unfold Precision.per_user. rewrite Htp.
    apply Float64Rounding.div_zero_of_int; [assumption | now apply in_range_64].
  - intros e Hpow. split.
    + now apply pow2_raises in Hpow.
    + now apply F1Beta_raises.
Qed.

Lemma F1Beta_nan_without_liked_witness :
  let c := {| LIKED := 0; TP := 0; FP := 2; FN := 0 |} in
  let beta := Float64.of_int 3 in
  (forall beta_sqr,
     PyFloat.pow2 PyFloat.rounded_square beta = Return beta_sqr ->
     exists s,
       F1Beta._calc_per_user_from_confusion_df
         PyFloat.rounded_square 2 beta (Confusion [(7, c)])
       = Return s
       /\ s !! 0%nat = Some (7, Float64.nan))
  /\ Recall.per_user c = Float64.nan
  /\ Float64.eqb (Recall.per_user c) Float64.zero = false
  /\ (2 <> 0 -> Int64.in_range 2 ->
      Float64.eqb (Precision.per_user 2 c) Float64.zero = true)
  /\ (forall e,
        PyFloat.pow2 PyFloat.rounded_square beta = Raise e ->
        e = OverflowError
        /\ F1Beta._calc_per_user_from_confusion_df
             PyFloat.rounded_square 2 beta (Confusion [(7, c)])
           = Raise e).
Proof.
  intros c beta.
  apply (F1Beta_nan_without_liked
           PyFloat.rounded_square 2 beta (Confusion [(7, c)]) 0 7 c); reflexivity.
Defined.

(** ** [int64] arithmetic *)

(** Goals on the bounds of [int64]. *)
Ltac int64_lia :=
  unfold Int64.in_range, Int64.min_value, Int64.max_value in *; lia.

Lemma wrap_in_range (z : Z) : Int64.in_range z -> Int64.wrap z = z.
Proof.
  intros H. unfold Int64.wrap. rewrite Z.mod_small; int64_lia.
Qed.

Lemma wrap_0 : Int64.wrap 0 = 0.
Proof. reflexivity. Qed.

(** C4. On a confusion row whose counts are not negative, if the product
    [(TP+FP)(TP+FN)(TN+FP)(TN+FN)] is zero then so is the numerator
    [TP*TN - FP*FN], and MCC returns exactly [0.0] for the row, where the
    unmasked quotient is NaN. *)
Theorem MCC_zero_when_denominator_zero
    (rows : list (Z * (counts * Z))) (catalog : list Z)
    (i : nat) (u : Z) (c : counts) (tn : Z) :
  rows !! i = Some (u, (c, tn)) ->
  0 <= TP c -> 0 <= FP c -> 0 <= FN c -> 0 <= tn ->
  (TP c + FP c) * (TP c + FN c) * (tn + FP c) * (tn + FN c) = 0 ->
  TP c * tn - FP c * FN c = 0
  /\ MCC.mcc_numerator c tn = 0
  /\ (exists s,
        MCC._calc_per_user_from_confusion_df (ConfusionTN rows) catalog = Return s
        /\ s !! i = Some (u, Float64.zero))
  /\ MCC.raw_mcc c tn = Float64.nan.
Proof.
  intros Hrow Htp Hfp Hfn Htn Hprod.
  assert (Hnum : TP c * tn - FP c * FN c = 0) by nia.
  assert (Hnum64 : MCC.mcc_numerator c tn = 0).
  { unfold MCC.mcc_numerator, Int64.sub, Int64.mul.
    assert (Hcases : (TP c = 0 \/ tn = 0) /\ (FP c = 0 \/ FN c = 0)) by nia.
    destruct Hcases as [[-> | ->] [-> | ->]];
      rewrite ?Z.mul_0_l, ?Z.mul_0_r, ?wrap_0; reflexivity. }
  assert (Hprod64 : MCC.mcc_product c tn = 0).
  { unfold MCC.mcc_product, Int64.mul, Int64.add.
    assert (Hcases : (TP c = 0 /\ FP c = 0) \/ (TP c = 0 /\ FN c = 0)
                     \/ (tn = 0 /\ FP c = 0) \/ (tn = 0 /\ FN c = 0)) by nia.
    destruct Hcases as [[-> ->] | [[-> ->] | [[-> ->] | [-> ->]]]];
      simpl Z.add; rewrite ?wrap_0, ?Z.mul_0_l, ?Z.mul_0_r, ?wrap_0; reflexivity. }
  assert (Hden : MCC.mcc_denominator c tn = Float64.zero)
    by (unfold MCC.mcc_denominator; rewrite Hprod64; reflexivity).
  repeat split; auto.
  - eexists; split; [reflexivity|].
    rewrite lookup_map, Hrow; simpl.
    unfold MCC.per_user. rewrite Hden. reflexivity.
  - unfold MCC.raw_mcc. rewrite Hnum64, Hden. reflexivity.
Qed.

Lemma MCC_zero_when_denominator_zero_witness :
  let c := {| LIKED := 0; TP := 0; FP := 2; FN := 0 |} in
  TP c * 0 - FP c * FN c = 0
  /\ MCC.mcc_numerator c 0 = 0
  /\ (exists s,
        MCC._calc_per_user_from_confusion_df (ConfusionTN [(7, (c, 0))]) [1; 2] = Return s
        /\ s !! 0%nat = Some (7, Float64.zero))
  /\ MCC.raw_mcc c 0 = Float64.nan.
Proof.
  intros c.
  apply (MCC_zero_when_denominator_zero [(7, (c, 0))] [1; 2] 0 7 c 0);
    simpl; first [reflexivity | lia].
Defined.

(** The guard of MCC tests the product as [int64] computes it.  On a large
    catalog that product can wrap around to zero although no factor is
    zero: below the factors are [2^10], [2^10], [2^22] and [2^22], the
    numerator is [-2^20], and the masked result is [0.0]. *)
Example MCC_product_wraps_to_zero :
  let c := {| LIKED := 1024; TP := 0; FP := 1024; FN := 1024 |} in
  let tn := 4193280 in
  (TP c + FP c) * (TP c + FN c) * (tn + FP c) * (tn + FN c) = 2 ^ 64
  /\ MCC.mcc_product c tn = 0
  /\ MCC.mcc_numerator c tn = - 2 ^ 20
  /\ MCC.per_user c tn = Float64.zero.
Proof. repeat split. Qed.

(** ** The TN column of [ClassificationMetric] *)

(** C9. [ClassificationMetric.calc_per_user_from_confusion_df] changes the
    table it is given: a table without TN leaves the call with the column
    [TN = len(catalog) - k - FN] added (computed in [int64], for
    [len(catalog) - k] an [int64] value), and the metric is computed from
    it; a table that has TN leaves the call as it was, the metric is
    computed from the TN it holds, and the catalog has no effect on those TN
    values (for MCC, no effect on the result at all). *)
Theorem ClassificationMetric_TN_column (self : metric) (catalog : list Z) :
  (Int64.in_range (Z.of_nat (length catalog) - metric_k self) ->
   forall rows,
     let tn_rows :=
       map (fun '(u, c) =>
              (u, (c, Int64.wrap (Z.of_nat (length catalog) - metric_k self - FN c))))
           rows in
     ClassificationMetric.calc_per_user_from_confusion_df self (Confusion rows) catalog
     = (ConfusionTN tn_rows,
        ClassificationMetric._calc_per_user_from_confusion_df
          self (ConfusionTN tn_rows) catalog))
  /\ (forall rows,
        ClassificationMetric.calc_per_user_from_confusion_df self (ConfusionTN rows) catalog
        = (ConfusionTN rows,
           ClassificationMetric._calc_per_user_from_confusion_df
             self (ConfusionTN rows) catalog))
  /\ (forall rows catalog',
        fst (ClassificationMetric.calc_per_user_from_confusion_df
               self (ConfusionTN rows) catalog')
        = fst (ClassificationMetric.calc_per_user_from_confusion_df
                 self (ConfusionTN rows) catalog))
  /\ (forall k rows catalog',
        ClassificationMetric.calc_per_user_from_confusion_df (MCC k) (ConfusionTN rows) catalog'
        = ClassificationMetric.calc_per_user_from_confusion_df (MCC k) (ConfusionTN rows) catalog)
  /\ (forall k rows,
        snd (ClassificationMetric.calc_per_user_from_confusion_df
               (Accuracy k) (ConfusionTN rows) catalog)
        = Return (map (fun '(u, (c, tn)) =>
                         (u, Accuracy.per_user (Z.of_nat (length catalog)) c tn))
                      rows)).
Proof.
  repeat split; intros; reflexivity.
Qed.

(** A stale TN column wins over the catalog: the table below holds
    [TN = 40], the catalog of five items and [k = 2] would give [TN = 2]. *)
Example ClassificationMetric_TN_reused :
  let c := {| LIKED := 2; TP := 1; FP := 1; FN := 1 |} in
  ClassificationMetric.calc_per_user_from_confusion_df
    (Accuracy 2) (ConfusionTN [(7, (c, 40))]) [1; 2; 3; 4; 5]
  = (ConfusionTN [(7, (c, 40))],
     Return [(7, Float64.div (Float64.of_int 41) (Float64.of_int 5))])
  /\ fst (ClassificationMetric.calc_per_user_from_confusion_df
            (Accuracy 2) (Confusion [(7, c)]) [1; 2; 3; 4; 5])
     = ConfusionTN [(7, (c, 2))].
Proof. split; reflexivity. Qed.

(** ** The loops of [calc_classification_metrics] *)

Lemma for_each_app {A S : Type} (l1 l2 : list A) (body : A -> S -> M S) (s : S)
    (log : call_log) :
  for_each (l1 ++ l2) body s log
  = match for_each l1 body s log with
    | (Return s', log') => for_each l2 body s' log'
    | (Raise e, log') => (Raise e, log')
    end.
Proof.
  revert s log; induction l1 as [|x l1 IH]; intros s log; simpl.
  - reflexivity.
  - unfold bind. destruct (body x s log) as [[s'|e] log']; auto.
Qed.

Lemma for_each_map {A B S : Type} (f : B -> A) (l : list B) (body : A -> S -> M S)
    (s : S) (log : call_log) :
  for_each (map f l) body s log = for_each l (fun b => body (f b)) s log.
Proof.
  revert s log; induction l as [|x l IH]; intros s log; simpl.
  - reflexivity.
  - unfold bind. destruct (body (f x) s log) as [[s'|e] log']; auto.
Qed.

(** The nested loops are one loop over [flatten_k_map]. *)
Lemma for_each_nested {S : Type} (k_map : list (Z * list string))
    (body : Z -> string -> S -> M S) (s : S) (log : call_log) :
  for_each k_map (fun '(k, k_metrics) s => for_each k_metrics (body k) s) s log
  = for_each (flatten_k_map k_map) (fun '(k, name) s => body k name s) s log.
Proof.
  revert s log; induction k_map as [|[k names] k_map IH]; intros s log.
  - reflexivity.
  - change (flatten_k_map ((k, names) :: k_map))
      with (map (fun name => (k, name)) names ++ flatten_k_map k_map).
    rewrite for_each_app, for_each_map. simpl. unfold bind.
    destruct (for_each names (body k) s log) as [[s'|e] log']; auto.
Qed.

(** The errors of the formulas: [NotImplementedError] and [OverflowError]. *)
Lemma formula_error_cases (libm_pow2 : float -> float) (m : metric) (e : exn) :
  formula_error libm_pow2 m = Some e ->
  (e = NotImplementedError
   /\ ((exists k, m = SimpleClassificationMetric k)
       \/ (exists k, m = ClassificationMetric k)))
  \/ (e = OverflowError
      /\ exists k beta,
           (m = F1Beta k beta \/ exists cfg, m = DebiasF1Beta k beta cfg)
           /\ PyFloat.pow2 libm_pow2 beta = Raise OverflowError).
Proof.
  destruct m; simpl; try discriminate.
  - intros [= <-]. left. eauto.
  - intros [= <-]. left. eauto.
  - destruct (PyFloat.pow2 libm_pow2 beta) as [y|e'] eqn:Hpow; [discriminate|].
    intros [= <-]. destruct (pow2_raises _ _ _ Hpow) as [-> _]. right. eauto 8.
  - destruct (PyFloat.pow2 libm_pow2 beta) as [y|e'] eqn:Hpow; [discriminate|].
    intros [= <-]. destruct (pow2_raises _ _ _ Hpow) as [-> _]. right. eauto 8.
Qed.

Section DriverFacts.
Variable libm_pow2 : float -> float.
Variable make_downsample : DebiasConfig -> merged_df -> merged_df.
Variable mean : series -> float.

(** The formula of a metric raises its [formula_error], or returns,
    whatever the table. *)
Lemma simple_calc_outcome (m : metric) (confusion_df : confusion_table) :
  isinstance_SimpleClassificationMetric m = true ->
  match formula_error libm_pow2 m with
  | Some e =>
      SimpleClassificationMetric.calc_from_confusion_df libm_pow2 mean m confusion_df
      = Raise e
  | None =>
      exists res,
        SimpleClassificationMetric.calc_from_confusion_df libm_pow2 mean m confusion_df
        = Return res
  end.
Proof.
  destruct m; try discriminate; intros _; simpl;
    try (eexists; reflexivity); try reflexivity;
    unfold SimpleClassificationMetric.calc_from_confusion_df,
      SimpleClassificationMetric.calc_per_user_from_confusion_df,
      SimpleClassificationMetric._calc_per_user_from_confusion_df,
      F1Beta._calc_per_user_from_confusion_df;
    (destruct (PyFloat.pow2 libm_pow2 beta); [eexists|]; reflexivity).
Qed.

Lemma classification_calc_outcome (m : metric) (merged : merged_df) (k : Z)
    (catalog : list Z) :
  isinstance_ClassificationMetric m = true ->
  match formula_error libm_pow2 m with
  | Some e =>
      snd (ClassificationMetric.calc_from_confusion_df
             mean m (calc_confusions merged k) catalog) = Raise e
  | None =>
      exists res,
        snd (ClassificationMetric.calc_from_confusion_df
               mean m (calc_confusions merged k) catalog) = Return res
  end.
Proof.
  destruct m; try discriminate; intros _; simpl;
    try (eexists; reflexivity); reflexivity.
Qed.

(** One turn of the inner loop: one call of [calc_confusions], then the
    metric's value or the error. *)
Lemma calc_metric_step (metrics : list (string * metric)) (merged : merged_df)
    (catalog : option (list Z)) (k : Z) (name : string) (m : metric)
    (results : list (string * float)) (log : call_log) :
  dict_get name metrics = Some m ->
  exists o,
    calc_metric libm_pow2 make_downsample mean metrics merged catalog k name results log
    = (o, log ++ [call_of make_downsample merged (k, m)])
    /\ match first_error libm_pow2 catalog [(k, m)] with
       | Some e => o = Raise e
       | None => exists r, o = Return r
       end.
Proof.
  intros Hget. unfold calc_metric. rewrite Hget.
  assert (Hcall : forall (f : confusion_table -> M (list (string * float))),
            (confusion_df <-
               match isinstance_Debias m with
               | Some cfg => call_calc_confusions (make_downsample cfg merged) k
               | None => call_calc_confusions merged k
               end ;; f confusion_df) log
            = f (calc_confusions (fst (call_of make_downsample merged (k, m))) k)
                (log ++ [call_of make_downsample merged (k, m)])).
  { intros f. unfold call_of, bind, call_calc_confusions. simpl.
    destruct (isinstance_Debias m); reflexivity. }
  rewrite Hcall. clear Hcall.
  set (confusion_df := calc_confusions (fst (call_of make_downsample merged (k, m))) k).
  simpl first_error. unfold bind, lift, raise, ret.
  destruct (isinstance_SimpleClassificationMetric m) eqn:Hs.
  - pose proof (simple_calc_outcome m confusion_df Hs) as Hout.
    destruct (formula_error libm_pow2 m) as [e|].
    + rewrite Hout. eauto.
    + destruct Hout as [res ->]. eauto.
  - destruct (isinstance_ClassificationMetric m) eqn:Hc.
    + destruct catalog as [catalog|]; [|eauto].
      pose proof (classification_calc_outcome
                    m (fst (call_of make_downsample merged (k, m))) k catalog Hc) as Hout.
      fold confusion_df in Hout.
      destruct (formula_error libm_pow2 m) as [e|].
      * rewrite Hout. eauto.
      * destruct Hout as [res ->]. eauto.
    + eauto.
Qed.

(** A run over the visited pairs [l]: the error is [first_error], the
    calls of [calc_confusions] are one per reached metric. *)
Lemma for_each_calc_metric (metrics : list (string * metric)) (merged : merged_df)
    (catalog : option (list Z)) (l : list (Z * string)) :
  (forall k name, (k, name) ∈ l -> is_Some (dict_get name metrics)) ->
  forall (results : list (string * float)) (log : call_log),
  exists o,
    for_each l
      (fun '(k, name) results =>
         calc_metric libm_pow2 make_downsample mean metrics merged catalog k name results)
      results log
    = (o, log ++ map (call_of make_downsample merged)
                     (reached libm_pow2 catalog (resolve metrics l)))
    /\ match first_error libm_pow2 catalog (resolve metrics l) with
       | Some e => o = Raise e
       | None => exists r, o = Return r
       end.
Proof.
  induction l as [|[k name] l IH]; intros Hres results log.
  - exists (Return results). simpl. rewrite app_nil_r. eauto.
  - assert (Hm : is_Some (dict_get name metrics)) by (apply (Hres k); constructor).
    destruct Hm as [m Hm].
    assert (Hres' : forall k name, (k, name) ∈ l -> is_Some (dict_get name metrics))
      by (intros k' name' Hin; apply (Hres k' name'); constructor; exact Hin).
    destruct (calc_metric_step metrics merged catalog k name m results log Hm)
      as (o & Hstep & Ho).
    unfold resolve in *. simpl omap. rewrite Hm. simpl fmap.
    simpl for_each. unfold bind. rewrite Hstep.
    simpl in Ho. simpl first_error. simpl reached.
    assert (Hnext : forall r,
              exists o',
                for_each l
                  (fun '(k, name) results =>
                     calc_metric libm_pow2 make_downsample mean metrics merged catalog
                       k name results)
                  r (log ++ [call_of make_downsample merged (k, m)])
                = (o', log ++ map (call_of make_downsample merged)
                                  ((k, m) :: reached libm_pow2 catalog
                                               (omap (fun '(k, name) =>
                                                        (fun m => (k, m))
                                                          <$> dict_get name metrics) l)))
                /\ match first_error libm_pow2 catalog
                           (omap (fun '(k, name) =>
                                    (fun m => (k, m)) <$> dict_get name metrics) l) with
                   | Some e => o' = Raise e
                   | None => exists r', o' = Return r'
                   end).
    { intros r.
      destruct (IH Hres' r (log ++ [call_of make_downsample merged (k, m)]))
        as (o' & Hrun & Ho').
      exists o'. rewrite Hrun. simpl. rewrite <- app_assoc. auto. }
    destruct (isinstance_SimpleClassificationMetric m).
    + destruct (formula_error libm_pow2 m) as [e|].
      * subst o. eexists; split; reflexivity.
      * destruct Ho as [r ->]. apply Hnext.
    + destruct (isinstance_ClassificationMetric m).
      * destruct catalog as [catalog|].
        -- destruct (formula_error libm_pow2 m) as [e|].
           ++ subst o. eexists; split; reflexivity.
           ++ destruct Ho as [r ->]. apply Hnext.
        -- subst o. eexists; split; reflexivity.
      * subst o. eexists; split; reflexivity.
Qed.
End DriverFacts.

(** ** The order of the loops *)

Lemma flatten_k_map_names (k_map : list (Z * list string)) :
  map snd (flatten_k_map k_map) = concat (map snd k_map).
Proof.
  induction k_map as [|[k names] k_map IH]; [reflexivity|].
  change (flatten_k_map ((k, names) :: k_map))
    with (map (fun name => (k, name)) names ++ flatten_k_map k_map).
  rewrite map_app, IH, map_map. simpl. now rewrite map_id.
Qed.

Lemma k_map_append_names (k : Z) (name : string) (k_map : list (Z * list string)) :
  concat (map snd (k_map_append k name k_map)) ≡ₚ concat (map snd k_map) ++ [name].
Proof.
  induction k_map as [|[k' names] k_map IH]; simpl.
  - reflexivity.
  - destruct (decide (k = k')); simpl.
    + rewrite <- !app_assoc. apply Permutation_app_head, Permutation_app_comm.
    + rewrite IH. now rewrite app_assoc.
Qed.

Lemma build_k_map_names_from (metrics : list (string * metric))
    (k_map : list (Z * list string)) :
  concat (map snd
            (fold_left (fun k_map '(name, metric) =>
                          k_map_append (metric_k metric) name k_map)
                       metrics k_map))
  ≡ₚ concat (map snd k_map) ++ map fst metrics.
Proof.
  revert k_map; induction metrics as [|[name m] metrics IH]; intros k_map; simpl.
  - now rewrite app_nil_r.
  - rewrite IH, k_map_append_names, <- app_assoc. reflexivity.
Qed.

(** Every metric name is visited exactly once. *)
Lemma eval_order_names (metrics : list (string * metric)) :
  map snd (eval_order metrics) ≡ₚ map fst metrics.
Proof.
  unfold eval_order. rewrite flatten_k_map_names.
  unfold build_k_map. now rewrite build_k_map_names_from.
Qed.

Lemma dict_get_Some_elem {K V : Type} `{EqDecision K} (name : K) (v : V)
    (d : list (K * V)) :
  dict_get name d = Some v -> (name, v) ∈ d.
Proof.
  induction d as [|[k' v'] d IH]; simpl; [discriminate|].
  destruct (decide (name = k')) as [->|Hne].
  - intros [= ->]. constructor.
  - intros H. constructor. auto.
Qed.

Lemma dict_get_is_Some {K V : Type} `{EqDecision K} (name : K) (d : list (K * V)) :
  name ∈ map fst d -> is_Some (dict_get name d).
Proof.
  induction d as [|[k' v'] d IH]; simpl.
  - intros H. inversion H.
  - intros H. destruct (decide (name = k')); [eauto|].
    apply IH. inversion H; subst; [contradiction | assumption].
Qed.

Lemma dict_get_NoDup {K V : Type} `{EqDecision K} (name : K) (v : V)
    (d : list (K * V)) :
  NoDup (map fst d) -> (name, v) ∈ d -> dict_get name d = Some v.
Proof.
  induction d as [|[k' v'] d IH]; simpl; intros Hnd Hin.
  - inversion Hin.
  - apply NoDup_cons in Hnd as [Hnotin Hnd].
    destruct (decide (name = k')) as [->|Hne].
    + inversion Hin as [|? ? ? Hin']; subst; [reflexivity|].
      exfalso. apply Hnotin.
      apply list_elem_of_In, in_map_iff. exists (k', v). split; [reflexivity|].
      now apply list_elem_of_In.
    + inversion Hin; subst; [contradiction | auto].
Qed.

Lemma eval_order_resolves (metrics : list (string * metric)) (k : Z) (name : string) :
  (k, name) ∈ eval_order metrics -> is_Some (dict_get name metrics).
Proof.
  intros Hin. apply dict_get_is_Some.
  rewrite <- eval_order_names.
  apply list_elem_of_In, in_map_iff. exists (k, name). split; [reflexivity|].
  now apply list_elem_of_In.
Qed.

Lemma resolve_length (metrics : list (string * metric)) (l : list (Z * string)) :
  (forall k name, (k, name) ∈ l -> is_Some (dict_get name metrics)) ->
  length (resolve metrics l) = length l.
Proof.
  induction l as [|[k name] l IH]; intros Hres; [reflexivity|].
  assert (Hm : is_Some (dict_get name metrics)) by (apply (Hres k); constructor).
  destruct Hm as [m Hm]. unfold resolve in *. simpl. rewrite Hm. simpl.
  f_equal. apply IH. intros k' name' Hin. apply (Hres k' name'). now constructor.
Qed.

Lemma ordered_metrics_length (metrics : list (string * metric)) :
  length (ordered_metrics metrics) = length metrics.
Proof.
  unfold ordered_metrics. rewrite resolve_length by apply eval_order_resolves.
  rewrite <- (length_map snd), eval_order_names. apply length_map.
Qed.

Lemma resolve_elem (metrics : list (string * metric)) (l : list (Z * string))
    (k : Z) (m : metric) :
  (k, m) ∈ resolve metrics l <->
  exists name, (k, name) ∈ l /\ dict_get name metrics = Some m.
Proof.
  induction l as [|[k' name'] l IH]; unfold resolve in *; simpl.
  - split; [intros H; inversion H | intros (? & H & _); inversion H].
  - destruct (dict_get name' metrics) as [m'|] eqn:Hget; simpl.
    + split.
      * intros H. inversion H as [|? ? ? H']; subst.
        -- exists name'. split; [constructor | assumption].
        -- apply IH in H' as (name & Hin & Hg). exists name. split; [now constructor | assumption].
      * intros (name & Hin & Hg). inversion Hin as [|? ? ? Hin']; subst.
        -- rewrite Hget in Hg. injection Hg as ->. constructor.
        -- constructor. apply IH. eauto.
    + rewrite IH. split.
      * intros (name & Hin & Hg). exists name. split; [now constructor | assumption].
      * intros (name & Hin & Hg). inversion Hin as [|? ? ? Hin']; subst.
        -- congruence.
        -- eauto.
Qed.

(** The metrics visited are the metrics of the dictionary. *)
Lemma ordered_metrics_elem (metrics : list (string * metric)) (m : metric) :
  NoDup (map fst metrics) ->
  (exists k, (k, m) ∈ ordered_metrics metrics) <-> (exists name, (name, m) ∈ metrics).
Proof.
  intros Hnd. unfold ordered_metrics. split.
  - intros (k & Hin). apply resolve_elem in Hin as (name & _ & Hg).
    exists name. now apply dict_get_Some_elem.
  - intros (name & Hin).
    assert (Hname : name ∈ map snd (eval_order metrics)).
    { rewrite eval_order_names. apply list_elem_of_In, in_map_iff.
      exists (name, m). split; [reflexivity | now apply list_elem_of_In]. }
    apply list_elem_of_In, in_map_iff in Hname as ([k name'] & Heq & Hin').
    simpl in Heq; subst name'.
    exists k. apply resolve_elem. exists name. split.
    + now apply list_elem_of_In.
    + now apply dict_get_NoDup.
Qed.

(** ** Which error stops a run *)

Lemma isinstance_disjoint (m : metric) :
  isinstance_SimpleClassificationMetric m = true ->
  isinstance_ClassificationMetric m = false.
Proof. destruct m; simpl; congruence. Qed.

Section ErrorFacts.
Variable libm_pow2 : float -> float.

Lemma first_error_None_reached (catalog : option (list Z)) (ms : list (Z * metric)) :
  first_error libm_pow2 catalog ms = None -> reached libm_pow2 catalog ms = ms.
Proof.
  induction ms as [|[k m] ms IH]; simpl; [reflexivity|].
  destruct (isinstance_SimpleClassificationMetric m).
  - destruct (formula_error libm_pow2 m); [discriminate|].
    intros H. f_equal. auto.
  - destruct (isinstance_ClassificationMetric m); [|discriminate].
    destruct catalog; [|discriminate].
    destruct (formula_error libm_pow2 m); [discriminate|].
    intros H. f_equal. auto.
Qed.

Lemma formula_error_not_ValueError (m : metric) :
  formula_error libm_pow2 m <> Some ValueError.
Proof.
  intros H. apply formula_error_cases in H as [[H _]|[H _]]; discriminate.
Qed.

Lemma formula_error_not_TypeError (m : metric) :
  formula_error libm_pow2 m <> Some TypeError.
Proof.
  intros H. apply formula_error_cases in H as [[H _]|[H _]]; discriminate.
Qed.

(** [ValueError] is raised when, with no catalog, the first metric of the
    run that is not a [SimpleClassificationMetric] whose formula returns is
    a [ClassificationMetric]. *)
Lemma first_error_ValueError (catalog : option (list Z)) (ms : list (Z * metric)) :
  first_error libm_pow2 catalog ms = Some ValueError <->
  catalog = None
  /\ exists l1 km l2,
       ms = l1 ++ km :: l2
       /\ Forall (fun km => isinstance_SimpleClassificationMetric (snd km) = true
                            /\ formula_error libm_pow2 (snd km) = None) l1
       /\ isinstance_SimpleClassificationMetric (snd km) = false
       /\ isinstance_ClassificationMetric (snd km) = true.
Proof.
  induction ms as [|[k m] ms IH]; simpl.
  - split; [discriminate|]. intros (_ & l1 & km & l2 & H & _). now destruct l1.
  - destruct (isinstance_SimpleClassificationMetric m) eqn:Hs.
    + destruct (formula_error libm_pow2 m) as [e|] eqn:He.
      * split.
        -- intros [= ->]. now apply formula_error_not_ValueError in He.
        -- intros (_ & l1 & km & l2 & Heq & Hl1 & Hkms & _).
           destruct l1 as [|x l1].
           ++ injection Heq as <- <-. simpl in Hkms. congruence.
           ++ injection Heq as <- ->. apply Forall_cons in Hl1 as [[_ Hx] _].
              simpl in Hx. congruence.
      * rewrite IH. split.
        -- intros (Hc & l1 & km & l2 & -> & Hl1 & Hkm).
           split; [assumption|]. exists ((k, m) :: l1), km, l2.
           split; [reflexivity|]. split; [constructor; auto | assumption].
        -- intros (Hc & l1 & km & l2 & Heq & Hl1 & Hkms & Hkmc).
           split; [assumption|]. destruct l1 as [|x l1].
           ++ injection Heq as <- <-. simpl in Hkms. congruence.
           ++ injection Heq as <- ->. apply Forall_cons in Hl1 as [_ Hl1].
              exists l1, km, l2. auto.
    + destruct (isinstance_ClassificationMetric m) eqn:Hc.
      * destruct catalog as [catalog|].
        -- split; [|intros (Hcat & _); discriminate].
           destruct (formula_error libm_pow2 m) as [e|] eqn:He.
           ++ intros [= ->]. now apply formula_error_not_ValueError in He.
           ++ rewrite IH. intros (Hcat & _); discriminate.
        -- split; [|reflexivity]. intros _. split; [reflexivity|].
           exists [], (k, m), ms. auto.
      * split; [discriminate|].
        intros (_ & l1 & km & l2 & Heq & Hl1 & Hkms & Hkmc).
        destruct l1 as [|x l1].
        -- injection Heq as <- <-. simpl in Hkmc. congruence.
        -- injection Heq as <- ->. apply Forall_cons in Hl1 as [[Hx _] _].
           simpl in Hx. congruence.
Qed.

Lemma first_error_recognized (catalog : option (list Z)) (ms : list (Z * metric)) :
  Forall (fun km => (isinstance_SimpleClassificationMetric (snd km) = true
                     /\ formula_error libm_pow2 (snd km) = None)
                    \/ isinstance_ClassificationMetric (snd km) = true) ms ->
  first_error libm_pow2 catalog ms = Some ValueError <->
  catalog = None /\ Exists (fun km => isinstance_ClassificationMetric (snd km) = true) ms.
Proof.
  intros Hrec. induction ms as [|[k m] ms IH]; simpl.
  - split; [discriminate|]. intros (_ & H). inversion H.
  - apply Forall_cons in Hrec as [Hm Hrec]. simpl in Hm.
    destruct (isinstance_SimpleClassificationMetric m) eqn:Hs.
    + destruct Hm as [[_ He]|Hm];
        [|apply isinstance_disjoint in Hs; congruence].
      rewrite He, (IH Hrec). apply isinstance_disjoint in Hs.
      split; intros (Hc & Hex); (split; [assumption|]).
      * now apply Exists_cons_tl.
      * apply Exists_cons in Hex as [Hex|Hex]; [simpl in Hex; congruence | assumption].
    + destruct Hm as [[Hm _]|Hm]; [discriminate|]. rewrite Hm.
      destruct catalog as [catalog|].
      * split; [|intros (Hcat & _); discriminate].
        destruct (formula_error libm_pow2 m) as [e|] eqn:He.
        -- intros [= ->]. now apply formula_error_not_ValueError in He.
        -- rewrite (IH Hrec). intros (Hcat & _); discriminate.
      * split; [|reflexivity]. intros _. split; [reflexivity|].
        now apply Exists_cons_hd.
Qed.
End ErrorFacts.

Section DriverTheorems.
Variable libm_pow2 : float -> float.
Variable make_downsample : DebiasConfig -> merged_df -> merged_df.
Variable mean : series -> float.

(** A call of the driver makes one call of [calc_confusions] for every
    metric it reaches, and stops at [first_error]. *)
Lemma calc_classification_metrics_run (metrics : list (string * metric))
    (merged : merged_df) (catalog : option (list Z)) (log : call_log) :
  exists o,
    calc_classification_metrics libm_pow2 make_downsample mean metrics merged catalog log
    = (o, log ++ map (call_of make_downsample merged)
                     (reached libm_pow2 catalog (ordered_metrics metrics)))
    /\ match first_error libm_pow2 catalog (ordered_metrics metrics) with
       | Some e => o = Raise e
       | None => exists r, o = Return r
       end.
Proof.
  unfold calc_classification_metrics. rewrite for_each_nested.
  apply for_each_calc_metric. apply eval_order_resolves.
Qed.

Lemma calc_classification_metrics_raises (metrics : list (string * metric))
    (merged : merged_df) (catalog : option (list Z)) (log : call_log) (e : exn) :
  fst (calc_classification_metrics
         libm_pow2 make_downsample mean metrics merged catalog log)
  = Raise e
  <-> first_error libm_pow2 catalog (ordered_metrics metrics) = Some e.
Proof.
  destruct (calc_classification_metrics_run metrics merged catalog log)
    as (o & -> & Ho). simpl.
  destruct (first_error libm_pow2 catalog (ordered_metrics metrics)) as [e'|].
  - subst o. split; congruence.
  - destruct Ho as [r ->]. split; discriminate.
Qed.

(** When the driver returns, it has called [calc_confusions] once per
    metric of the dictionary. *)
Lemma calc_classification_metrics_calls (metrics : list (string * metric))
    (merged : merged_df) (catalog : option (list Z)) (log : call_log)
    (results : list (string * float)) :
  fst (calc_classification_metrics
         libm_pow2 make_downsample mean metrics merged catalog log)
  = Return results ->
  snd (calc_classification_metrics
         libm_pow2 make_downsample mean metrics merged catalog log)
  = log ++ map (call_of make_downsample merged) (ordered_metrics metrics)
  /\ length (snd (calc_classification_metrics
                    libm_pow2 make_downsample mean metrics merged catalog log))
     = (length log + length metrics)%nat.
Proof.
  destruct (calc_classification_metrics_run metrics merged catalog log)
    as (o & Hrun & Ho). rewrite Hrun. simpl. intros ->.
  destruct (first_error libm_pow2 catalog (ordered_metrics metrics)) as [e'|] eqn:Herr;
    [discriminate|].
  rewrite (first_error_None_reached _ _ _ Herr).
  split; [reflexivity|].
  now rewrite length_app, length_map, ordered_metrics_length.
Qed.

(** C1. With the three metrics [Precision(k=5)], [Recall(k=5)] and
    [Accuracy(k=5)], none of them debiased, [calc_classification_metrics]
    returns the three values and has called [calc_confusions] three times
    with the same arguments [(merged, 5)], once for each metric and not
    once for the [k] they share. *)
Theorem calc_confusions_called_per_metric (merged : merged_df) (catalog : list Z) :
  let metrics :=
    [("precision"%string, Precision 5); ("recall"%string, Recall 5);
     ("accuracy"%string, Accuracy 5)] in
  snd (calc_classification_metrics libm_pow2 make_downsample mean metrics merged (Some catalog) [])
  = [(merged, 5); (merged, 5); (merged, 5)]
  /\ exists p r a,
       fst (calc_classification_metrics
              libm_pow2 make_downsample mean metrics merged (Some catalog) [])
       = Return [("precision"%string, p); ("recall"%string, r); ("accuracy"%string, a)].
Proof.
  split.
  - reflexivity.
  - do 3 eexists. reflexivity.
Qed.

(** C7. With the metric names distinct, [calc_classification_metrics]
    raises [ValueError] if and only if no catalog is given and the first
    metric of the run (metrics grouped by [k], groups and names in order
    of insertion) that is not a [SimpleClassificationMetric] whose formula
    returns is a [ClassificationMetric]: a metric of another kind visited
    before it raises [TypeError], a direct instance of
    [SimpleClassificationMetric] [NotImplementedError], an F1Beta whose
    [beta ** 2] is out of range [OverflowError].  When every metric is a
    [SimpleClassificationMetric] whose formula returns or a
    [ClassificationMetric], that is if and only if no catalog is given and
    some [ClassificationMetric] is in the dictionary.  Raising, the call
    returns no result.  (The cutoffs are [int64] values, as the model of
    the columns requires.) *)
Theorem calc_classification_metrics_ValueError (metrics : list (string * metric))
    (merged : merged_df) (catalog : option (list Z)) (log : call_log) :
  NoDup (map fst metrics) ->
  (forall name m, (name, m) ∈ metrics -> int64_cutoff catalog m) ->
  (fst (calc_classification_metrics
          libm_pow2 make_downsample mean metrics merged catalog log)
   = Raise ValueError
   <-> catalog = None
       /\ exists l1 km l2,
            ordered_metrics metrics = l1 ++ km :: l2
            /\ Forall (fun km => isinstance_SimpleClassificationMetric (snd km) = true
                                 /\ formula_error libm_pow2 (snd km) = None) l1
            /\ isinstance_SimpleClassificationMetric (snd km) = false
            /\ isinstance_ClassificationMetric (snd km) = true)
  /\ ((forall name m, (name, m) ∈ metrics ->
         (isinstance_SimpleClassificationMetric m = true
          /\ formula_error libm_pow2 m = None)
         \/ isinstance_ClassificationMetric m = true) ->
      (fst (calc_classification_metrics
              libm_pow2 make_downsample mean metrics merged catalog log)
       = Raise ValueError
       <-> catalog = None
           /\ exists name m,
                (name, m) ∈ metrics /\ isinstance_ClassificationMetric m = true)).
Proof.
  intros Hnd _. split.
  - rewrite calc_classification_metrics_raises. apply first_error_ValueError.
  - intros Hrec. rewrite calc_classification_metrics_raises.
    rewrite first_error_recognized.
    + split; intros (Hc & Hex); (split; [assumption|]).
      * apply Exists_exists in Hex as ([k m] & Hin & Hm). simpl in Hm.
        destruct (proj1 (ordered_metrics_elem metrics m Hnd)) as [name Hname]; eauto.
      * destruct Hex as (name & m & Hin & Hm).
        destruct (proj2 (ordered_metrics_elem metrics m Hnd)) as [k Hk]; eauto.
        apply Exists_exists. exists (k, m). auto.
    + apply Forall_forall. intros [k m] Hin. simpl.
      destruct (proj1 (ordered_metrics_elem metrics m Hnd)) as [name Hname]; eauto.
Qed.
End DriverTheorems.

Lemma calc_classification_metrics_ValueError_witness :
  let metrics := [("precision"%string, Precision 5); ("accuracy"%string, Accuracy 5)] in
  let merged := [ {| User := 1; Item := 10; Rank := Some 1; Interacted := true |} ] in
  let run :=
    fst (calc_classification_metrics
           PyFloat.rounded_square (fun _ merged => merged) (fun _ => Float64.nan)
           metrics merged None []) in
  (run = Raise ValueError
   <-> None = @None (list Z)
       /\ exists l1 km l2,
            ordered_metrics metrics = l1 ++ km :: l2
            /\ Forall (fun km => isinstance_SimpleClassificationMetric (snd km) = true
                                 /\ formula_error PyFloat.rounded_square (snd km) = None)
                      l1
            /\ isinstance_SimpleClassificationMetric (snd km) = false
            /\ isinstance_ClassificationMetric (snd km) = true)
  /\ ((forall name m, (name, m) ∈ metrics ->
         (isinstance_SimpleClassificationMetric m = true
          /\ formula_error PyFloat.rounded_square m = None)
         \/ isinstance_ClassificationMetric m = true) ->
      (run = Raise ValueError
       <-> None = @None (list Z)
           /\ exists name m,
                (name, m) ∈ metrics /\ isinstance_ClassificationMetric m = true)).
Proof.
  intros metrics merged run.
  apply (calc_classification_metrics_ValueError
           PyFloat.rounded_square (fun _ merged => merged) (fun _ => Float64.nan)
           metrics merged None []).
  - apply (bool_decide_unpack _). vm_compute. exact I.
  - intros name m Hin. apply list_elem_of_In in Hin.
    destruct Hin as [[= <- <-]|[[= <- <-]|[]]];
      (split; [split; vm_compute; discriminate | discriminate]).
Defined.

(** Against C7 as the specification states it: with a metric of another
    kind visited first, the call raises [TypeError], not [ValueError],
    although a [ClassificationMetric] is requested and no catalog is given. *)
Lemma calc_classification_metrics_TypeError_first :
  let metrics := [("other"%string, OtherMetric 1); ("accuracy"%string, Accuracy 1)] in
  let run :=
    fst (calc_classification_metrics
           PyFloat.rounded_square (fun _ merged => merged) (fun _ => Float64.nan) metrics
           [ {| User := 1; Item := 10; Rank := Some 1; Interacted := true |} ]
           None []) in
  run = Raise TypeError
  /\ run <> Raise ValueError
  /\ ("accuracy"%string, Accuracy 1) ∈ metrics
  /\ isinstance_ClassificationMetric (Accuracy 1) = true.
Proof.
  repeat split; [discriminate | repeat constructor].
Qed.

(** ** [groupby] *)

Section GroupByFacts.
Context {A : Type} (key : A -> Z).

Lemma groupby_snoc (rows : list A) (r : A) :
  groupby key (rows ++ [r]) = insert_group key r (groupby key rows).
Proof. unfold groupby. now rewrite fold_left_app. Qed.

Lemma insert_group_keys (r : A) (gs : list (Z * list A)) (u : Z) :
  u ∈ map fst (insert_group key r gs) <-> u = key r \/ u ∈ map fst gs.
Proof.
  induction gs as [|[v g] gs IH]; simpl.
  - rewrite !list_elem_of_In. simpl. intuition.
  - destruct (key r <? v) eqn:Hlt; [|destruct (key r =? v) eqn:Heq]; simpl.
    + rewrite !elem_of_cons. simpl. tauto.
    + apply Z.eqb_eq in Heq. rewrite !elem_of_cons. intuition congruence.
    + rewrite !elem_of_cons, IH. tauto.
Qed.

Lemma insert_group_sorted (r : A) (gs : list (Z * list A)) :
  StronglySorted Z.lt (map fst gs) ->
  StronglySorted Z.lt (map fst (insert_group key r gs)).
Proof.
  induction gs as [|[v g] gs IH]; simpl; intros Hs.
  - repeat constructor.
  - apply StronglySorted_inv in Hs as [Hs Hall]. simpl in Hall.
    destruct (key r <? v) eqn:Hlt; [|destruct (key r =? v) eqn:Heq]; simpl.
    + apply Z.ltb_lt in Hlt. constructor.
      * constructor; assumption.
      * constructor; [assumption|].
        eapply Forall_impl; [exact Hall|]. simpl. intros; lia.
    + constructor; assumption.
    + apply Z.ltb_ge in Hlt. apply Z.eqb_neq in Heq.
      constructor; [auto|].
      apply Forall_forall. intros u Hu. apply insert_group_keys in Hu as [->|Hu].
      * lia.
      * rewrite Forall_forall in Hall. auto.
Qed.

Lemma dict_get_below (u : Z) (gs : list (Z * list A)) :
  Forall (Z.lt u) (map fst gs) -> dict_get u gs = None.
Proof.
  induction gs as [|[v g] gs IH]; simpl; [reflexivity|].
  intros Hall. apply Forall_cons in Hall as [Hv Hall].
  destruct (decide (u = v)); [lia | auto].
Qed.

(** The group of a key after one more row. *)
Lemma insert_group_get (r : A) (gs : list (Z * list A)) (u : Z) :
  StronglySorted Z.lt (map fst gs) ->
  dict_get u (insert_group key r gs)
  = if decide (u = key r) then Some (default [] (dict_get u gs) ++ [r])
    else dict_get u gs.
Proof.
  induction gs as [|[v g] gs IH]; simpl; intros Hs.
  - destruct (decide (u = key r)); reflexivity.
  - apply StronglySorted_inv in Hs as [Hs Hall]. simpl in Hall.
    destruct (key r <? v) eqn:Hlt; [|destruct (key r =? v) eqn:Heq]; simpl.
    + apply Z.ltb_lt in Hlt.
      destruct (decide (u = key r)) as [->|Hne]; [|reflexivity].
      destruct (decide (key r = v)); [lia|].
      rewrite dict_get_below; [reflexivity|].
      eapply Forall_impl; [exact Hall|]. simpl. intros; lia.
    + apply Z.eqb_eq in Heq.
      destruct (decide (u = v)) as [->|Hne].
      * destruct (decide (v = key r)); [reflexivity | congruence].
      * destruct (decide (u = key r)); [congruence | reflexivity].
    + apply Z.ltb_ge in Hlt. apply Z.eqb_neq in Heq.
      destruct (decide (u = v)) as [->|Hne].
      * destruct (decide (v = key r)); [congruence | reflexivity].
      * auto.
Qed.

Lemma groupby_sorted (rows : list A) :
  StronglySorted Z.lt (map fst (groupby key rows)).
Proof.
  induction rows as [|r rows IH] using rev_ind.
  - constructor.
  - rewrite groupby_snoc. now apply insert_group_sorted.
Qed.

(** The group of [u] holds the rows of key [u], in the order of the table;
    a key without rows has no group. *)
Lemma groupby_get (rows : list A) (u : Z) :
  dict_get u (groupby key rows)
  = match filter (fun r => key r = u) rows with
    | [] => None
    | g => Some g
    end.
Proof.
  induction rows as [|r rows IH] using rev_ind.
  - reflexivity.
  - rewrite groupby_snoc, insert_group_get by apply groupby_sorted.
    rewrite IH, filter_app, filter_cons, filter_nil.
    destruct (decide (u = key r)) as [->|Hne].
    + rewrite decide_True by reflexivity.
      destruct (filter (fun r0 => key r0 = key r) rows); reflexivity.
    + rewrite decide_False by congruence. rewrite app_nil_r. reflexivity.
Qed.

Lemma groupby_NoDup (rows : list A) : NoDup (map fst (groupby key rows)).
Proof.
  pose proof (groupby_sorted rows) as Hs.
  induction Hs as [|v l Hs IH Hall]; constructor; auto.
  intros Hin. rewrite Forall_forall in Hall. apply Hall in Hin. lia.
Qed.

Lemma groupby_elem (rows : list A) (u : Z) (g : list A) :
  (u, g) ∈ groupby key rows <->
  g = filter (fun r => key r = u) rows /\ g <> [].
Proof.
  split.
  - intros Hin. apply (dict_get_NoDup _ _ _ (groupby_NoDup rows)) in Hin.
    rewrite groupby_get in Hin.
    destruct (filter (fun r => key r = u) rows); [discriminate|].
    injection Hin as <-. split; [reflexivity | discriminate].
  - intros [-> Hne]. apply dict_get_Some_elem. rewrite groupby_get.
    destruct (filter (fun r => key r = u) rows); [contradiction | reflexivity].
Qed.
End GroupByFacts.

(** Grouping commutes with adding a column. *)
Lemma insert_group_decorate {A B : Type} (key : A -> Z) (f : A -> B) (r : A)
    (gs : list (Z * list A)) :
  insert_group (fun rb => key (fst rb)) (r, f r)
    (map (fun '(u, g) => (u, map (fun r => (r, f r)) g)) gs)
  = map (fun '(u, g) => (u, map (fun r => (r, f r)) g)) (insert_group key r gs).
Proof.
  induction gs as [|[v g] gs IH]; simpl; [reflexivity|].
  destruct (key r <? v); [reflexivity|].
  destruct (key r =? v); simpl.
  - now rewrite map_app.
  - now rewrite IH.
Qed.

Lemma groupby_decorate {A B : Type} (key : A -> Z) (f : A -> B) (rows : list A) :
  groupby (fun rb => key (fst rb)) (map (fun r => (r, f r)) rows)
  = map (fun '(u, g) => (u, map (fun r => (r, f r)) g)) (groupby key rows).
Proof.
  induction rows as [|r rows IH] using rev_ind; [reflexivity|].
  rewrite map_app.
  change (map (fun r0 => (r0, f r0)) [r]) with [(r, f r)].
  rewrite !groupby_snoc, IH. apply insert_group_decorate.
Qed.

(** ** [calc_confusions], user by user *)

Lemma zip_with_map_map {A B C D : Type} (f : B -> C -> D) (a : A -> B) (b : A -> C)
    (l : list A) :
  zip_with f (map a l) (map b l) = map (fun x => f (a x) (b x)) l.
Proof. induction l as [|x l IH]; simpl; [reflexivity | now rewrite IH]. Qed.

(** The two grouped series have the same index, and the table has one row
    per group. *)
Lemma calc_confusions_rows (merged : merged_df) (k : Z) :
  calc_confusions merged k
  = Confusion (map (fun '(u, g) => (u, user_counts k g)) (groupby User merged)).
Proof.
  unfold calc_confusions. rewrite (groupby_decorate User (is_hit k)).
  rewrite map_map, zip_with_map_map. f_equal.
  apply map_ext. intros [u g]. unfold user_counts.
  now rewrite map_map, (map_ext _ (is_hit k)) by reflexivity.
Qed.

Lemma calc_confusions_elem (merged : merged_df) (k u : Z) (c : counts) :
  (u, c) ∈ confusion_rows (calc_confusions merged k) <->
  filter (fun r => User r = u) merged <> []
  /\ c = user_counts k (filter (fun r => User r = u) merged).
Proof.
  rewrite calc_confusions_rows. simpl. rewrite list_elem_of_In, in_map_iff. split.
  - intros ([u' g] & Heq & Hin). injection Heq as -> <-.
    apply list_elem_of_In, groupby_elem in Hin as [-> Hne]. auto.
  - intros [Hne ->]. exists (u, filter (fun r => User r = u) merged).
    split; [reflexivity|]. apply list_elem_of_In, groupby_elem. auto.
Qed.


Lemma agg_sum_count {A : Type} (P : A -> bool) (g : list A) :
  agg_sum (map P g) = count_rows_where P g.
Proof.
  unfold agg_sum, count_rows_where. f_equal.
  induction g as [|r g IH]; simpl; [reflexivity|].
  rewrite filter_cons. destruct (P r).
  - rewrite decide_True by reflexivity. simpl. now rewrite IH.
  - rewrite decide_False by discriminate. exact IH.
Qed.


Lemma count_rows_where_split {A : Type} (P Q : A -> bool) (rows : list A) :
  count_rows_where P rows
  = count_rows_where (fun r => P r && Q r) rows
    + count_rows_where (fun r => P r && negb (Q r)) rows.
Proof.
  unfold count_rows_where.
  induction rows as [|r rows IH]; simpl; [reflexivity|].
  destruct (P r), (Q r); simpl; lia.
Qed.

Lemma count_rows_where_bounds {A : Type} (P : A -> bool) (rows : list A) :
  0 <= count_rows_where P rows <= Z.of_nat (length rows).
Proof.
  unfold count_rows_where. pose proof (List.filter_length_le P rows). lia.
Qed.

(** *** [Rank <= @k] on the two dtypes *)








(** ** The invariants of a confusion row *)

Lemma wrap_add_wrap_r (a b : Z) : Int64.wrap (a + Int64.wrap b) = Int64.wrap (a + b).
Proof.
  unfold Int64.wrap. f_equal.
  replace (a + ((b + 2 ^ 63) mod 2 ^ 64 - 2 ^ 63) + 2 ^ 63)
    with (a + (b + 2 ^ 63) mod 2 ^ 64) by lia.
  rewrite Zplus_mod_idemp_r. f_equal. lia.
Qed.

(** Distinct integers between 1 and [k] are at most [k] in number. *)
Lemma NoDup_bounded_length (l : list Z) (k : Z) :
  0 <= k ->
  NoDup l ->
  (forall x, x ∈ l -> 1 <= x <= k) ->
  Z.of_nat (length l) <= k.
Proof.
  intros Hk Hnd Hl.
  assert (Hlen : (length l <= length (map Z.of_nat (seq 1 (Z.to_nat k))))%nat).
  { apply NoDup_incl_length; [now apply NoDup_ListNoDup|].
    intros x Hx. apply list_elem_of_In, Hl in Hx.
    apply in_map_iff. exists (Z.to_nat x). split; [lia|].
    apply in_seq. lia. }
  rewrite length_map, length_seq in Hlen. lia.
Qed.

Lemma hits_length (k : Z) (g : list merged_row) :
  length (List.filter (is_hit k) g)
  = length (List.filter (fun x => x <=? k) (omap Rank g)).
Proof.
  induction g as [|r g IH]; simpl; [reflexivity|].
  unfold is_hit at 1. destruct (Rank r) as [rank|] eqn:Hr; simpl.
  - destruct (rank <=? k); simpl; now rewrite IH.
  - exact IH.
Qed.

(** With distinct positive ranks, at most [k] rows of a user are hits. *)
Lemma hits_bounded (k : Z) (g : list merged_row) :
  0 <= k ->
  NoDup (omap Rank g) ->
  Forall (Z.lt 0) (omap Rank g) ->
  count_rows_where (is_hit k) g <= k.
Proof.
  intros Hk Hnd Hpos. unfold count_rows_where. rewrite hits_length.
  apply NoDup_bounded_length; [assumption | |].
  - apply NoDup_ListNoDup, List.NoDup_filter. now apply NoDup_ListNoDup.
  - intros x Hx. apply list_elem_of_In, filter_In in Hx as [Hin Hle].
    rewrite Forall_forall in Hpos. apply list_elem_of_In, Hpos in Hin.
    apply Z.leb_le in Hle. lia.
Qed.

(** Against C3 as the specification states it.  With ranks counted from 0
    both rows of the user are within [k = 1], TP is 2 and FP is -1; the
    same happens when two rows carry the same rank, and when [k] is
    negative. *)
Lemma calc_confusions_negative_FP :
  let from_zero :=
    [ {| User := 1; Item := 10; Rank := Some 0; Interacted := true |};
      {| User := 1; Item := 11; Rank := Some 1; Interacted := true |} ] in
  let repeated :=
    [ {| User := 1; Item := 10; Rank := Some 1; Interacted := true |};
      {| User := 1; Item := 11; Rank := Some 1; Interacted := true |} ] in
  let single :=
    [ {| User := 1; Item := 10; Rank := Some 1; Interacted := true |} ] in
  dict_get 1 (confusion_rows (calc_confusions from_zero 1))
  = Some {| LIKED := 2; TP := 2; FP := -1; FN := 0 |}
  /\ dict_get 1 (confusion_rows (calc_confusions repeated 1))
     = Some {| LIKED := 2; TP := 2; FP := -1; FN := 0 |}
  /\ dict_get 1 (confusion_rows (calc_confusions single (-1)))
     = Some {| LIKED := 1; TP := 0; FP := -1; FN := 1 |}
  /\ -1 < 0.
Proof. repeat split. Qed.

(** C3. For every merged table (of fewer than 2^63 rows) and every [int64]
    [k], every row of the table of [calc_confusions] satisfies
    [TP + FN = LIKED] with [LIKED], [TP] and [FN] not negative, and
    [TP + FP = k] in [int64] arithmetic, exactly so when [k - TP] is in
    range (as for every [k >= 0]); [FP] is not negative when [k >= 0] and
    the defined ranks of the user are distinct and positive. *)
Theorem calc_confusions_invariants (merged : merged_df) (k u : Z) (c : counts) :
  Z.of_nat (length merged) <= Int64.max_value ->
  Int64.in_range k ->
  (u, c) ∈ confusion_rows (calc_confusions merged k) ->
  TP c + FN c = LIKED c
  /\ 0 < LIKED c /\ 0 <= TP c /\ 0 <= FN c
  /\ Int64.add (TP c) (FP c) = k
  /\ (Int64.min_value <= k - TP c -> TP c + FP c = k)
  /\ (0 <= k ->
      NoDup (user_ranks merged u) ->
      Forall (Z.lt 0) (user_ranks merged u) ->
      TP c + FP c = k /\ 0 <= FP c).
Proof.
  intros Hlen Hk Hin.
  apply calc_confusions_elem in Hin as [Hne ->].
  set (g := filter (fun r => User r = u) merged) in *.
  assert (Hg : (0 < length g <= length merged)%nat).
  { split; [destruct g; [contradiction | simpl; lia]|].
    apply length_filter. }
  unfold user_counts. cbv zeta. simpl.
  rewrite agg_sum_count.
  pose proof (count_rows_where_bounds (is_hit k) g) as Htp.
  set (tp := count_rows_where (is_hit k) g) in *.
  unfold agg_size.
  unfold Int64.in_range, Int64.min_value, Int64.max_value in *.
  assert (Hfn : Int64.sub (Z.of_nat (length g)) tp = Z.of_nat (length g) - tp).
  { apply wrap_in_range. int64_lia. }
  rewrite Hfn.
  assert (Hfp : -2 ^ 63 <= k - tp -> Int64.sub k tp = k - tp).
  { intros H. apply wrap_in_range. int64_lia. }
  repeat split; try lia.
  - unfold Int64.add, Int64.sub. rewrite wrap_add_wrap_r.
    replace (tp + (k - tp)) with k by lia.
    apply wrap_in_range. int64_lia.
  - rewrite Hfp by lia.
    assert (tp <= k) by (apply hits_bounded; assumption). lia.
Qed.

Lemma calc_confusions_invariants_witness :
  let merged :=
    [ {| User := 1; Item := 10; Rank := Some 1; Interacted := true |};
      {| User := 1; Item := 11; Rank := None; Interacted := true |};
      {| User := 1; Item := 12; Rank := Some 2; Interacted := true |} ] in
  let c := {| LIKED := 3; TP := 2; FP := 0; FN := 1 |} in
  TP c + FN c = LIKED c
  /\ 0 < LIKED c /\ 0 <= TP c /\ 0 <= FN c
  /\ Int64.add (TP c) (FP c) = 2
  /\ (Int64.min_value <= 2 - TP c -> TP c + FP c = 2)
  /\ (0 <= 2 ->
      NoDup (user_ranks merged 1) ->
      Forall (Z.lt 0) (user_ranks merged 1) ->
      TP c + FP c = 2 /\ 0 <= FP c).
Proof.
  intros merged c.
  apply (calc_confusions_invariants merged 2 1 c).
  - vm_compute. discriminate.
  - split; vm_compute; discriminate.
  - apply list_elem_of_In. vm_compute. left. reflexivity.
Defined.

(** ** Accuracy *)

(** Against C8 as the specification states it.  A user who liked both
    items of a catalog of two and has no recommendation at [k = 2] has the
    valid row [LIKED = 2, TP = 0, FP = 2, FN = 2]; TN is [2 - 2 - 2 = -2] and
    Accuracy is [-1.0].  And with an empty catalog and [k = 0], where every
    count, TN included, is zero, Accuracy is [0/0], which is NaN. *)
Lemma Accuracy_outside_unit_interval :
  let c := {| LIKED := 2; TP := 0; FP := 2; FN := 2 |} in
  let catalog := [1; 2] in
  let c0 := {| LIKED := 0; TP := 0; FP := 0; FN := 0 |} in
  (TP c + FP c = 2 /\ TP c + FN c = LIKED c /\ 2 <= Z.of_nat (length catalog))
  /\ ClassificationMetric.calc_per_user_from_confusion_df
       (Accuracy 2) (Confusion [(7, c)]) catalog
     = (ConfusionTN [(7, (c, -2))], Return [(7, Float64.of_int (-1))])
  /\ Float64.leb Float64.zero (Float64.of_int (-1)) = false
  /\ ClassificationMetric.calc_per_user_from_confusion_df
       (Accuracy 0) (Confusion [(7, c0)]) []
     = (ConfusionTN [(7, (c0, 0))], Return [(7, Float64.nan)])
  /\ Float64.leb Float64.zero Float64.nan = false.
Proof. repeat split; try reflexivity; vm_compute; discriminate. Qed.

(** C8. For a confusion row with [0 <= TP <= k] and [FN >= 0], and a
    catalog that is not empty and holds at least [k + FN] items (so that
    [TN = len(catalog) - k - FN] is not negative), the value of Accuracy lies
    between [0.0] and [1.0]. *)
Theorem Accuracy_in_unit_interval
    (k : Z) (catalog : list Z) (rows : list (Z * counts))
    (i : nat) (u : Z) (c : counts) :
  rows !! i = Some (u, c) ->
  0 <= TP c -> TP c <= k -> 0 <= FN c ->
  0 < Z.of_nat (length catalog) <= Int64.max_value ->
  k + FN c <= Z.of_nat (length catalog) ->
  exists s acc,
    snd (ClassificationMetric.calc_per_user_from_confusion_df
           (Accuracy k) (Confusion rows) catalog) = Return s
    /\ s !! i = Some (u, acc)
    /\ Float64.leb Float64.zero acc = true
    /\ Float64.leb acc Float64.one = true.
Proof.
  intros Hrow Htp Htpk Hfn Hn Htn.
  set (n := Z.of_nat (length catalog)) in *.
  unfold Int64.max_value in Hn.
  eexists. exists (Accuracy.per_user n c (Int64.sub (n - k) (FN c))).
  split; [reflexivity|]. split.
  - cbn [confusion_rows]. rewrite lookup_map, lookup_map, Hrow. reflexivity.
  - unfold Accuracy.per_user, Int64.add, Int64.sub.
    rewrite (wrap_in_range (n - k - FN c)) by int64_lia.
    rewrite wrap_in_range by int64_lia.
    apply Float64Rounding.div_of_int_unit_interval; lia.
Qed.

Lemma Accuracy_in_unit_interval_witness :
  let c := {| LIKED := 2; TP := 1; FP := 1; FN := 1 |} in
  exists s acc,
    snd (ClassificationMetric.calc_per_user_from_confusion_df
           (Accuracy 2) (Confusion [(7, c)]) [1; 2; 3; 4; 5]) = Return s
    /\ s !! 0%nat = Some (7, acc)
    /\ Float64.leb Float64.zero acc = true
    /\ Float64.leb acc Float64.one = true.
Proof.
  intros c.
  apply (Accuracy_in_unit_interval 2 [1; 2; 3; 4; 5] [(7, c)] 0 7 c).
  - reflexivity.
  - simpl. lia.
  - simpl. lia.
  - simpl. lia.
  - split; [reflexivity | vm_compute; discriminate].
  - simpl. lia.
Defined.

(** ** The scenario of the specification *)

(** User 1 is recommended items 10 and 11 and interacted with items 10 and
    12; the catalog has five items and [k = 2]. *)
Example scenario_confusions :
  let merged :=
    [ {| User := 1; Item := 10; Rank := Some 1; Interacted := true |};
      {| User := 1; Item := 12; Rank := None; Interacted := true |} ] in
  let half := Float64.div Float64.one (Float64.of_int 2) in
  let c := {| LIKED := 2; TP := 1; FP := 1; FN := 1 |} in
  calc_confusions merged 2 = Confusion [(1, c)]
  /\ ClassificationMetric.ensure_TN (Accuracy 2) (Confusion [(1, c)]) [10; 11; 12; 13; 14]
     = ConfusionTN [(1, (c, 2))]
  /\ Precision.per_user 2 c = half
  /\ Recall.per_user c = half
  /\ F1Beta._calc_per_user_from_confusion_df
       PyFloat.rounded_square 2 Float64.one (Confusion [(1, c)])
     = Return [(1, half)].
Proof. repeat split. Qed.

(** * Further properties of the code *)

(** ** The table of [calc_confusions] *)

Lemma calc_confusions_index_groups (merged : merged_df) (k : Z) :
  map fst (confusion_rows (calc_confusions merged k)) = map fst (groupby User merged).
Proof.
  rewrite calc_confusions_rows. simpl. rewrite map_map.
  apply map_ext. intros [u g]. reflexivity.
Qed.

Lemma groupby_keys {A : Type} (key : A -> Z) (rows : list A) (u : Z) :
  u ∈ map fst (groupby key rows) <-> u ∈ map key rows.
Proof.
  induction rows as [|r rows IH] using rev_ind.
  - reflexivity.
  - rewrite groupby_snoc, insert_group_keys, IH, map_app.
    rewrite elem_of_app. simpl. rewrite list_elem_of_singleton. tauto.
Qed.

Lemma calc_confusions_index_sorted (merged : merged_df) (k : Z) :
  StronglySorted Z.lt (map fst (confusion_rows (calc_confusions merged k))).
Proof. rewrite calc_confusions_index_groups. apply groupby_sorted. Qed.

(** X1. The table of [calc_confusions] has one row per user of the merged
    table, and no other row, in increasing order of the user ids. *)
Theorem calc_confusions_index (merged : merged_df) (k : Z) :
  StronglySorted Z.lt (map fst (confusion_rows (calc_confusions merged k)))
  /\ NoDup (map fst (confusion_rows (calc_confusions merged k)))
  /\ (forall u, u ∈ map fst (confusion_rows (calc_confusions merged k))
                <-> u ∈ map User merged).
Proof.
  split; [apply calc_confusions_index_sorted|].
  rewrite calc_confusions_index_groups.
  split; [apply groupby_NoDup|]. intros u. apply groupby_keys.
Qed.





(** ** Row order *)

Lemma dict_get_lt_None {V : Type} (u : Z) (l : list (Z * V)) :
  Forall (Z.lt u) (map fst l) -> dict_get u l = None.
Proof.
  induction l as [|[v x] l IH]; simpl; [reflexivity|].
  intros Hall. apply Forall_cons in Hall as [Hv Hall].
  destruct (decide (u = v)); [lia | auto].
Qed.

(** Two tables sorted by key with the same lookups are equal. *)
Lemma sorted_dict_ext {V : Type} (l1 l2 : list (Z * V)) :
  StronglySorted Z.lt (map fst l1) ->
  StronglySorted Z.lt (map fst l2) ->
  (forall u, dict_get u l1 = dict_get u l2) ->
  l1 = l2.
Proof.
  revert l2. induction l1 as [|[u1 v1] l1 IH]; intros [|[u2 v2] l2] Hs1 Hs2 Hget.
  - reflexivity.
  - specialize (Hget u2). simpl in Hget. rewrite decide_True in Hget by reflexivity.
    discriminate.
  - specialize (Hget u1). simpl in Hget. rewrite decide_True in Hget by reflexivity.
    discriminate.
  - simpl in Hs1, Hs2.
    apply StronglySorted_inv in Hs1 as [Hs1 Hall1].
    apply StronglySorted_inv in Hs2 as [Hs2 Hall2].
    assert (Hu : u1 = u2).
    { pose proof (Hget u1) as H1. pose proof (Hget u2) as H2. simpl in H1, H2.
      rewrite decide_True in H1 by reflexivity.
      rewrite (decide_True (P := u2 = u2)) in H2 by reflexivity.
      destruct (decide (u1 = u2)) as [|Hne]; [assumption|].
      rewrite decide_False in H2 by congruence.
      destruct (Z_lt_le_dec u1 u2).
      - rewrite dict_get_lt_None in H1; [discriminate|].
        eapply Forall_impl; [exact Hall2|]. simpl. intros; lia.
      - rewrite dict_get_lt_None in H2; [discriminate|].
        eapply Forall_impl; [exact Hall1|]. simpl. intros; lia. }
    subst u2.
    assert (Hv : v1 = v2).
    { specialize (Hget u1). simpl in Hget.
      rewrite !decide_True in Hget by reflexivity. congruence. }
    subst v2. f_equal. apply IH; try assumption.
    intros u. specialize (Hget u). simpl in Hget.
    destruct (decide (u = u1)) as [->|Hne]; [|assumption].
    rewrite !dict_get_lt_None by assumption. reflexivity.
Qed.

Lemma dict_get_map_values {V W : Type} (f : V -> W) (u : Z) (l : list (Z * V)) :
  dict_get u (map (fun '(v, x) => (v, f x)) l) = f <$> dict_get u l.
Proof.
  induction l as [|[v x] l IH]; simpl; [reflexivity|].
  destruct (decide (u = v)); [reflexivity | exact IH].
Qed.

Lemma count_rows_where_Permutation {A : Type} (P : A -> bool) (l l' : list A) :
  l ≡ₚ l' -> count_rows_where P l = count_rows_where P l'.
Proof.
  unfold count_rows_where. intros Hp. f_equal.
  induction Hp as [|x l l' Hp IH|x y l|l l' l'' _ IH1 _ IH2]; simpl.
  - reflexivity.
  - destruct (P x); simpl; now rewrite IH.
  - destruct (P x), (P y); reflexivity.
  - now rewrite IH1.
Qed.

Lemma user_counts_Permutation (k : Z) (g g' : list merged_row) :
  g ≡ₚ g' -> user_counts k g = user_counts k g'.
Proof.
  intros Hp. unfold user_counts, agg_size.
  rewrite !agg_sum_count, (count_rows_where_Permutation _ _ _ Hp).
  now rewrite (Permutation_length Hp).
Qed.

Lemma calc_confusions_lookup (merged : merged_df) (k u : Z) :
  dict_get u (confusion_rows (calc_confusions merged k))
  = user_counts k <$> match filter (fun r => User r = u) merged with
                      | [] => None
                      | g => Some g
                      end.
Proof.
  rewrite calc_confusions_rows. simpl.
  rewrite (dict_get_map_values (user_counts k)), groupby_get. reflexivity.
Qed.

(** X3. The order of the rows of the merged table does not matter: two
    merged tables that hold the same rows give the same confusion table. *)
Theorem calc_confusions_Permutation (merged merged' : merged_df) (k : Z) :
  merged ≡ₚ merged' ->
  calc_confusions merged k = calc_confusions merged' k.
Proof.
  intros Hp.
  assert (Hrows : confusion_rows (calc_confusions merged k)
                  = confusion_rows (calc_confusions merged' k)).
  { apply sorted_dict_ext; try apply calc_confusions_index_sorted.
    intros u. rewrite !calc_confusions_lookup.
    assert (Hf : filter (fun r => User r = u) merged
                 ≡ₚ filter (fun r => User r = u) merged') by now rewrite Hp.
    destruct (filter (fun r => User r = u) merged) as [|r g] eqn:Hg.
    - apply Permutation_nil in Hf. rewrite Hf. reflexivity.
    - destruct (filter (fun r => User r = u) merged') as [|r' g'] eqn:Hg'.
      + symmetry in Hf. apply Permutation_nil in Hf. discriminate.
      + simpl. f_equal. now apply user_counts_Permutation. }
  rewrite !calc_confusions_rows in *. simpl in Hrows. now rewrite Hrows.
Qed.

Lemma calc_confusions_Permutation_witness :
  let r1 := {| User := 1; Item := 10; Rank := Some 1; Interacted := true |} in
  let r2 := {| User := 2; Item := 11; Rank := None; Interacted := true |} in
  calc_confusions [r1; r2] 2 = calc_confusions [r2; r1] 2.
Proof.
  intros r1 r2. apply (calc_confusions_Permutation [r1; r2] [r2; r1] 2).
  apply perm_swap.
Defined.

(** ** The cutoff [k] *)

Lemma count_rows_where_mono {A : Type} (P Q : A -> bool) (l : list A) :
  (forall r, P r = true -> Q r = true) ->
  count_rows_where P l <= count_rows_where Q l.
Proof.
  intros Himp. unfold count_rows_where.
  induction l as [|r l IH]; simpl; [lia|].
  destruct (P r) eqn:Hp.
  - rewrite (Himp r Hp). simpl. lia.
  - destruct (Q r); simpl; lia.
Qed.

Lemma is_hit_mono (k k' : Z) (r : merged_row) :
  k <= k' -> is_hit k r = true -> is_hit k' r = true.
Proof.
  unfold is_hit. destruct (Rank r) as [rank|]; [|discriminate].
  rewrite !Z.leb_le. lia.
Qed.

(** X4. Raising the cutoff never loses a hit: for [k <= k'] the tables of
    [calc_confusions] have the same users, and for each user the same LIKED,
    a TP that does not decrease and (on tables of fewer than 2^63 rows) an
    FN that does not increase. *)
Theorem calc_confusions_monotone (merged : merged_df) (k k' u : Z) (c : counts) :
  k <= k' ->
  (u, c) ∈ confusion_rows (calc_confusions merged k) ->
  exists c',
    (u, c') ∈ confusion_rows (calc_confusions merged k')
    /\ LIKED c' = LIKED c
    /\ TP c <= TP c'
    /\ (Z.of_nat (length merged) <= Int64.max_value -> FN c' <= FN c).
Proof.
  intros Hk Hin. apply calc_confusions_elem in Hin as [Hne ->].
  set (g := filter (fun r => User r = u) merged) in *.
  exists (user_counts k' g).
  split; [apply calc_confusions_elem; auto|].
  unfold user_counts. simpl. rewrite !agg_sum_count.
  assert (Hmono : count_rows_where (is_hit k) g <= count_rows_where (is_hit k') g)
    by (apply count_rows_where_mono; intros r; now apply is_hit_mono).
  split; [reflexivity|]. split; [exact Hmono|].
  intros Hlen.
  pose proof (count_rows_where_bounds (is_hit k) g) as Hb.
  pose proof (count_rows_where_bounds (is_hit k') g) as Hb'.
  assert (Hg : (length g <= length merged)%nat) by apply length_filter.
  unfold agg_size, Int64.sub.
  rewrite !wrap_in_range by int64_lia. lia.
Qed.

Lemma calc_confusions_monotone_witness :
  let merged :=
    [ {| User := 1; Item := 10; Rank := Some 1; Interacted := true |};
      {| User := 1; Item := 11; Rank := Some 3; Interacted := true |} ] in
  let c := {| LIKED := 2; TP := 1; FP := 0; FN := 1 |} in
  exists c',
    (1, c') ∈ confusion_rows (calc_confusions merged 3)
    /\ LIKED c' = LIKED c
    /\ TP c <= TP c'
    /\ (Z.of_nat (length merged) <= Int64.max_value -> FN c' <= FN c).
Proof.
  intros merged c. apply (calc_confusions_monotone merged 1 3 1 c).
  - lia.
  - apply list_elem_of_In. vm_compute. left. reflexivity.
Defined.

Lemma count_hits_ranks (k : Z) (g : list merged_row) :
  count_rows_where (is_hit k) g
  = Z.of_nat (length (List.filter (fun rank => rank <=? k) (omap Rank g))).
Proof. unfold count_rows_where. now rewrite hits_length. Qed.


Lemma filter_all {A : Type} (P : A -> bool) (l : list A) :
  (forall x, x ∈ l -> P x = true) -> List.filter P l = l.
Proof.
  induction l as [|x l IH]; simpl; intros H; [reflexivity|].
  rewrite (H x) by constructor. f_equal. apply IH. intros y Hy. apply H. now constructor.
Qed.



Lemma omap_length_le {A B : Type} (f : A -> option B) (l : list A) :
  (length (omap f l) <= length l)%nat.
Proof.
  induction l as [|x l IH]; [simpl; lia|].
  change (omap f (x :: l)) with (match f x with Some y => y :: omap f l | None => omap f l end).
  destruct (f x); simpl length; lia.
Qed.

(** X6. Once [k] reaches the largest rank of a user, TP is the number of
    the user's rows that have a rank at all, and FN the number of the rows
    without one. *)
Theorem calc_confusions_saturated (merged : merged_df) (k u : Z) (c : counts) :
  Z.of_nat (length merged) <= Int64.max_value ->
  (u, c) ∈ confusion_rows (calc_confusions merged k) ->
  (forall rank, rank ∈ user_ranks merged u -> rank <= k) ->
  TP c = Z.of_nat (length (user_ranks merged u))
  /\ FN c = LIKED c - Z.of_nat (length (user_ranks merged u)).
Proof.
  intros Hlen Hin Hranks. apply calc_confusions_elem in Hin as [Hne ->].
  unfold user_ranks in *.
  set (g := filter (fun r => User r = u) merged) in *.
  assert (Hg : (length g <= length merged)%nat) by apply length_filter.
  assert (Ho : (length (omap Rank g) <= length g)%nat) by apply omap_length_le.
  unfold user_counts. simpl. rewrite agg_sum_count, count_hits_ranks.
  rewrite filter_all by (intros rank Hr; apply Z.leb_le; auto).
  split; [reflexivity|].
  unfold agg_size, Int64.sub. apply wrap_in_range. int64_lia.
Qed.

Lemma calc_confusions_saturated_witness :
  let merged :=
    [ {| User := 1; Item := 10; Rank := Some 2; Interacted := true |};
      {| User := 1; Item := 11; Rank := None; Interacted := true |} ] in
  let c := {| LIKED := 2; TP := 1; FP := 1; FN := 1 |} in
  TP c = Z.of_nat (length (user_ranks merged 1))
  /\ FN c = LIKED c - Z.of_nat (length (user_ranks merged 1)).
Proof.
  intros merged c. apply (calc_confusions_saturated merged 2 1 c).
  - vm_compute. discriminate.
  - apply list_elem_of_In. vm_compute. left. reflexivity.
  - intros rank Hr. vm_compute in Hr.
    inversion Hr as [|? ? ? Hr']; subst; [lia | inversion Hr'].
Defined.

(** ** More on binary64 quotients and square roots *)

Module Float64Division.
Import Float64Rounding.

Lemma wrap_range (z : Z) : Int64.in_range (Int64.wrap z).
Proof.
  unfold Int64.wrap, Int64.in_range, Int64.min_value, Int64.max_value.
  pose proof (Z.mod_pos_bound (z + 2 ^ 63) (2 ^ 64) ltac:(lia)). lia.
Qed.

(** A non-zero integer of [int64] converts to a normal float of its sign. *)
Lemma of_int_normal (z : Z) :
  z <> 0 -> Int64.in_range z ->
  normal (Float64.of_int z) /\ sign_of (Float64.of_int z) = (z <? 0).
Proof.
  intros Hz Hr. apply in_range_64 in Hr.
  destruct (Z_lt_le_dec 0 z) as [Hpos|Hneg].
  - rewrite of_int_pos by lia.
    pose proof (int_round_bounds z Hpos). pose proof (int_round_exponent z ltac:(lia)).
    simpl. rewrite Z2Pos.id by lia.
    repeat split; lia.
  - replace z with (- - z) by lia. rewrite of_int_neg by lia.
    pose proof (int_round_bounds (- z) ltac:(lia)).
    pose proof (int_round_exponent (- z) ltac:(lia)).
    simpl. rewrite Z2Pos.id by lia.
    repeat split; lia.
Qed.

(** The quotient of two normal floats is a finite, non-zero float. *)
Lemma SFdiv_normal (sx sy : bool) (mx my : positive) (ex ey : Z) :
  2 ^ 52 <= Zpos mx < 2 ^ 53 ->
  2 ^ 52 <= Zpos my < 2 ^ 53 ->
  -100 <= ex <= 100 -> -100 <= ey <= 100 ->
  exists m e,
    SFdiv 53 1024 (S754_finite sx mx ex) (S754_finite sy my ey)
    = S754_finite (xorb sx sy) m e.
Proof.
  intros Hmx Hmy Hex Hey.
  unfold SFdiv. rewrite SFdiv_core_normal by (assumption || lia).
  set (q := Zpos mx * 2 ^ 53 / Zpos my).
  set (r := (Zpos mx * 2 ^ 53) mod Zpos my).
  assert (Hqr : Zpos mx * 2 ^ 53 = Zpos my * q + r) by (apply Z.div_mod; lia).
  assert (Hr : 0 <= r < Zpos my) by (apply Z.mod_pos_bound; lia).
  assert (Hq : 2 ^ 52 <= q < 2 ^ 54) by (change (2 ^ 54) with (2 * 2 ^ 53); nia).
  destruct q as [|pq|pq] eqn:Hpq; [lia| |lia].
  set (s := if Zpos pq <? 2 ^ 53 then 0 else 1).
  assert (Hs : 0 <= s <= 1) by (subst s; destruct (Zpos pq <? 2 ^ 53); lia).
  assert (Hd : Zpos (digits2_pos pq) = 53 + s).
  { apply digits2_pos_unique. subst s.
    destruct (Zpos pq <? 2 ^ 53) eqn:Hlt;
      [apply Z.ltb_lt in Hlt | apply Z.ltb_ge in Hlt]; simpl; lia. }
  destruct (binary_round_aux_shift (xorb sx sy) pq (ex - ey - 53)
              (new_location (Zpos my) r) s) as (m1 & Hm1 & _ & ->);
    [lia | assumption | lia |].
  unfold round_result.
  destruct (m1 <? 2 ^ 53).
  - replace (ex - ey - 53 + s <=? 971) with true by (symmetry; apply Z.leb_le; lia).
    eauto.
  - replace (ex - ey - 53 + s + 1 <=? 971) with true by (symmetry; apply Z.leb_le; lia).
    eauto.
Qed.

(** A float divided by itself is exactly one. *)
Lemma SFdiv_self (sx : bool) (mx : positive) (ex : Z) :
  2 ^ 52 <= Zpos mx < 2 ^ 53 ->
  -100 <= ex <= 100 ->
  SFdiv 53 1024 (S754_finite sx mx ex) (S754_finite sx mx ex) = Float64.one.
Proof.
  intros Hmx Hex.
  unfold SFdiv. rewrite SFdiv_core_normal by (assumption || lia).
  rewrite Z.mul_comm, Z.div_mul, Z.mod_mul by lia.
  rewrite new_location_0, xorb_nilpotent.
  destruct (binary_round_aux_shift false (Z.to_pos (2 ^ 53)) (ex - ex - 53) loc_Exact 1)
    as (m1 & _ & Hm1 & Hres); [lia | reflexivity | lia |].
  change (Zpos (Z.to_pos (2 ^ 53))) with (2 ^ 53) in Hres.
  rewrite Hres, (Hm1 eq_refl).
  replace (ex - ex - 53 + 1) with (-52) by lia. reflexivity.
Qed.

(** The quotient of two non-zero [int64] values. *)
Lemma div_of_int_finite (a b : Z) :
  a <> 0 -> Int64.in_range a -> b <> 0 -> Int64.in_range b ->
  exists m e,
    Float64.div (Float64.of_int a) (Float64.of_int b)
    = S754_finite (xorb (a <? 0) (b <? 0)) m e.
Proof.
  intros Ha Hra Hb Hrb.
  destruct (of_int_normal a Ha Hra) as [Hna Hsa].
  destruct (of_int_normal b Hb Hrb) as [Hnb Hsb].
  destruct (Float64.of_int a) as [| | |sa ma ea]; try contradiction.
  destruct (Float64.of_int b) as [| | |sb mb eb]; try contradiction.
  simpl in Hsa, Hsb. subst sa sb. destruct Hna, Hnb.
  now apply SFdiv_normal.
Qed.

Lemma div_of_int_self (n : Z) :
  n <> 0 -> Int64.in_range n ->
  Float64.div (Float64.of_int n) (Float64.of_int n) = Float64.one.
Proof.
  intros Hn Hr. destruct (of_int_normal n Hn Hr) as [Hnn _].
  destruct (Float64.of_int n) as [| | |s m e]; try contradiction.
  destruct Hnn. now apply SFdiv_self.
Qed.

(** A quotient of [int64] values with a non-zero divisor is a number, and
    it is a zero exactly when the dividend is zero. *)
Lemma div_of_int_classify (a b : Z) :
  Int64.in_range a -> b <> 0 -> Int64.in_range b ->
  Float64.is_finite (Float64.div (Float64.of_int a) (Float64.of_int b)) = true
  /\ Float64.eqb (Float64.div (Float64.of_int a) (Float64.of_int b)) Float64.zero
     = (a =? 0).
Proof.
  intros Hra Hb Hrb. destruct (Z.eq_dec a 0) as [->|Ha].
  - destruct (of_int_normal b Hb Hrb) as [Hnb _].
    destruct (Float64.of_int b) as [| | |sb mb eb]; try contradiction.
    split; reflexivity.
  - destruct (div_of_int_finite a b Ha Hra Hb Hrb) as (m & e & ->).
    split; [reflexivity|].
    replace (a =? 0) with false by (symmetry; now apply Z.eqb_neq).
    destruct (xorb (a <? 0) (b <? 0)); reflexivity.
Qed.

(** The square root of a positive normal float is a positive normal float. *)
Lemma SFsqrt_normal (mx : positive) (ex : Z) :
  2 ^ 52 <= Zpos mx < 2 ^ 53 ->
  -100 <= ex <= 100 ->
  exists m e,
    SFsqrt 53 1024 (S754_finite false mx ex) = S754_finite false m e
    /\ 2 ^ 52 <= Zpos m < 2 ^ 53 /\ -100 <= e <= 100.
Proof.
  intros Hmx Hex. unfold SFsqrt, SFsqrt_core_binary. simpl Zdigits2.
  rewrite (digits2_pos_unique mx 53) by (simpl; lia).
  assert (Hdiv2 : Z.div2 (53 + ex + 1) = Z.div2 ex + 27).
  { rewrite !Z.div2_div. replace (53 + ex + 1) with (ex + 27 * 2) by lia.
    now rewrite Z.div_add by lia. }
  assert (Hhalf : ex = 2 * Z.div2 ex \/ ex = 2 * Z.div2 ex + 1).
  { rewrite Z.div2_div. pose proof (Z.div_mod ex 2 ltac:(lia)) as Hdm.
    pose proof (Z.mod_pos_bound ex 2 ltac:(lia)). lia. }
  rewrite Hdiv2, fexp_normal by lia.
  replace (Z.min (Z.div2 ex + 27 - 53) (Z.div2 ex)) with (Z.div2 ex - 26) by lia.
  set (e' := Z.div2 ex - 26) in *.
  assert (He' : ex - 2 * e' = 52 \/ ex - 2 * e' = 53) by lia.
  assert (Hm' : exists s, ex - 2 * e' = Zpos s /\ 52 <= Zpos s <= 53).
  { destruct (ex - 2 * e') as [|s|s]; try lia. exists s. lia. }
  destruct Hm' as (s & Hs & Hsr). rewrite Hs.
  rewrite Z.shiftl_mul_pow2 by lia.
  set (m' := Zpos mx * 2 ^ Zpos s).
  assert (Hm'b : 2 ^ 104 <= m' < 2 ^ 106).
  { subst m'. destruct He' as [He'|He']; rewrite Hs in He'; rewrite He'.
    - change (2 ^ 104) with (2 ^ 52 * 2 ^ 52). change (2 ^ 106) with (2 ^ 54 * 2 ^ 52). lia.
    - change (2 ^ 104) with (2 ^ 51 * 2 ^ 53). change (2 ^ 106) with (2 ^ 53 * 2 ^ 53). lia. }
  pose proof (Z.sqrtrem_spec m' ltac:(lia)) as Hsq.
  destruct (Z.sqrtrem m') as [q r].
  destruct Hsq as [Hq Hr].
  assert (Hqb : 2 ^ 52 <= q < 2 ^ 53).
  { change (2 ^ 104) with (2 ^ 52 * 2 ^ 52) in Hm'b.
    change (2 ^ 106) with (2 ^ 53 * 2 ^ 53) in Hm'b. nia. }
  destruct q as [|pq|pq] eqn:Hpq; [lia| |lia].
  destruct (binary_round_aux_shift false pq e'
              (if r =? 0 then loc_Exact else loc_Inexact (if r <=? Zpos pq then Lt else Gt)) 0)
    as (m1 & Hm1 & _ & ->);
    [lia | apply digits2_pos_unique; simpl; lia | lia |].
  change (2 ^ 0) with 1 in Hm1. rewrite Z.div_1_r in Hm1.
  assert (Hrange : -100 <= e' + 0 <= 99) by lia.
  unfold round_result.
  destruct (m1 <? 2 ^ 53) eqn:Hlt;
    [apply Z.ltb_lt in Hlt | apply Z.ltb_ge in Hlt].
  - replace (e' + 0 <=? 971) with true by (symmetry; apply Z.leb_le; lia).
    do 2 eexists. split; [reflexivity|]. rewrite Z2Pos.id by lia. lia.
  - replace (e' + 0 + 1 <=? 971) with true by (symmetry; apply Z.leb_le; lia).
    do 2 eexists. split; [reflexivity|]. simpl. lia.
Qed.
End Float64Division.

(** ** The values of a series *)

Lemma Precision_lookup (k : Z) (confusion_df : confusion_table) (i : nat) (u : Z)
    (c : counts) :
  confusion_rows confusion_df !! i = Some (u, c) ->
  Precision._calc_per_user_from_confusion_df k confusion_df !! i
  = Some (u, Precision.per_user k c).
Proof.
  intros Hrow. unfold Precision._calc_per_user_from_confusion_df.
  rewrite lookup_map, Hrow. reflexivity.
Qed.

Lemma Recall_lookup (confusion_df : confusion_table) (i : nat) (u : Z) (c : counts) :
  confusion_rows confusion_df !! i = Some (u, c) ->
  Recall._calc_per_user_from_confusion_df confusion_df !! i
  = Some (u, Recall.per_user c).
Proof.
  intros Hrow. unfold Recall._calc_per_user_from_confusion_df.
  rewrite lookup_map, Hrow. reflexivity.
Qed.

Lemma in_unit_interval_div (a n : Z) :
  0 <= a <= n -> 0 < n <= Int64.max_value ->
  in_unit_interval (Float64.div (Float64.of_int a) (Float64.of_int n)) = true.
Proof.
  intros Ha Hn. unfold in_unit_interval.
  destruct (Float64Rounding.div_of_int_unit_interval a n) as [H0 H1];
    [lia | int64_lia |].
  now rewrite H0, H1.
Qed.

(** ** Precision and Recall *)

(** X7. On a row with [0 <= TP <= k], for a cutoff [k > 0], the value of
    Precision lies between [0.0] and [1.0]. *)
Theorem Precision_in_unit_interval
    (k : Z) (confusion_df : confusion_table) (i : nat) (u : Z) (c : counts) :
  confusion_rows confusion_df !! i = Some (u, c) ->
  0 <= TP c <= k ->
  0 < k <= Int64.max_value ->
  exists p,
    Precision._calc_per_user_from_confusion_df k confusion_df !! i = Some (u, p)
    /\ in_unit_interval p = true.
Proof.
  intros Hrow Htp Hk. exists (Precision.per_user k c).
  split; [now apply Precision_lookup|].
  now apply in_unit_interval_div.
Qed.

Lemma Precision_in_unit_interval_witness :
  let c := {| LIKED := 3; TP := 1; FP := 1; FN := 2 |} in
  exists p,
    Precision._calc_per_user_from_confusion_df 2 (Confusion [(7, c)]) !! 0%nat
    = Some (7, p)
    /\ in_unit_interval p = true.
Proof.
  intros c. apply (Precision_in_unit_interval 2 (Confusion [(7, c)]) 0 7 c).
  - reflexivity.
  - simpl. lia.
  - split; [reflexivity | vm_compute; discriminate].
Defined.

(** X8. Recall computed from the table of [calc_confusions] is a number
    between [0.0] and [1.0] for every user, whatever the merged table (of
    fewer than 2^63 rows) and whatever [k]: a user of the table has
    [LIKED > 0], so that the division by zero does not occur. *)
Theorem Recall_of_confusions_in_unit_interval (merged : merged_df) (k : Z) :
  Z.of_nat (length merged) <= Int64.max_value ->
  Forall (fun ur => in_unit_interval (snd ur) = true)
         (Recall._calc_per_user_from_confusion_df (calc_confusions merged k)).
Proof.
  intros Hlen. unfold Recall._calc_per_user_from_confusion_df.
  apply Forall_forall. intros [u r] Hin.
  apply list_elem_of_In, in_map_iff in Hin as ([u' c] & Heq & Hin).
  injection Heq as -> <-.
  apply list_elem_of_In, calc_confusions_elem in Hin as [Hne ->].
  set (g := filter (fun r => User r = u) merged) in *.
  assert (Hg : (0 < length g <= length merged)%nat).
  { split; [destruct g; [contradiction | simpl; lia] | apply length_filter]. }
  unfold Recall.per_user, user_counts. simpl. rewrite agg_sum_count.
  pose proof (count_rows_where_bounds (is_hit k) g).
  apply in_unit_interval_div; unfold agg_size; lia.
Qed.

Lemma Recall_of_confusions_in_unit_interval_witness :
  let merged :=
    [ {| User := 1; Item := 10; Rank := Some 1; Interacted := true |};
      {| User := 1; Item := 11; Rank := None; Interacted := true |} ] in
  Forall (fun ur => in_unit_interval (snd ur) = true)
         (Recall._calc_per_user_from_confusion_df (calc_confusions merged 2)).
Proof.
  intros merged. apply (Recall_of_confusions_in_unit_interval merged 2).
  vm_compute. discriminate.
Defined.

(** X9. Precision computed from the table of [calc_confusions], for a
    cutoff [k > 0], lies between [0.0] and [1.0] for every user whose
    defined ranks are distinct positive integers. *)
Theorem Precision_of_confusions_in_unit_interval (merged : merged_df) (k : Z) :
  Z.of_nat (length merged) <= Int64.max_value ->
  0 < k <= Int64.max_value ->
  (forall u, NoDup (user_ranks merged u) /\ Forall (Z.lt 0) (user_ranks merged u)) ->
  Forall (fun up => in_unit_interval (snd up) = true)
         (Precision._calc_per_user_from_confusion_df k (calc_confusions merged k)).
Proof.
  intros Hlen Hk Hranks. unfold Precision._calc_per_user_from_confusion_df.
  apply Forall_forall. intros [u p] Hin.
  apply list_elem_of_In, in_map_iff in Hin as ([u' c] & Heq & Hin).
  injection Heq as -> <-.
  apply list_elem_of_In, calc_confusions_elem in Hin as [Hne ->].
  destruct (Hranks u) as [Hnd Hpos]. unfold user_ranks in *.
  set (g := filter (fun r => User r = u) merged) in *.
  unfold Precision.per_user, user_counts. simpl. rewrite agg_sum_count.
  pose proof (count_rows_where_bounds (is_hit k) g).
  assert (count_rows_where (is_hit k) g <= k) by (apply hits_bounded; [lia|assumption..]).
  apply in_unit_interval_div; lia.
Qed.

Lemma Precision_of_confusions_in_unit_interval_witness :
  let merged :=
    [ {| User := 1; Item := 10; Rank := Some 1; Interacted := true |};
      {| User := 1; Item := 11; Rank := None; Interacted := true |} ] in
  Forall (fun up => in_unit_interval (snd up) = true)
         (Precision._calc_per_user_from_confusion_df 2 (calc_confusions merged 2)).
Proof.
  intros merged. apply (Precision_of_confusions_in_unit_interval merged 2).
  - vm_compute. discriminate.
  - split; [reflexivity | vm_compute; discriminate].
  - intros u. unfold user_ranks, merged.
    rewrite !filter_cons, filter_nil. simpl User.
    destruct (decide (1 = u)); simpl; split; repeat constructor;
      try (intros H; inversion H); lia.
Defined.

(** ** The mask of F1Beta *)

(** X10. On a row with [k], [LIKED] not zero (all values in [int64]), for
    a [beta] whose square [beta ** 2] Python computes (it raises
    [OverflowError] when the square of a finite [beta] is out of range),
    the mask [(p_k == 0.0) & (r_k == 0.0)] of F1Beta holds exactly when
    [TP = 0]: the result is [0.0] when [TP = 0] and the value of the raw
    formula, with that square, otherwise. *)
Theorem F1Beta_masked_iff_no_hit
    (libm_pow2 : float -> float) (k : Z) (beta beta_sqr : float)
    (confusion_df : confusion_table) (i : nat) (u : Z) (c : counts) :
  PyFloat.pow2 libm_pow2 beta = Return beta_sqr ->
  confusion_rows confusion_df !! i = Some (u, c) ->
  k <> 0 -> Int64.in_range k ->
  LIKED c <> 0 -> Int64.in_range (LIKED c) ->
  Int64.in_range (TP c) ->
  exists s,
    F1Beta._calc_per_user_from_confusion_df libm_pow2 k beta confusion_df = Return s
    /\ s !! i
       = Some (u, if TP c =? 0 then Float64.zero
                  else F1Beta.raw_f1 beta_sqr
                         (Precision.per_user k c) (Recall.per_user c)).
Proof.
  intros Hpow Hrow Hk Hkr Hl Hlr Htr.
  destruct (F1Beta_lookup libm_pow2 k beta beta_sqr confusion_df i u c Hpow Hrow)
    as (s & Hs & Hi).
  exists s. split; [assumption|]. rewrite Hi. do 2 f_equal.
  unfold F1Beta.per_user, Precision.per_user, Recall.per_user.
  destruct (Float64Division.div_of_int_classify (TP c) k Htr Hk Hkr) as [_ ->].
  destruct (Float64Division.div_of_int_classify (TP c) (LIKED c) Htr Hl Hlr) as [_ ->].
  destruct (TP c =? 0); reflexivity.
Qed.

Lemma F1Beta_masked_iff_no_hit_witness :
  let c := {| LIKED := 2; TP := 1; FP := 1; FN := 1 |} in
  exists s,
    F1Beta._calc_per_user_from_confusion_df
      PyFloat.rounded_square 2 (Float64.of_int 3) (Confusion [(7, c)]) = Return s
    /\ s !! 0%nat
       = Some (7, if TP c =? 0 then Float64.zero
                  else F1Beta.raw_f1 (Float64.of_int 9)
                         (Precision.per_user 2 c) (Recall.per_user c)).
Proof.
  intros c.
  apply (F1Beta_masked_iff_no_hit
           PyFloat.rounded_square 2 (Float64.of_int 3) (Float64.of_int 9)
           (Confusion [(7, c)]) 0 7 c);
    first [reflexivity | discriminate | (split; vm_compute; discriminate)].
Defined.

(** ** Perfect recommendations *)

(** X11. When all [k] recommended items are hits, Precision is exactly
    [1.0]; when all liked items are hits, Recall is exactly [1.0]; when
    both hold, F1Beta with [beta = 1.0] is exactly [1.0]. *)
Theorem perfect_precision_recall_f1
    (libm_pow2 : float -> float) (k : Z) (confusion_df : confusion_table)
    (i : nat) (u : Z) (c : counts) :
  confusion_rows confusion_df !! i = Some (u, c) ->
  TP c <> 0 -> Int64.in_range (TP c) ->
  (TP c = k ->
   Precision._calc_per_user_from_confusion_df k confusion_df !! i
   = Some (u, Float64.one))
  /\ (TP c = LIKED c ->
      Recall._calc_per_user_from_confusion_df confusion_df !! i
      = Some (u, Float64.one))
  /\ (TP c = k -> TP c = LIKED c ->
      exists s,
        F1Beta._calc_per_user_from_confusion_df libm_pow2 k Float64.one confusion_df
        = Return s
        /\ s !! i = Some (u, Float64.one)).
Proof.
  intros Hrow Htp Htr.
  assert (Hone : Float64.div (Float64.of_int (TP c)) (Float64.of_int (TP c)) = Float64.one)
    by now apply Float64Division.div_of_int_self.
  repeat split.
  - intros <-. rewrite (Precision_lookup _ _ _ _ _ Hrow).
    unfold Precision.per_user. now rewrite Hone.
  - intros Hl. rewrite (Recall_lookup _ _ _ _ Hrow).
    unfold Recall.per_user. now rewrite <- Hl, Hone.
  - intros <- Hl.
    destruct (F1Beta_lookup libm_pow2 (TP c) Float64.one Float64.one confusion_df i u c
                (pow2_one libm_pow2) Hrow) as (s & Hs & Hi).
    exists s. split; [assumption|]. rewrite Hi.
    unfold F1Beta.per_user. rewrite <- Hl, Hone. reflexivity.
Qed.

Lemma perfect_precision_recall_f1_witness :
  let c := {| LIKED := 2; TP := 2; FP := 0; FN := 0 |} in
  (TP c = 2 ->
   Precision._calc_per_user_from_confusion_df 2 (Confusion [(7, c)]) !! 0%nat
   = Some (7, Float64.one))
  /\ (TP c = LIKED c ->
      Recall._calc_per_user_from_confusion_df (Confusion [(7, c)]) !! 0%nat
      = Some (7, Float64.one))
  /\ (TP c = 2 -> TP c = LIKED c ->
      exists s,
        F1Beta._calc_per_user_from_confusion_df
          PyFloat.rounded_square 2 Float64.one (Confusion [(7, c)])
        = Return s
        /\ s !! 0%nat = Some (7, Float64.one)).
Proof.
  intros c.
  apply (perfect_precision_recall_f1 PyFloat.rounded_square 2 (Confusion [(7, c)]) 0 7 c);
    first [reflexivity | discriminate | (split; vm_compute; discriminate)].
Defined.

(** X12. When every recommended item is a hit and no liked item is missed
    ([TP = k], [FN = 0]), Accuracy computed over a catalog of at least [k]
    items is exactly [1.0]. *)
Theorem Accuracy_perfect
    (k : Z) (catalog : list Z) (rows : list (Z * counts)) (i : nat) (u : Z)
    (c : counts) :
  rows !! i = Some (u, c) ->
  TP c = k -> FN c = 0 ->
  0 <= k <= Z.of_nat (length catalog) ->
  0 < Z.of_nat (length catalog) <= Int64.max_value ->
  exists s,
    snd (ClassificationMetric.calc_per_user_from_confusion_df
           (Accuracy k) (Confusion rows) catalog) = Return s
    /\ s !! i = Some (u, Float64.one).
Proof.
  intros Hrow Htp Hfn Hk Hn.
  set (n := Z.of_nat (length catalog)) in *.
  eexists. split; [reflexivity|].
  cbn [confusion_rows]. rewrite lookup_map, lookup_map, Hrow. simpl.
  do 2 f_equal. fold n. unfold Accuracy.per_user, Int64.add, Int64.sub.
  rewrite Htp, Hfn.
  rewrite (wrap_in_range (n - k - 0)) by int64_lia.
  replace (k + (n - k - 0)) with n by lia.
  rewrite wrap_in_range by int64_lia.
  apply Float64Division.div_of_int_self; [lia | int64_lia].
Qed.

Lemma Accuracy_perfect_witness :
  let c := {| LIKED := 2; TP := 2; FP := 0; FN := 0 |} in
  exists s,
    snd (ClassificationMetric.calc_per_user_from_confusion_df
           (Accuracy 2) (Confusion [(7, c)]) [1; 2; 3; 4; 5]) = Return s
    /\ s !! 0%nat = Some (7, Float64.one).
Proof.
  intros c. apply (Accuracy_perfect 2 [1; 2; 3; 4; 5] [(7, c)] 0 7 c).
  - reflexivity.
  - reflexivity.
  - reflexivity.
  - simpl. lia.
  - split; [reflexivity | vm_compute; discriminate].
Defined.

(** ** MCC and [int64] overflow *)

Lemma mcc_product_range (c : counts) (tn : Z) : Int64.in_range (MCC.mcc_product c tn).
Proof. unfold MCC.mcc_product, Int64.mul at 1. apply Float64Division.wrap_range. Qed.

Lemma mcc_numerator_range (c : counts) (tn : Z) : Int64.in_range (MCC.mcc_numerator c tn).
Proof. unfold MCC.mcc_numerator, Int64.sub. apply Float64Division.wrap_range. Qed.

Lemma MCC_per_user_classify (c : counts) (tn : Z) :
  Float64.is_nan (MCC.per_user c tn) = (MCC.mcc_product c tn <? 0)
  /\ Float64.is_finite (MCC.per_user c tn) = (0 <=? MCC.mcc_product c tn).
Proof.
  pose proof (mcc_product_range c tn) as HP.
  pose proof (mcc_numerator_range c tn) as HN.
  unfold MCC.per_user, MCC.raw_mcc, MCC.mcc_denominator.
  set (P := MCC.mcc_product c tn) in *. set (N := MCC.mcc_numerator c tn) in *.
  destruct (Z.eq_dec P 0) as [->|HP0].
  - split; reflexivity.
  - destruct (Float64Division.of_int_normal P HP0 HP) as [Hn Hs].
    destruct (Float64.of_int P) as [| | |s m e]; try contradiction.
    simpl in Hs. destruct Hn as [Hm He].
    destruct (Z_lt_le_dec P 0) as [Hneg|Hpos].
    + replace (P <? 0) with true in * by (symmetry; apply Z.ltb_lt; lia).
      replace (0 <=? P) with false by (symmetry; apply Z.leb_gt; lia).
      subst s. unfold Float64.sqrt. simpl SFsqrt.
      change (Float64.eqb S754_nan Float64.zero) with false. cbv iota.
      fold Float64.nan. rewrite Float64Facts.div_nan_r. split; reflexivity.
    + replace (P <? 0) with false in * by (symmetry; apply Z.ltb_ge; lia).
      replace (0 <=? P) with true by (symmetry; apply Z.leb_le; lia).
      subst s. unfold Float64.sqrt.
      change Float64.prec with 53. change Float64.emax with 1024.
      destruct (Float64Division.SFsqrt_normal m e Hm He) as (m' & e' & -> & Hm' & He').
      change (Float64.eqb (S754_finite false m' e') Float64.zero) with false. cbv iota.
      destruct (Z.eq_dec N 0) as [->|HN0].
      * split; reflexivity.
      * destruct (Float64Division.of_int_normal N HN0 HN) as [Hnn _].
        destruct (Float64.of_int N) as [| | |sn mn en]; try contradiction.
        destruct Hnn as [Hmn Hen].
        destruct (Float64Division.SFdiv_normal sn false mn m' en e' Hmn Hm' Hen He')
          as (mq & eq & Hq).
        unfold Float64.div. change Float64.prec with 53. change Float64.emax with 1024.
        rewrite Hq. split; reflexivity.
Qed.

(** X13. The value of MCC on a row is NaN exactly when the product under
    the square root, as [int64] computes it with its wrap-around, is
    negative, and it is a finite number whenever that product is not
    negative. *)
Theorem MCC_nan_iff_negative_product
    (rows : list (Z * (counts * Z))) (catalog : list Z) (i : nat) (u : Z)
    (c : counts) (tn : Z) :
  rows !! i = Some (u, (c, tn)) ->
  exists s v,
    MCC._calc_per_user_from_confusion_df (ConfusionTN rows) catalog = Return s
    /\ s !! i = Some (u, v)
    /\ Float64.is_nan v = (MCC.mcc_product c tn <? 0)
    /\ Float64.is_finite v = (0 <=? MCC.mcc_product c tn).
Proof.
  intros Hrow. eexists. exists (MCC.per_user c tn).
  split; [reflexivity|]. split.
  - rewrite lookup_map, Hrow. reflexivity.
  - apply MCC_per_user_classify.
Qed.

Lemma MCC_nan_iff_negative_product_witness :
  let c := {| LIKED := 100; TP := 0; FP := 1000; FN := 100 |} in
  let tn := 10000000 in
  exists s v,
    MCC._calc_per_user_from_confusion_df (ConfusionTN [(7, (c, tn))]) [] = Return s
    /\ s !! 0%nat = Some (7, v)
    /\ Float64.is_nan v = (MCC.mcc_product c tn <? 0)
    /\ Float64.is_finite v = (0 <=? MCC.mcc_product c tn).
Proof.
  intros c tn.
  apply (MCC_nan_iff_negative_product [(7, (c, tn))] [] 0 7 c tn). reflexivity.
Defined.

(** ** The results of the driver *)

Lemma dict_get_set_eq {K V : Type} `{EqDecision K} (key : K) (v : V) (d : list (K * V)) :
  dict_get key (dict_set key v d) = Some v.
Proof.
  induction d as [|[k' v'] d IH]; simpl.
  - now rewrite decide_True.
  - destruct (decide (key = k')) as [->|Hne]; simpl.
    + now rewrite decide_True.
    + now rewrite decide_False.
Qed.

Lemma dict_get_set_ne {K V : Type} `{EqDecision K} (key key' : K) (v : V)
    (d : list (K * V)) :
  key <> key' -> dict_get key (dict_set key' v d) = dict_get key d.
Proof.
  intros Hne. induction d as [|[k' v'] d IH]; simpl.
  - now rewrite decide_False.
  - destruct (decide (key' = k')) as [<-|Hne']; simpl.
    + rewrite !decide_False by assumption. reflexivity.
    + destruct (decide (key = k')); auto.
Qed.

Lemma dict_set_keys {K V : Type} `{EqDecision K} (key : K) (v : V) (d : list (K * V)) :
  key ∉ map fst d -> map fst (dict_set key v d) = map fst d ++ [key].
Proof.
  induction d as [|[k' v'] d IH]; simpl; intros Hnotin; [reflexivity|].
  apply not_elem_of_cons in Hnotin as [Hne Hnotin].
  rewrite decide_False by assumption. simpl. f_equal. auto.
Qed.

Lemma dict_get_Some_key {K V : Type} `{EqDecision K} (key : K) (v : V) (d : list (K * V)) :
  dict_get key d = Some v -> key ∈ map fst d.
Proof.
  intros Hget. apply dict_get_Some_elem in Hget.
  apply list_elem_of_In, in_map_iff. exists (key, v).
  split; [reflexivity | now apply list_elem_of_In].
Qed.

Lemma flatten_k_map_append (k : Z) (name : string) (k_map : list (Z * list string)) :
  flatten_k_map (k_map_append k name k_map) ≡ₚ flatten_k_map k_map ++ [(k, name)].
Proof.
  induction k_map as [|[k' names] k_map IH].
  - reflexivity.
  - simpl k_map_append. destruct (decide (k = k')) as [->|Hne].
    + change (flatten_k_map ((k', names ++ [name]) :: k_map))
        with (map (fun name => (k', name)) (names ++ [name]) ++ flatten_k_map k_map).
      change (flatten_k_map ((k', names) :: k_map))
        with (map (fun name => (k', name)) names ++ flatten_k_map k_map).
      rewrite map_app. simpl. rewrite <- !app_assoc.
      apply Permutation_app_head, Permutation_app_comm.
    + change (flatten_k_map ((k', names) :: k_map_append k name k_map))
        with (map (fun name => (k', name)) names
              ++ flatten_k_map (k_map_append k name k_map)).
      change (flatten_k_map ((k', names) :: k_map))
        with (map (fun name => (k', name)) names ++ flatten_k_map k_map).
      rewrite IH. now rewrite app_assoc.
Qed.

Lemma flatten_build_k_map_from (metrics : list (string * metric))
    (k_map : list (Z * list string)) :
  flatten_k_map
    (fold_left (fun k_map '(name, metric) => k_map_append (metric_k metric) name k_map)
               metrics k_map)
  ≡ₚ flatten_k_map k_map ++ map (fun '(name, m) => (metric_k m, name)) metrics.
Proof.
  revert k_map; induction metrics as [|[name m] metrics IH]; intros k_map; simpl.
  - now rewrite app_nil_r.
  - rewrite IH, flatten_k_map_append, <- app_assoc. reflexivity.
Qed.

(** Every metric is visited in the group of its own [k]. *)
Lemma eval_order_Permutation (metrics : list (string * metric)) :
  eval_order metrics ≡ₚ map (fun '(name, m) => (metric_k m, name)) metrics.
Proof.
  unfold eval_order, build_k_map. now rewrite flatten_build_k_map_from.
Qed.

Lemma eval_order_elem (metrics : list (string * metric)) (k : Z) (name : string) :
  (k, name) ∈ eval_order metrics
  <-> exists m, (name, m) ∈ metrics /\ k = metric_k m.
Proof.
  rewrite eval_order_Permutation, !list_elem_of_In, in_map_iff. split.
  - intros ([name' m] & [= <- <-] & Hin). exists m.
    split; [now apply list_elem_of_In | reflexivity].
  - intros (m & Hin & ->). exists (name, m).
    split; [reflexivity | now apply list_elem_of_In].
Qed.

Lemma resolve_own (metrics l : list (string * metric)) :
  (forall name m, (name, m) ∈ l -> dict_get name metrics = Some m) ->
  resolve metrics (map (fun '(name, m) => (metric_k m, name)) l)
  = map (fun '(name, m) => (metric_k m, m)) l.
Proof.
  induction l as [|[name m] l IH]; intros Hget; [reflexivity|].
  unfold resolve in *. simpl. rewrite (Hget name m) by constructor. simpl.
  f_equal. apply IH. intros name' m' Hin. apply Hget. now constructor.
Qed.

(** The metrics of the loops are the metrics of the dictionary, each with
    its own [k]. *)
Lemma ordered_metrics_Permutation (metrics : list (string * metric)) :
  NoDup (map fst metrics) ->
  ordered_metrics metrics ≡ₚ map (fun '(name, m) => (metric_k m, m)) metrics.
Proof.
  intros Hnd.
  rewrite <- (resolve_own metrics metrics)
    by (intros name m Hin; now apply dict_get_NoDup).
  unfold ordered_metrics, resolve. now rewrite eval_order_Permutation.
Qed.

Section DriverResults.
Variable libm_pow2 : float -> float.
Variable make_downsample : DebiasConfig -> merged_df -> merged_df.
Variable mean : series -> float.

Lemma calc_metric_returns (metrics : list (string * metric)) (merged : merged_df)
    (catalog : option (list Z)) (k : Z) (name : string)
    (results r : list (string * float)) (log log' : call_log) :
  calc_metric libm_pow2 make_downsample mean metrics merged catalog k name results log
  = (Return r, log') ->
  exists m v,
    dict_get name metrics = Some m
    /\ r = dict_set name v results
    /\ is_metric_value libm_pow2 make_downsample mean merged catalog k m v.
Proof.
  unfold calc_metric. destruct (dict_get name metrics) as [m|]; [|discriminate].
  intros Hrun. exists m.
  assert (Hcall : forall (f : confusion_table -> M (list (string * float))),
            (confusion_df <-
               match isinstance_Debias m with
               | Some cfg => call_calc_confusions (make_downsample cfg merged) k
               | None => call_calc_confusions merged k
               end ;; f confusion_df) log
            = f (calc_confusions (fst (call_of make_downsample merged (k, m))) k)
                (log ++ [call_of make_downsample merged (k, m)])).
  { intros f. unfold call_of, bind, call_calc_confusions. simpl.
    destruct (isinstance_Debias m); reflexivity. }
  rewrite Hcall in Hrun. clear Hcall.
  unfold is_metric_value. cbv zeta.
  set (confusion_df := calc_confusions (fst (call_of make_downsample merged (k, m))) k)
    in *.
  unfold bind, lift, raise, ret in Hrun.
  destruct (isinstance_SimpleClassificationMetric m).
  - destruct (SimpleClassificationMetric.calc_from_confusion_df
                libm_pow2 mean m confusion_df) as [v|e]; [|discriminate].
    injection Hrun as <- _. eauto.
  - destruct (isinstance_ClassificationMetric m); [|discriminate].
    destruct catalog as [catalog|]; [|discriminate].
    destruct (snd (ClassificationMetric.calc_from_confusion_df
                     mean m confusion_df catalog)) as [v|e] eqn:Hv; [|discriminate].
    injection Hrun as <- _. eauto 8.
Qed.

Lemma for_each_calc_metric_results (metrics : list (string * metric))
    (merged : merged_df) (catalog : option (list Z)) (l : list (Z * string)) :
  forall (results r : list (string * float)) (log log' : call_log),
  for_each l
    (fun '(k, name) results =>
       calc_metric libm_pow2 make_downsample mean metrics merged catalog k name results)
    results log
  = (Return r, log') ->
  NoDup (map fst results ++ map snd l) ->
  map fst r = map fst results ++ map snd l
  /\ (forall name v, dict_get name results = Some v -> dict_get name r = Some v)
  /\ (forall k name,
        (k, name) ∈ l ->
        exists m v,
          dict_get name metrics = Some m
          /\ dict_get name r = Some v
          /\ is_metric_value libm_pow2 make_downsample mean merged catalog k m v).
Proof.
  induction l as [|[k name] l IH]; intros results r log log' Hrun Hnd.
  - injection Hrun as <- _. simpl. rewrite app_nil_r.
    repeat split; [auto|]. intros k name Hin. inversion Hin.
  - simpl in Hrun. unfold bind in Hrun.
    destruct (calc_metric libm_pow2 make_downsample mean metrics merged catalog k name results log)
      as [[r1|e] log1] eqn:Hstep; [|discriminate].
    destruct (calc_metric_returns _ _ _ _ _ _ _ _ _ Hstep) as (m & v & Hm & -> & Hv).
    simpl in Hnd. apply NoDup_app in Hnd as (Hnd1 & Hdisj & Hnd2).
    assert (Hfresh : name ∉ map fst results).
    { intros Hin. apply (Hdisj name Hin). constructor. }
    assert (Hkeys : map fst (dict_set name v results) = map fst results ++ [name])
      by now apply dict_set_keys.
    destruct (IH _ _ _ _ Hrun) as (Hk & Hkeep & Hnew).
    { rewrite Hkeys, <- app_assoc. simpl. apply NoDup_app. auto. }
    split; [|split].
    + rewrite Hk, Hkeys, <- app_assoc. reflexivity.
    + intros name' v' Hget. apply Hkeep. rewrite dict_get_set_ne; [assumption|].
      intros ->. apply Hfresh. eapply dict_get_Some_key; eauto.
    + intros k' name' Hin. inversion Hin as [|? ? ? Hin']; subst.
      * exists m, v. split; [assumption|]. split; [|assumption].
        apply Hkeep, dict_get_set_eq.
      * eauto.
Qed.

(** A run of the driver that returns: the keys of the results, and the
    value under every name that the loops visit. *)
Lemma driver_run_results (metrics : list (string * metric))
    (merged : merged_df) (catalog : option (list Z)) (log : call_log)
    (results : list (string * float)) :
  NoDup (map fst metrics) ->
  fst (calc_classification_metrics libm_pow2 make_downsample mean metrics merged catalog log)
  = Return results ->
  map fst results = map snd (eval_order metrics)
  /\ forall k name,
       (k, name) ∈ eval_order metrics ->
       exists m v,
         dict_get name metrics = Some m
         /\ dict_get name results = Some v
         /\ is_metric_value libm_pow2 make_downsample mean merged catalog k m v.
Proof.
  intros Hnd Hrun.
  destruct (calc_classification_metrics libm_pow2 make_downsample mean metrics merged catalog log)
    as [o log'] eqn:Hcall. simpl in Hrun. subst o.
  unfold calc_classification_metrics in Hcall. rewrite for_each_nested in Hcall.
  destruct (for_each_calc_metric_results _ _ _ _ _ _ _ _ Hcall) as (Hk & _ & Hnew).
  { change (NoDup (map snd (eval_order metrics))). now rewrite eval_order_names. }
  split; [exact Hk | exact Hnew].
Qed.

(** X14. With the metric names distinct, the dictionary that
    [calc_classification_metrics] returns has the keys of [metrics] (in the
    order of the loops: grouped by [k]), and the value it holds for a name
    is the value of that metric's own [calc_from_confusion_df] on the
    confusion table computed at the metric's own [k], from the downsampled
    table for a debiased metric. *)
Theorem calc_classification_metrics_results (metrics : list (string * metric))
    (merged : merged_df) (catalog : option (list Z)) (log : call_log)
    (results : list (string * float)) :
  NoDup (map fst metrics) ->
  fst (calc_classification_metrics libm_pow2 make_downsample mean metrics merged catalog log)
  = Return results ->
  map fst results = map snd (eval_order metrics)
  /\ map fst results ≡ₚ map fst metrics
  /\ forall name m,
       (name, m) ∈ metrics ->
       exists v,
         dict_get name results = Some v
         /\ is_metric_value libm_pow2 make_downsample mean merged catalog (metric_k m) m v.
Proof.
  intros Hnd Hrun.
  destruct (driver_run_results metrics merged catalog log results Hnd Hrun)
    as [Hk Hnew].
  split; [assumption|]. split.
  - rewrite Hk. apply eval_order_names.
  - intros name m Hin.
    destruct (Hnew (metric_k m) name) as (m' & v & Hm' & Hget & Hv).
    { apply eval_order_elem. eauto. }
    rewrite (dict_get_NoDup name m metrics Hnd Hin) in Hm'. injection Hm' as <-.
    eauto.
Qed.
End DriverResults.

Lemma calc_classification_metrics_results_witness :
  let metrics :=
    [("precision"%string, Precision 1); ("accuracy"%string, Accuracy 2);
     ("recall"%string, Recall 1)] in
  let merged := [ {| User := 1; Item := 10; Rank := Some 1; Interacted := true |} ] in
  let mean := fun s : series => match s with (_, x) :: _ => x | [] => Float64.nan end in
  let results :=
    [("precision"%string, Float64.one); ("recall"%string, Float64.one);
     ("accuracy"%string, Float64.div (Float64.of_int 2) (Float64.of_int 3))] in
  map fst results = map snd (eval_order metrics)
  /\ map fst results ≡ₚ map fst metrics
  /\ forall name m,
       (name, m) ∈ metrics ->
       exists v,
         dict_get name results = Some v
         /\ is_metric_value PyFloat.rounded_square (fun _ merged => merged)
              mean merged (Some [1; 2; 3]) (metric_k m) m v.
Proof.
  intros metrics merged mean results.
  apply (calc_classification_metrics_results
           PyFloat.rounded_square (fun _ merged => merged)
           mean metrics merged (Some [1; 2; 3]) [] results).
  - apply (bool_decide_unpack _). vm_compute. exact I.
  - vm_compute. reflexivity.
Defined.

(** ** When the driver returns, and what it raises *)

Lemma ordered_metrics_Exists (P : metric -> Prop) (metrics : list (string * metric)) :
  NoDup (map fst metrics) ->
  Exists (fun km => P (snd km)) (ordered_metrics metrics)
  <-> exists name m, (name, m) ∈ metrics /\ P m.
Proof.
  intros Hnd. rewrite Exists_exists. split.
  - intros ([k m] & Hin & HP). simpl in HP.
    destruct (proj1 (ordered_metrics_elem metrics m Hnd)) as [name Hname]; eauto.
  - intros (name & m & Hin & HP).
    destruct (proj2 (ordered_metrics_elem metrics m Hnd)) as [k Hk]; [eauto|].
    exists (k, m). auto.
Qed.

Lemma ordered_metrics_Forall (P : metric -> Prop) (metrics : list (string * metric)) :
  NoDup (map fst metrics) ->
  Forall (fun km => P (snd km)) (ordered_metrics metrics)
  <-> forall name m, (name, m) ∈ metrics -> P m.
Proof.
  intros Hnd. rewrite Forall_forall. split.
  - intros H name m Hin.
    destruct (proj2 (ordered_metrics_elem metrics m Hnd)) as [k Hk]; eauto.
    apply (H (k, m) Hk).
  - intros H [k m] Hin. simpl.
    destruct (proj1 (ordered_metrics_elem metrics m Hnd)) as [name Hname]; eauto.
Qed.

Section ErrorCauses.
Variable libm_pow2 : float -> float.

Lemma first_error_None_iff (catalog : option (list Z)) (ms : list (Z * metric)) :
  first_error libm_pow2 catalog ms = None
  <-> Forall (fun km =>
                formula_error libm_pow2 (snd km) = None
                /\ (isinstance_SimpleClassificationMetric (snd km) = true
                    \/ (isinstance_ClassificationMetric (snd km) = true
                        /\ catalog <> None)))
             ms.
Proof.
  induction ms as [|[k m] ms IH]; simpl.
  - split; [constructor | reflexivity].
  - rewrite Forall_cons. simpl.
    destruct (isinstance_SimpleClassificationMetric m) eqn:Hs.
    + destruct (formula_error libm_pow2 m) as [e|].
      * split; [discriminate|]. intros [[H _] _]. discriminate.
      * rewrite IH. tauto.
    + destruct (isinstance_ClassificationMetric m) eqn:Hc.
      * destruct catalog as [catalog|].
        -- destruct (formula_error libm_pow2 m) as [e|].
           ++ split; [discriminate|]. intros [[H _] _]. discriminate.
           ++ rewrite IH. split; [|tauto]. intros H.
              split; [|assumption]. split; [reflexivity|].
              right. split; [reflexivity | discriminate].
        -- split; [discriminate|].
           intros [[_ [H|[_ H]]] _]; [discriminate | contradiction].
      * split; [discriminate|]. intros [[_ [H|[H _]]] _]; discriminate.
Qed.

Lemma first_error_cause (catalog : option (list Z)) (ms : list (Z * metric)) (e : exn) :
  first_error libm_pow2 catalog ms = Some e ->
  (e = ValueError /\ catalog = None
   /\ Exists (fun km => isinstance_ClassificationMetric (snd km) = true) ms)
  \/ (e = TypeError
      /\ Exists (fun km => isinstance_SimpleClassificationMetric (snd km) = false
                           /\ isinstance_ClassificationMetric (snd km) = false) ms)
  \/ Exists (fun km => formula_error libm_pow2 (snd km) = Some e) ms.
Proof.
  induction ms as [|[k m] ms IH]; simpl; [discriminate|].
  assert (Hnext : first_error libm_pow2 catalog ms = Some e ->
            (e = ValueError /\ catalog = None
             /\ Exists (fun km => isinstance_ClassificationMetric (snd km) = true)
                       ((k, m) :: ms))
            \/ (e = TypeError
                /\ Exists (fun km => isinstance_SimpleClassificationMetric (snd km) = false
                                     /\ isinstance_ClassificationMetric (snd km) = false)
                          ((k, m) :: ms))
            \/ Exists (fun km => formula_error libm_pow2 (snd km) = Some e)
                      ((k, m) :: ms)).
  { intros H. destruct (IH H) as [(-> & Hc & Hex)|[(-> & Hex)|Hex]].
    - left. repeat split; [assumption|]. now apply Exists_cons_tl.
    - right. left. split; [reflexivity|]. now apply Exists_cons_tl.
    - right. right. now apply Exists_cons_tl. }
  destruct (isinstance_SimpleClassificationMetric m) eqn:Hs.
  - destruct (formula_error libm_pow2 m) as [e'|] eqn:He; [|exact Hnext].
    intros [= <-]. right. right. now apply Exists_cons_hd.
  - destruct (isinstance_ClassificationMetric m) eqn:Hc.
    + destruct catalog as [catalog|].
      * destruct (formula_error libm_pow2 m) as [e'|] eqn:He; [|exact Hnext].
        intros [= <-]. right. right. now apply Exists_cons_hd.
      * intros [= <-]. left. repeat split. now apply Exists_cons_hd.
    + intros [= <-]. right. left. split; [reflexivity|]. apply Exists_cons_hd. auto.
Qed.

Lemma first_error_TypeError_catalog (catalog : list Z) (ms : list (Z * metric)) :
  Forall (fun km => formula_error libm_pow2 (snd km) = None) ms ->
  first_error libm_pow2 (Some catalog) ms = Some TypeError
  <-> Exists (fun km => isinstance_SimpleClassificationMetric (snd km) = false
                        /\ isinstance_ClassificationMetric (snd km) = false) ms.
Proof.
  induction ms as [|[k m] ms IH]; simpl; intros Hok.
  - split; [discriminate|]. intros H. inversion H.
  - apply Forall_cons in Hok as [Hm Hok]. simpl in Hm. rewrite Hm.
    rewrite Exists_cons. simpl.
    destruct (isinstance_SimpleClassificationMetric m) eqn:Hs.
    + rewrite (IH Hok). split; [auto|]. intros [[H _]|H]; [discriminate | assumption].
    + destruct (isinstance_ClassificationMetric m) eqn:Hc.
      * rewrite (IH Hok). split; [auto|].
        intros [[_ H]|H]; [discriminate | assumption].
      * split; auto.
Qed.
End ErrorCauses.

Lemma for_each_ext {A S : Type} (xs : list A) (body body' : A -> S -> M S) :
  (forall x s log, body x s log = body' x s log) ->
  forall s log, for_each xs body s log = for_each xs body' s log.
Proof.
  intros Hext. induction xs as [|x xs IH]; intros s log; simpl; [reflexivity|].
  unfold bind. rewrite Hext. destruct (body' x s log) as [[s'|e] log']; auto.
Qed.

Section DriverOutcome.
Variable libm_pow2 : float -> float.
Variable make_downsample : DebiasConfig -> merged_df -> merged_df.
Variable mean : series -> float.

(** X15. With the metric names distinct, [calc_classification_metrics]
    returns a dictionary exactly when the formula of every metric returns
    (no direct instance of a base class, whose formula raises
    [NotImplementedError], and no F1Beta whose [beta ** 2] raises
    [OverflowError]) and every metric is a [SimpleClassificationMetric], or
    a [ClassificationMetric] with the catalog given.  (The cutoffs are
    [int64] values, as the model of the columns requires.) *)
Theorem calc_classification_metrics_returns_iff (metrics : list (string * metric))
    (merged : merged_df) (catalog : option (list Z)) (log : call_log) :
  NoDup (map fst metrics) ->
  (forall name m, (name, m) ∈ metrics -> int64_cutoff catalog m) ->
  (exists results,
     fst (calc_classification_metrics
            libm_pow2 make_downsample mean metrics merged catalog log)
     = Return results)
  <-> (forall name m,
         (name, m) ∈ metrics ->
         formula_error libm_pow2 m = None
         /\ (isinstance_SimpleClassificationMetric m = true
             \/ (isinstance_ClassificationMetric m = true /\ catalog <> None))).
Proof.
  intros Hnd _.
  rewrite <- (ordered_metrics_Forall
                (fun m => formula_error libm_pow2 m = None
                          /\ (isinstance_SimpleClassificationMetric m = true
                              \/ (isinstance_ClassificationMetric m = true
                                  /\ catalog <> None)))
                metrics Hnd).
  rewrite <- first_error_None_iff.
  destruct (calc_classification_metrics_run
              libm_pow2 make_downsample mean metrics merged catalog log)
    as (o & -> & Ho). simpl.
  destruct (first_error libm_pow2 catalog (ordered_metrics metrics)) as [e|].
  - subst o. split; [intros [r H]; discriminate | discriminate].
  - destruct Ho as [r ->]. split; eauto.
Qed.

(** X16. With the metric names distinct, every error of
    [calc_classification_metrics] has its cause in the dictionary:
    [ValueError] is raised only when no catalog is given and some metric is
    a [ClassificationMetric], [TypeError] only when some metric is an
    instance of neither base class, [NotImplementedError] only when some
    metric is a direct instance of a base class, [OverflowError] only when
    [beta ** 2] raises it for the [beta] of some F1Beta, and no other error
    is raised.  With the catalog given and no metric whose formula raises,
    [TypeError] is raised exactly when some metric is an instance of
    neither base class.  (The cutoffs are [int64] values, as the model of
    the columns requires.) *)
Theorem calc_classification_metrics_errors (metrics : list (string * metric))
    (merged : merged_df) (catalog : option (list Z)) (log : call_log) :
  NoDup (map fst metrics) ->
  (forall name m, (name, m) ∈ metrics -> int64_cutoff catalog m) ->
  (forall e,
     fst (calc_classification_metrics
            libm_pow2 make_downsample mean metrics merged catalog log)
     = Raise e ->
     (e = ValueError /\ catalog = None
      /\ exists name m, (name, m) ∈ metrics /\ isinstance_ClassificationMetric m = true)
     \/ (e = TypeError
         /\ exists name m,
              (name, m) ∈ metrics
              /\ (isinstance_SimpleClassificationMetric m = false
                  /\ isinstance_ClassificationMetric m = false))
     \/ (e = NotImplementedError
         /\ exists name k,
              (name, SimpleClassificationMetric k) ∈ metrics
              \/ (name, ClassificationMetric k) ∈ metrics)
     \/ (e = OverflowError
         /\ exists name k beta,
              ((name, F1Beta k beta) ∈ metrics
               \/ exists cfg, (name, DebiasF1Beta k beta cfg) ∈ metrics)
              /\ PyFloat.pow2 libm_pow2 beta = Raise OverflowError))
  /\ (catalog <> None ->
      (forall name m, (name, m) ∈ metrics -> formula_error libm_pow2 m = None) ->
      (fst (calc_classification_metrics
              libm_pow2 make_downsample mean metrics merged catalog log)
       = Raise TypeError
       <-> exists name m,
             (name, m) ∈ metrics
             /\ (isinstance_SimpleClassificationMetric m = false
                 /\ isinstance_ClassificationMetric m = false))).
Proof.
  intros Hnd _. split.
  - intros e He. apply calc_classification_metrics_raises in He.
    apply first_error_cause in He as [(-> & Hc & Hex)|[(-> & Hex)|Hex]].
    + left. repeat split; [assumption|].
      now apply (ordered_metrics_Exists
                   (fun m => isinstance_ClassificationMetric m = true) metrics Hnd).
    + right. left. split; [reflexivity|].
      now apply (ordered_metrics_Exists
                   (fun m => isinstance_SimpleClassificationMetric m = false
                             /\ isinstance_ClassificationMetric m = false) metrics Hnd).
    + apply (ordered_metrics_Exists
               (fun m => formula_error libm_pow2 m = Some e) metrics Hnd) in Hex
        as (name & m & Hin & Herr).
      right. right.
      apply formula_error_cases in Herr
        as [(-> & [[k ->]|[k ->]])|(-> & k & beta & [->|[cfg ->]] & Hpow)].
      * left. split; [reflexivity|]. exists name, k. auto.
      * left. split; [reflexivity|]. exists name, k. auto.
      * right. split; [reflexivity|]. exists name, k, beta. auto.
      * right. split; [reflexivity|]. exists name, k, beta. eauto.
  - intros Hcat Hok. destruct catalog as [catalog|]; [|contradiction].
    rewrite calc_classification_metrics_raises, first_error_TypeError_catalog.
    + apply (ordered_metrics_Exists
               (fun m => isinstance_SimpleClassificationMetric m = false
                         /\ isinstance_ClassificationMetric m = false) metrics Hnd).
    + now apply (ordered_metrics_Forall
                   (fun m => formula_error libm_pow2 m = None) metrics Hnd).
Qed.

(** X17. When every metric of the dictionary is a
    [SimpleClassificationMetric], the catalog has no effect on a call of
    [calc_classification_metrics]: the call gives what it gives without a
    catalog. *)
Theorem calc_classification_metrics_catalog_unused (metrics : list (string * metric))
    (merged : merged_df) (catalog : option (list Z)) (log : call_log) :
  (forall name m, (name, m) ∈ metrics -> isinstance_SimpleClassificationMetric m = true) ->
  calc_classification_metrics libm_pow2 make_downsample mean metrics merged catalog log
  = calc_classification_metrics libm_pow2 make_downsample mean metrics merged None log.
Proof.
  intros Hsimple. unfold calc_classification_metrics.
  rewrite !for_each_nested. apply for_each_ext.
  intros [k name] results log0. unfold calc_metric.
  destruct (dict_get name metrics) as [m|] eqn:Hget; [|reflexivity].
  apply dict_get_Some_elem, Hsimple in Hget. rewrite Hget. reflexivity.
Qed.

(** X18. With the metric names distinct, a call of
    [calc_classification_metrics] that returns has called
    [calc_confusions] once for every metric of the dictionary, with the
    metric's own [k] and the merged table (downsampled for a debiased
    metric): as many calls as there are metrics, however many of them share
    their [k]. *)
Theorem calc_classification_metrics_one_call_per_metric
    (metrics : list (string * metric)) (merged : merged_df)
    (catalog : option (list Z)) (log : call_log) (results : list (string * float)) :
  NoDup (map fst metrics) ->
  fst (calc_classification_metrics libm_pow2 make_downsample mean metrics merged catalog log)
  = Return results ->
  exists calls,
    snd (calc_classification_metrics libm_pow2 make_downsample mean metrics merged catalog log)
    = log ++ calls
    /\ calls ≡ₚ map (fun '(name, m) => call_of make_downsample merged (metric_k m, m))
                    metrics
    /\ length calls = length metrics.
Proof.
  intros Hnd Hrun.
  destruct (calc_classification_metrics_calls
              libm_pow2 make_downsample mean metrics merged catalog log results Hrun) as [Hcalls _].
  exists (map (call_of make_downsample merged) (ordered_metrics metrics)).
  split; [assumption|]. split.
  - rewrite (ordered_metrics_Permutation metrics Hnd), map_map.
    erewrite map_ext; [reflexivity|]. now intros [name m].
  - now rewrite length_map, ordered_metrics_length.
Qed.
End DriverOutcome.

Lemma calc_classification_metrics_returns_iff_witness :
  let metrics := [("precision"%string, Precision 5); ("accuracy"%string, Accuracy 5)] in
  let merged := [ {| User := 1; Item := 10; Rank := Some 1; Interacted := true |} ] in
  (exists results,
     fst (calc_classification_metrics
            PyFloat.rounded_square (fun _ merged => merged) (fun _ => Float64.nan)
            metrics merged None [])
     = Return results)
  <-> (forall name m,
         (name, m) ∈ metrics ->
         formula_error PyFloat.rounded_square m = None
         /\ (isinstance_SimpleClassificationMetric m = true
             \/ (isinstance_ClassificationMetric m = true
                 /\ @None (list Z) <> None))).
Proof.
  intros metrics merged.
  apply (calc_classification_metrics_returns_iff
           PyFloat.rounded_square (fun _ merged => merged) (fun _ => Float64.nan)
           metrics merged None []).
  - apply (bool_decide_unpack _). vm_compute. exact I.
  - intros name m Hin. apply list_elem_of_In in Hin.
    destruct Hin as [[= <- <-]|[[= <- <-]|[]]];
      (split; [split; vm_compute; discriminate | discriminate]).
Defined.

Lemma calc_classification_metrics_errors_witness :
  let metrics :=
    [("precision"%string, Precision 1);
     ("f1"%string, F1Beta 1 (Float64.of_int (2 ^ 600)));
     ("base"%string, SimpleClassificationMetric 1);
     ("other"%string, OtherMetric 1)] in
  let merged := [ {| User := 1; Item := 10; Rank := Some 1; Interacted := true |} ] in
  let run :=
    fst (calc_classification_metrics
           PyFloat.rounded_square (fun _ merged => merged) (fun _ => Float64.nan)
           metrics merged (Some [10; 20]) []) in
  (forall e,
     run = Raise e ->
     (e = ValueError /\ Some [10; 20] = None
      /\ exists name m, (name, m) ∈ metrics /\ isinstance_ClassificationMetric m = true)
     \/ (e = TypeError
         /\ exists name m,
              (name, m) ∈ metrics
              /\ (isinstance_SimpleClassificationMetric m = false
                  /\ isinstance_ClassificationMetric m = false))
     \/ (e = NotImplementedError
         /\ exists name k,
              (name, SimpleClassificationMetric k) ∈ metrics
              \/ (name, ClassificationMetric k) ∈ metrics)
     \/ (e = OverflowError
         /\ exists name k beta,
              ((name, F1Beta k beta) ∈ metrics
               \/ exists cfg, (name, DebiasF1Beta k beta cfg) ∈ metrics)
              /\ PyFloat.pow2 PyFloat.rounded_square beta = Raise OverflowError))
  /\ (Some [10; 20] <> None ->
      (forall name m,
         (name, m) ∈ metrics -> formula_error PyFloat.rounded_square m = None) ->
      (run = Raise TypeError
       <-> exists name m,
             (name, m) ∈ metrics
             /\ (isinstance_SimpleClassificationMetric m = false
                 /\ isinstance_ClassificationMetric m = false))).
Proof.
  intros metrics merged run.
  apply (calc_classification_metrics_errors
           PyFloat.rounded_square (fun _ merged => merged) (fun _ => Float64.nan)
           metrics merged (Some [10; 20]) []).
  - apply (bool_decide_unpack _). vm_compute. exact I.
  - intros name m Hin. apply list_elem_of_In in Hin.
    destruct Hin as [[= <- <-]|[[= <- <-]|[[= <- <-]|[[= <- <-]|[]]]]];
      (split; [split; vm_compute; discriminate
              | intros catalog' [= <-]; split; vm_compute; discriminate]).
Defined.

(** The run of the witness above stops at the F1Beta: [OverflowError],
    before the direct instance of the base class and the metric of another
    kind are visited. *)
Example calc_classification_metrics_OverflowError_first :
  let metrics :=
    [("precision"%string, Precision 1);
     ("f1"%string, F1Beta 1 (Float64.of_int (2 ^ 600)));
     ("base"%string, SimpleClassificationMetric 1);
     ("other"%string, OtherMetric 1)] in
  let merged := [ {| User := 1; Item := 10; Rank := Some 1; Interacted := true |} ] in
  calc_classification_metrics
    PyFloat.rounded_square (fun _ merged => merged) (fun _ => Float64.nan)
    metrics merged (Some [10; 20]) []
  = (Raise OverflowError, [(merged, 1); (merged, 1)]).
Proof. reflexivity. Qed.

Lemma calc_classification_metrics_catalog_unused_witness :
  let metrics := [("precision"%string, Precision 5); ("recall"%string, Recall 3)] in
  let merged := [ {| User := 1; Item := 10; Rank := Some 1; Interacted := true |} ] in
  calc_classification_metrics
    PyFloat.rounded_square (fun _ merged => merged) (fun _ => Float64.nan)
    metrics merged (Some [10; 20]) []
  = calc_classification_metrics
      PyFloat.rounded_square (fun _ merged => merged) (fun _ => Float64.nan)
      metrics merged None [].
Proof.
  intros metrics merged.
  apply (calc_classification_metrics_catalog_unused
           PyFloat.rounded_square (fun _ merged => merged) (fun _ => Float64.nan)
           metrics merged
           (Some [10; 20]) []).
  intros name m Hin. apply list_elem_of_In in Hin.
  destruct Hin as [[= <- <-]|[[= <- <-]|[]]]; reflexivity.
Defined.

Lemma calc_classification_metrics_one_call_per_metric_witness :
  let metrics :=
    [("precision"%string, Precision 5); ("recall"%string, Recall 5);
     ("accuracy"%string, Accuracy 5)] in
  let merged := [ {| User := 1; Item := 10; Rank := Some 1; Interacted := true |} ] in
  let run :=
    calc_classification_metrics
      PyFloat.rounded_square (fun _ merged => merged) (fun _ => Float64.nan)
      metrics merged (Some [10; 20]) [] in
  exists calls,
    snd run = [] ++ calls
    /\ calls ≡ₚ map (fun '(name, m) =>
                       call_of (fun _ merged => merged) merged (metric_k m, m))
                    metrics
    /\ length calls = length metrics.
Proof.
  intros metrics merged run.
  apply (calc_classification_metrics_one_call_per_metric
           PyFloat.rounded_square (fun _ merged => merged) (fun _ => Float64.nan)
           metrics merged
           (Some [10; 20]) []
           [("precision"%string, Float64.nan); ("recall"%string, Float64.nan);
            ("accuracy"%string, Float64.nan)]).
  - apply (bool_decide_unpack _). vm_compute. exact I.
  - vm_compute. reflexivity.
Defined.

(** ** The driver and the metrics' own [calc] *)

Section DriverAndCalc.
Context {reco_df interactions_df : Type}.
Variable libm_pow2 : float -> float.
Variable _check : reco_df -> interactions_df -> outcome unit.
Variable merge_reco : reco_df -> interactions_df -> merged_df.
Variable make_downsample_interactions : DebiasConfig -> interactions_df -> interactions_df.
Variable make_downsample : DebiasConfig -> merged_df -> merged_df.
Variable mean : series -> float.

(** X19. The driver, run on [merge_reco(reco, interactions)], gives for a
    metric the value of the metric's own [calc] on the raw tables, provided
    [_check] accepts the tables that [calc] hands to it and, for a debiased
    metric, downsampling the interactions before the join gives the table
    that downsampling the joined table gives (the driver downsamples
    [merged], [calc_per_user] downsamples [interactions]). *)
Theorem calc_classification_metrics_agrees_with_calc
    (metrics : list (string * metric)) (reco : reco_df) (interactions : interactions_df)
    (catalog : option (list Z)) (log : call_log) (results : list (string * float))
    (name : string) (m : metric) :
  NoDup (map fst metrics) ->
  fst (calc_classification_metrics
         libm_pow2 make_downsample mean metrics (merge_reco reco interactions) catalog log)
  = Return results ->
  (name, m) ∈ metrics ->
  (exists u,
     _check reco (calc_per_user_interactions make_downsample_interactions m interactions)
     = Return u) ->
  merge_reco reco (calc_per_user_interactions make_downsample_interactions m interactions)
  = fst (call_of make_downsample (merge_reco reco interactions) (metric_k m, m)) ->
  exists v,
    dict_get name results = Some v
    /\ if isinstance_SimpleClassificationMetric m then
         Simple_calc libm_pow2 _check merge_reco make_downsample_interactions mean
           m reco interactions = Return v
       else
         exists catalog',
           catalog = Some catalog'
           /\ Classification_calc _check merge_reco make_downsample_interactions mean
                m reco interactions catalog' = Return v.
Proof.
  intros Hnd Hrun Hin [u Hcheck] Hcomm.
  destruct (driver_run_results libm_pow2 make_downsample mean metrics _ catalog log results
              Hnd Hrun) as [_ Hnew].
  destruct (Hnew (metric_k m) name) as (m' & v & Hm' & Hget & Hv).
  { apply eval_order_elem. eauto. }
  rewrite (dict_get_NoDup name m metrics Hnd Hin) in Hm'. injection Hm' as <-.
  exists v. split; [assumption|].
  unfold is_metric_value in Hv. rewrite <- Hcomm in Hv.
  destruct (isinstance_SimpleClassificationMetric m).
  - unfold Simple_calc, Simple_calc_per_user, SimpleClassificationMetric_calc_per_user.
    rewrite Hcheck. exact Hv.
  - destruct Hv as (_ & catalog' & -> & Hv). exists catalog'. split; [reflexivity|].
    unfold Classification_calc, Classification_calc_per_user,
      ClassificationMetric_calc_per_user.
    rewrite Hcheck. exact Hv.
Qed.
End DriverAndCalc.

Lemma calc_classification_metrics_agrees_with_calc_witness :
  let reco := [(1, 10, 1); (1, 11, 2)] in
  let interactions := [(1, 10); (1, 12)] in
  let merge_reco :=
    fun (reco : list (Z * Z * Z)) (interactions : list (Z * Z)) =>
      map (fun '(u, i) =>
             {| User := u; Item := i;
                Rank := snd <$> List.find (fun '(u', i', _) => (u' =? u) && (i' =? i)) reco;
                Interacted := true |})
          interactions in
  let mean := fun s : series => match s with (_, x) :: _ => x | [] => Float64.nan end in
  let metrics :=
    [("precision"%string, Precision 2); ("accuracy"%string, DebiasAccuracy 2
        {| iqr_coef := Float64.one; random_state := 32 |})] in
  let results :=
    [("precision"%string, Float64.div (Float64.of_int 1) (Float64.of_int 2));
     ("accuracy"%string, Float64.div (Float64.of_int 2) (Float64.of_int 4))] in
  let m := DebiasAccuracy 2 {| iqr_coef := Float64.one; random_state := 32 |} in
  exists v,
    dict_get "accuracy"%string results = Some v
    /\ if isinstance_SimpleClassificationMetric m then
         Simple_calc PyFloat.rounded_square (fun _ _ => Return tt)
           merge_reco (fun _ i => i) mean m reco interactions = Return v
       else
         exists catalog',
           Some [10; 11; 12; 13] = Some catalog'
           /\ Classification_calc (fun _ _ => Return tt) merge_reco (fun _ i => i) mean
                m reco interactions catalog' = Return v.
Proof.
  intros reco interactions merge_reco mean metrics results m.
  apply (calc_classification_metrics_agrees_with_calc
           PyFloat.rounded_square (fun _ _ => Return tt)
           merge_reco (fun _ i => i) (fun _ mg => mg) mean
           metrics reco interactions (Some [10; 11; 12; 13]) [] results
           "accuracy"%string m).
  - apply (bool_decide_unpack _). vm_compute. exact I.
  - vm_compute. reflexivity.
  - apply list_elem_of_In. vm_compute. right. left. reflexivity.
  - exists tt. reflexivity.
  - reflexivity.
Defined.

(** ** The sign of MCC *)

Lemma MCC_per_user_sign (c : counts) (tn : Z) :
  0 < MCC.mcc_product c tn ->
  Float64.eqb (MCC.per_user c tn) Float64.zero = (MCC.mcc_numerator c tn =? 0)
  /\ Float64.leb Float64.zero (MCC.per_user c tn) = (0 <=? MCC.mcc_numerator c tn).
Proof.
  pose proof (mcc_product_range c tn) as HP.
  pose proof (mcc_numerator_range c tn) as HN.
  unfold MCC.per_user, MCC.raw_mcc, MCC.mcc_denominator.
  set (P := MCC.mcc_product c tn) in *. set (N := MCC.mcc_numerator c tn) in *.
  intros Hpos.
  destruct (Float64Division.of_int_normal P ltac:(lia) HP) as [Hn Hs].
  destruct (Float64.of_int P) as [| | |s m e]; try contradiction.
  simpl in Hs. destruct Hn as [Hm He].
  replace (P <? 0) with false in Hs by (symmetry; apply Z.ltb_ge; lia). subst s.
  unfold Float64.sqrt. change Float64.prec with 53. change Float64.emax with 1024.
  destruct (Float64Division.SFsqrt_normal m e Hm He) as (m' & e' & -> & Hm' & He').
  change (Float64.eqb (S754_finite false m' e') Float64.zero) with false. cbv iota.
  destruct (Z.eq_dec N 0) as [->|HN0].
  - split; reflexivity.
  - destruct (Float64Division.of_int_normal N HN0 HN) as [Hnn Hsn].
    destruct (Float64.of_int N) as [| | |sn mn en]; try contradiction.
    simpl in Hsn. destruct Hnn as [Hmn Hen].
    destruct (Float64Division.SFdiv_normal sn false mn m' en e' Hmn Hm' Hen He')
      as (mq & eq & Hq).
    unfold Float64.div. change Float64.prec with 53. change Float64.emax with 1024.
    rewrite Hq, xorb_false_r.
    replace (N =? 0) with false by (symmetry; apply Z.eqb_neq; assumption).
    subst sn. split.
    + destruct (N <? 0); reflexivity.
    + destruct (Z.ltb_spec N 0) as [Hlt|Hge].
      * replace (0 <=? N) with false by (symmetry; apply Z.leb_gt; lia). reflexivity.
      * replace (0 <=? N) with true by (symmetry; apply Z.leb_le; lia). reflexivity.
Qed.

(** X20. On a row whose product under the square root, as [int64] computes
    it, is positive, the value of MCC has the sign of the numerator
    [TP * TN - FP * FN] (as [int64] computes it): it is [0.0] exactly when
    the numerator is 0, and it is not negative exactly when the numerator
    is not negative. *)
Theorem MCC_sign_of_numerator
    (rows : list (Z * (counts * Z))) (catalog : list Z) (i : nat) (u : Z)
    (c : counts) (tn : Z) :
  rows !! i = Some (u, (c, tn)) ->
  0 < MCC.mcc_product c tn ->
  exists s v,
    MCC._calc_per_user_from_confusion_df (ConfusionTN rows) catalog = Return s
    /\ s !! i = Some (u, v)
    /\ Float64.eqb v Float64.zero = (MCC.mcc_numerator c tn =? 0)
    /\ Float64.leb Float64.zero v = (0 <=? MCC.mcc_numerator c tn).
Proof.
  intros Hrow Hpos. eexists. exists (MCC.per_user c tn).
  split; [reflexivity|]. split.
  - rewrite lookup_map, Hrow. reflexivity.
  - now apply MCC_per_user_sign.
Qed.

Lemma MCC_sign_of_numerator_witness :
  let c := {| LIKED := 2; TP := 1; FP := 1; FN := 1 |} in
  exists s v,
    MCC._calc_per_user_from_confusion_df (ConfusionTN [(7, (c, 2))]) [] = Return s
    /\ s !! 0%nat = Some (7, v)
    /\ Float64.eqb v Float64.zero = (MCC.mcc_numerator c 2 =? 0)
    /\ Float64.leb Float64.zero v = (0 <=? MCC.mcc_numerator c 2).
Proof.
  intros c. apply (MCC_sign_of_numerator [(7, (c, 2))] [] 0 7 c 2).
  - reflexivity.
  - vm_compute. reflexivity.
Defined.

(** ** The four cells of the confusion matrix *)

(** X21. For a metric with [k >= 0] run on the table that
    [calc_confusions] gives for its own [k] (sizes within [int64]),
    [ClassificationMetric.calc_per_user_from_confusion_df] leaves a table
    with the column TN in which the four cells of every row sum to the size
    of the catalog: [TP + FP + FN + TN = len(catalog)]. *)
Theorem confusion_cells_sum_to_catalog
    (self : metric) (merged : merged_df) (catalog : list Z) :
  0 <= metric_k self ->
  Z.of_nat (length merged) + metric_k self <= Int64.max_value ->
  Z.of_nat (length catalog) <= Int64.max_value ->
  exists rows,
    fst (ClassificationMetric.calc_per_user_from_confusion_df
           self (calc_confusions merged (metric_k self)) catalog)
    = ConfusionTN rows
    /\ map fst rows = map fst (confusion_rows (calc_confusions merged (metric_k self)))
    /\ Forall (fun '(_, (c, tn)) =>
                 TP c + FP c + FN c + tn = Z.of_nat (length catalog))
              rows.
Proof.
  intros Hk Hlen Hn. set (k := metric_k self) in *.
  set (n := Z.of_nat (length catalog)) in *.
  rewrite calc_confusions_rows. eexists. split; [reflexivity|]. split.
  - cbn [confusion_rows]. rewrite !map_map. apply map_ext. now intros [u g].
  - cbn [confusion_rows]. rewrite map_map. apply Forall_forall.
    intros [u [c tn]] Hin. apply list_elem_of_In, in_map_iff in Hin as ([u' g] & Heq & Hin).
    injection Heq as -> <- <-.
    apply list_elem_of_In, groupby_elem in Hin as [Hg _].
    assert (Hgl : (length g <= length merged)%nat)
      by (rewrite Hg; apply length_filter).
    unfold user_counts. cbv zeta. cbn [TP FP FN LIKED].
    rewrite agg_sum_count.
    pose proof (count_rows_where_bounds (is_hit k) g) as Htp.
    set (tp := count_rows_where (is_hit k) g) in *.
    unfold agg_size. fold k n.
    unfold Int64.max_value in *.
    assert (Hfp : Int64.sub k tp = k - tp) by (apply wrap_in_range; int64_lia).
    assert (Hfn : Int64.sub (Z.of_nat (length g)) tp = Z.of_nat (length g) - tp)
      by (apply wrap_in_range; int64_lia).
    rewrite Hfp, Hfn.
    assert (Htn : Int64.sub (n - k) (Z.of_nat (length g) - tp)
                  = n - k - (Z.of_nat (length g) - tp))
      by (apply wrap_in_range; subst n; int64_lia).
    rewrite Htn. lia.
Qed.

Lemma confusion_cells_sum_to_catalog_witness :
  let merged :=
    [ {| User := 1; Item := 10; Rank := Some 1; Interacted := true |};
      {| User := 1; Item := 11; Rank := None; Interacted := true |};
      {| User := 2; Item := 12; Rank := Some 2; Interacted := true |} ] in
  exists rows,
    fst (ClassificationMetric.calc_per_user_from_confusion_df
           (Accuracy 2) (calc_confusions merged (metric_k (Accuracy 2))) [10; 11; 12; 13; 14])
    = ConfusionTN rows
    /\ map fst rows
       = map fst (confusion_rows (calc_confusions merged (metric_k (Accuracy 2))))
    /\ Forall (fun '(_, (c, tn)) =>
                 TP c + FP c + FN c + tn = Z.of_nat (length [10; 11; 12; 13; 14]))
              rows.
Proof.
  intros merged.
  apply (confusion_cells_sum_to_catalog (Accuracy 2) merged [10; 11; 12; 13; 14]).
  - simpl. lia.
  - vm_compute. discriminate.
  - vm_compute. discriminate.
Defined.
